(** * res-downloader: audio extraction and transcription session

    A shallow embedding of [core/asr.go] of res-downloader.  The repository
    carries two revisions of that file.  The revision that parses the
    container with [abema/go-mp4] (classifier, ADTS synthesis, sample table
    walk) is embedded at top level; the parts of the revision built on
    [gomedia/go-mp4] that differ from it are embedded in [Module Gomedia].

    Conventions.
    - A fixed-width Go integer is a [Z] with its wrap-around written out
      ([to_uint8], [to_uint16], [to_int64]).
    - A byte slice is a [list Z] of values below 256.
    - Go strings are [string]; a [map[string]bool] is a [gmap string bool].
    - Errors built with [fmt.Errorf] are constructors of [error] that keep
      the data the message is formatted from.
    - The network, the file system and the container parser are oracles
      bundled in records; every request the code issues is logged as an
      [Event], in program order. *)

From Stdlib Require Import ZArith Lia List Bool Ascii String.
From stdpp Require Import base option list strings pretty gmap.

Local Open Scope Z_scope.

(** ** Fixed-width integers *)

Definition to_uint8 (x : Z) : Z := x mod 2 ^ 8.
Definition to_uint16 (x : Z) : Z := x mod 2 ^ 16.

(** Conversion to [int64]: two's complement wrap-around. *)
Definition to_int64 (x : Z) : Z := (x + 2 ^ 63) mod 2 ^ 64 - 2 ^ 63.

(** The bit field [hi..lo] of [x], as in "bits 12..11 of the frame length". *)
Definition bits (hi lo x : Z) : Z := Z.land (Z.shiftr x lo) (2 ^ (hi - lo + 1) - 1).

(** ** Audio codec classifier *)

(** [gomp4.MP4AInfo]: the fields the code reads. *)
Record MP4AInfo := {
  OTI : Z;            (* uint8 *)
  AudOTI : Z;         (* uint8 *)
  ChannelCount : Z    (* uint16 *)
}.

Inductive audioCodecType :=
  | audioCodecAAC
  | audioCodecMP3
  | audioCodecHEAAC
  | audioCodecUnknown.

#[global] Instance audioCodecType_eq_dec : EqDecision audioCodecType.
Proof. solve_decision. Defined.

(** [%d] of a non-negative integer. *)
Definition fmt_d (n : Z) : string := pretty (Z.to_N n).

Definition hex_digit (d : Z) : string :=
  match d with
  | 0 => "0" | 1 => "1" | 2 => "2" | 3 => "3" | 4 => "4" | 5 => "5"
  | 6 => "6" | 7 => "7" | 8 => "8" | 9 => "9" | 10 => "A" | 11 => "B"
  | 12 => "C" | 13 => "D" | 14 => "E" | _ => "F"
  end.

(** [%02X] of a [uint8]. *)
Definition fmt_02X (n : Z) : string := hex_digit (n / 16) +:+ hex_digit (n mod 16).

Definition detectAudioCodec (mp4aInfo : option MP4AInfo) : audioCodecType * Z * string :=
  match mp4aInfo with
  | None => (audioCodecAAC, 1, "aac (默认LC)")
  | Some info =>
    let oti := OTI info in
    match oti with
    | 0x6B => (audioCodecMP3, 0, "mp3 (MPEG-1 Layer III)")
    | 0x69 => (audioCodecMP3, 0, "mp3 (MPEG-2 Layer III)")
    | 0x66 => (audioCodecAAC, 0, "aac (MPEG-2 Main)")
    | 0x67 => (audioCodecAAC, 1, "aac (MPEG-2 LC)")
    | 0x68 => (audioCodecAAC, 2, "aac (MPEG-2 SSR)")
    | 0x40 =>
      let audOTI := AudOTI info in
      match audOTI with
      | 1 => (audioCodecAAC, 0, "aac (MPEG-4 Main)")
      | 2 => (audioCodecAAC, 1, "aac (MPEG-4 LC)")
      | 3 => (audioCodecAAC, 2, "aac (MPEG-4 SSR)")
      | 4 => (audioCodecAAC, 3, "aac (MPEG-4 LTP)")
      | 5 => (audioCodecHEAAC, 1, "aac (HE-AAC/SBR - 不支持)")
      | 29 => (audioCodecHEAAC, 1, "aac (HE-AACv2/PS - 不支持)")
      | _ => (audioCodecAAC, 1, "aac (MPEG-4 " +:+ ("AudOTI=" +:+ fmt_d audOTI +:+ " (as LC)") +:+ ")")
      end
    | _ => (audioCodecAAC, 1, "aac (OTI=0x" +:+ fmt_02X oti +:+ " as LC)")
    end
  end.

Definition codecTypeOf (r : audioCodecType * Z * string) : audioCodecType := fst (fst r).
Definition profileOf (r : audioCodecType * Z * string) : Z := snd (fst r).

(** ** Bitstream synthesizer *)

(** [makeADTSHeader]: all operands are [uint8] except [frameLen] and
    [adtsLen], which are [uint16]. *)
Definition makeADTSHeader (profile freqIdx chanConf frameLen : Z) : list Z :=
  let adtsLen := to_uint16 (frameLen + 7) in
  [ 0xFF;
    0xF1;
    Z.lor (Z.lor (to_uint8 (Z.shiftl profile 6)) (to_uint8 (Z.shiftl freqIdx 2)))
          (Z.shiftr chanConf 2);
    Z.lor (to_uint8 (Z.shiftl (Z.land chanConf 0x3) 6))
          (to_uint8 (Z.land (Z.shiftr adtsLen 11) 0x3));
    to_uint8 (Z.shiftr adtsLen 3);
    Z.lor (to_uint8 (Z.shiftl (to_uint8 (Z.land adtsLen 0x7)) 5)) 0x1F;
    0xFC ].

(** The 13-bit [aac_frame_length] field an ADTS reader takes out of a header:
    the low two bits of byte 3, byte 4, and the high three bits of byte 5. *)
Definition adtsFrameLength (h : list Z) : Z :=
  Z.lor (Z.lor (Z.shiftl (Z.land (nth 3 h 0) 0x3) 11) (Z.shiftl (nth 4 h 0) 3))
        (Z.shiftr (nth 5 h 0) 5).

Definition rates : list Z :=
  [96000; 88200; 64000; 48000; 44100; 32000; 24000; 22050; 16000; 12000; 11025; 8000; 7350].

(** First index of [rs] (counted from [i]) whose entry satisfies [p]. *)
Fixpoint scan_rates (p : Z -> bool) (i : Z) (rs : list Z) : option Z :=
  match rs with
  | [] => None
  | r :: rs' => if p r then Some i else scan_rates p (i + 1) rs'
  end.

Definition aacFrequencyIndex (sampleRate : Z) : Z :=
  match scan_rates (fun r => sampleRate =? r) 0 rates with
  | Some i => to_uint8 i
  | None =>
    match scan_rates (fun r => sampleRate >=? r) 0 rates with
    | Some i => to_uint8 i
    | None => 4
    end
  end.

(** Channel configuration handed to [makeADTSHeader] by [videoToAudio]. *)
Definition channelCountOf (mp4a : option MP4AInfo) : Z :=
  match mp4a with
  | Some info => if 0 <? ChannelCount info then to_uint8 (ChannelCount info) else 2
  | None => 2
  end.


(** ** Strings and paths *)

Inductive GOOS := unix | windows.

(** [os.IsPathSeparator]. *)
Definition IsPathSeparator (os : GOOS) (c : ascii) : bool :=
  match os with
  | unix => Ascii.eqb c "/"
  | windows => Ascii.eqb c "\" || Ascii.eqb c "/"
  end.

(** State of the backward scan of [filepath.Ext] after it has gone through a
    suffix of the path. *)
Inductive ExtScan :=
  | ScanFound (ext : string)   (* a dot was met: [return path[i:]] *)
  | ScanStopped                (* a path separator was met: the loop ended *)
  | ScanRunning.               (* neither so far *)

Fixpoint scanExt (os : GOOS) (path : string) : ExtScan :=
  match path with
  | EmptyString => ScanRunning
  | String c rest =>
    match scanExt os rest with
    | ScanFound e => ScanFound e
    | ScanStopped => ScanStopped
    | ScanRunning =>
      if IsPathSeparator os c then ScanStopped
      else if Ascii.eqb c "." then ScanFound (String c rest)
      else ScanRunning
    end
  end.

(** [filepath.Ext]: the suffix that starts at the last dot of the last path
    element, or the empty string. *)
Definition Ext (os : GOOS) (path : string) : string :=
  match scanExt os path with
  | ScanFound e => e
  | _ => EmptyString
  end.

Definition lowerByte (c : ascii) : ascii :=
  let n := N_of_ascii c in
  if (65 <=? n)%N && (n <=? 90)%N then ascii_of_N (n + 32) else c.

(** [strings.ToLower], letter by letter on ASCII bytes.  On other input Go
    maps whole runes; the only runes it sends into ASCII are U+212A and
    U+0130, to the letters k and i, which no key of [audioExts] contains, so
    the table lookup in [Run] comes out the same. *)
Fixpoint ToLower (s : string) : string :=
  match s with
  | EmptyString => EmptyString
  | String c rest => String (lowerByte c) (ToLower rest)
  end.

Definition HasPrefix (s prefix : string) : bool := String.prefix prefix s.

Definition TrimPrefix (s prefix : string) : string :=
  if HasPrefix s prefix
  then String.substring (String.length prefix) (String.length s - String.length prefix) s
  else s.

Fixpoint HasSuffix (s suffix : string) : bool :=
  String.eqb s suffix ||
  match s with
  | EmptyString => false
  | String _ rest => HasSuffix rest suffix
  end.

Definition TrimSuffix (s suffix : string) : string :=
  if HasSuffix s suffix
  then String.substring 0 (String.length s - String.length suffix) s
  else s.

(** [strings.Join]. *)
Fixpoint Join (elems : list string) (sep : string) : string :=
  match elems with
  | [] => EmptyString
  | [e] => e
  | e :: rest => e +:+ sep +:+ Join rest sep
  end.

(** The [audioExts] table of [Run]. *)
Definition audioExts : gmap string bool :=
  <[".mp3" := true]> (<[".wav" := true]> (<[".flac" := true]> (<[".m4a" := true]>
  (<[".ogg" := true]> (<[".aac" := true]> (<[".wma" := true]> ∅)))))).

(** Indexing a Go [map[string]bool]: a missing key reads as [false]. *)
Definition mapIndex (m : gmap string bool) (k : string) : bool := default false (m !! k).

(** ** Container data model ([gomp4.ProbeInfo]) *)

Inductive Codec := CodecUnknown | CodecAVC1 | CodecMP4A.

#[global] Instance Codec_eq_dec : EqDecision Codec.
Proof. solve_decision. Defined.

Definition codecNumber (c : Codec) : Z :=
  match c with CodecUnknown => 0 | CodecAVC1 => 1 | CodecMP4A => 2 end.

Record Chunk := {
  DataOffset : Z;        (* uint64 *)
  SamplesPerChunk : Z    (* uint32 *)
}.

Record Sample := {
  Size : Z               (* uint32 *)
}.

Record Track := {
  TrackID : Z;
  Timescale : Z;
  TCodec : Codec;
  Encrypted : bool;
  Samples : list Sample;
  Chunks : list Chunk;
  MP4A : option MP4AInfo
}.

Record ProbeInfo := {
  Tracks : list Track
}.

(** ** Errors *)

Inductive error :=
  | ErrOpen                                         (* os.Open failed *)
  | ErrProbe                                        (* gomp4.Probe failed *)
  | ErrNoAudioTrack (trackInfo : list string)
  | ErrUnsupportedCodec (codecName : string)
  | ErrSampleTable                                  (* empty sample offset table *)
  | ErrSeek (idx : nat) (offset : Z)
  | ErrRead (idx : nat) (offset size : Z)
  | ErrEmptyOutput                                  (* nothing was extracted *)
  | ErrCreate                                       (* os.Create failed *)
  | ErrStat                                         (* os.Stat failed *)
  | ErrExtract (cause : error)                      (* Run: extraction failed *)
  | ErrUploadStep (cause : error)                   (* Run: upload failed *)
  | ErrCreateTaskStep (cause : error)               (* Run: task creation failed *)
  | ErrPollStep (cause : error)                     (* Run: polling failed *)
  | ErrReadFile
  | ErrTransport (what : string)                    (* request failed before a reply *)
  | ErrDecode (body : string)                       (* reply is not the expected JSON *)
  | ErrReqUploadCode (code : Z)
  | ErrPutRequest
  | ErrPutTransport (part : Z)
  | ErrPutStatus (part status : Z) (body : string)
  | ErrCommitCode (code : Z) (body : string)
  | ErrCreateTaskCode (code : Z) (message body : string)
  | ErrQueryCode (code : Z) (message : string)
  | ErrResultJSON                                   (* the embedded result does not parse *)
  | ErrASRFailed (remark : string)
  | ErrRequest (what : string)                      (* http.NewRequest failed *)
  | ErrTimeout.

(** ** Extraction pipeline ([videoToAudio]) *)

(** The file system: path to content.  Whether [os.Create], [os.Stat] and
    [os.Remove] succeed on a path is for the machine to say: [videoToAudio]
    takes the three answers as [Create], [Stat] and [Remove].  The writes to
    the created file are taken to succeed ([videoToAudio] drops what
    [outputFile.Write] returns). *)
Abbreviation FileSystem := (gmap string (list Z)).

(** [os.Remove(path)], whose result [videoToAudio] drops: the file is gone
    when the machine lets it be removed, and stays as it is otherwise. *)
Definition removeFile (Remove : string -> bool) (path : string) (fs : FileSystem)
  : FileSystem :=
  if Remove path then delete path fs else fs.

(** The loop over [info.Tracks] that stops at the first [CodecMP4A] track. *)
Fixpoint findAudioTrack (tracks : list Track) : option Track :=
  match tracks with
  | [] => None
  | t :: rest => if decide (TCodec t = CodecMP4A) then Some t else findAudioTrack rest
  end.

Definition fmt_v (b : bool) : string := if b then "true" else "false".

(** Diagnostic lines of the "no audio track" error. *)
Fixpoint trackInfoFrom (i : Z) (tracks : list Track) : list string :=
  match tracks with
  | [] => []
  | t :: rest =>
    ("Track" +:+ fmt_d i +:+ ": codec=" +:+ fmt_d (codecNumber (TCodec t))
       +:+ ", encrypted=" +:+ fmt_v (Encrypted t)) :: trackInfoFrom (i + 1) rest
  end.

(** Output suffix and format tag chosen from the codec type. *)
Definition outputNaming (codecType : audioCodecType) : string * string :=
  match codecType with
  | audioCodecMP3 => ("_temp.mp3", "mp3")
  | audioCodecAAC => ("_temp.aac", "aac")
  | _ => ("_temp.aac", "aac")
  end.

Record sampleInfo := {
  offset : Z;   (* int64 *)
  size : Z      (* uint32 *)
}.

(** Inner loop over one chunk: [n] iterations remain, [chunkOffset] is the
    running offset, [sampleIdx] the index into [samples].  The loop also ends
    when the sample table is exhausted. *)
Fixpoint walkChunk (samples : list Sample) (n : nat) (chunkOffset : Z) (sampleIdx : nat)
  : list sampleInfo * nat :=
  match n with
  | O => ([], sampleIdx)
  | S n' =>
    match samples !! sampleIdx with
    | None => ([], sampleIdx)
    | Some sample =>
      let '(more, idx') :=
        walkChunk samples n' (to_int64 (chunkOffset + Size sample)) (S sampleIdx) in
      ({| offset := chunkOffset; size := Size sample |} :: more, idx')
    end
  end.

(** Outer loop over the chunk table. *)
Fixpoint walkChunks (samples : list Sample) (chunks : list Chunk) (sampleIdx : nat)
  : list sampleInfo :=
  match chunks with
  | [] => []
  | chunk :: rest =>
    let '(here, idx') :=
      walkChunk samples (Z.to_nat (SamplesPerChunk chunk)) (to_int64 (DataOffset chunk)) sampleIdx in
    here ++ walkChunks samples rest idx'
  end.

Definition buildSampleOffsets (t : Track) : list sampleInfo :=
  walkChunks (Samples t) (Chunks t) 0.

(** [inputFile.Seek(off, io.SeekStart)] followed by [io.ReadFull] of [n]
    bytes: the bytes [off, off+n) of the file, when the file has them. *)
Definition readFull (file : list Z) (off : Z) (n : Z) : option (list Z) :=
  let buf := take (Z.to_nat n) (drop (Z.to_nat off) file) in
  if decide (length buf = Z.to_nat n) then Some buf else None.

(** The loop over [sampleOffsets]: [out] is what has been written to the
    output file so far.  On an error the loop stops with what it has written
    until then. *)
Fixpoint extractSamples (codecType : audioCodecType) (aacProfile freqIdx channelCount : Z)
    (inputFile : list Z) (idx : nat) (sampleOffsets : list sampleInfo)
    (out : list Z) (hasData : bool) : (error * list Z) + (list Z * bool) :=
  match sampleOffsets with
  | [] => inr (out, hasData)
  | si :: rest =>
    if size si =? 0 then
      extractSamples codecType aacProfile freqIdx channelCount inputFile (S idx) rest out hasData
    else if offset si <? 0 then inl (ErrSeek idx (offset si), out)
    else
      match readFull inputFile (offset si) (size si) with
      | None => inl (ErrRead idx (offset si) (size si), out)
      | Some buf =>
        let out1 :=
          if decide (codecType = audioCodecAAC)
          then out ++ makeADTSHeader aacProfile freqIdx channelCount (to_uint16 (size si))
          else out in
        extractSamples codecType aacProfile freqIdx channelCount inputFile (S idx) rest
          (out1 ++ buf) true
      end
  end.

(** [videoToAudio]: the file system after the call and what the call
    returns, the output path and the format tag or an error.  [Probe] is the
    container box reader, [gomp4.Probe]; [Create path], [Stat path] and
    [Remove path] say whether [os.Create], [os.Stat] and [os.Remove] succeed
    on [path]. *)
Definition videoToAudio (os : GOOS) (Probe : list Z -> option ProbeInfo)
    (Create Stat Remove : string -> bool)
    (fs : FileSystem) (inputPath : string) : FileSystem * (error + (string * string)) :=
  match fs !! inputPath with
  | None => (fs, inl ErrOpen)
  | Some inputFile =>
    match Probe inputFile with
    | None => (fs, inl ErrProbe)
    | Some info =>
      match findAudioTrack (Tracks info) with
      | None => (fs, inl (ErrNoAudioTrack (trackInfoFrom 0 (Tracks info))))
      | Some audioTrack =>
        let '(codecType, aacProfile, codecName) := detectAudioCodec (MP4A audioTrack) in
        if decide (codecType = audioCodecHEAAC) then (fs, inl (ErrUnsupportedCodec codecName))
        else
          let '(outputExt, audioFormat) := outputNaming codecType in
          let channelCount := channelCountOf (MP4A audioTrack) in
          let freqIdx := aacFrequencyIndex (Timescale audioTrack) in
          let outputPath := TrimSuffix inputPath (Ext os inputPath) +:+ outputExt in
          if negb (Create outputPath) then (fs, inl ErrCreate)
          else
            let fs1 := <[outputPath := []]> fs in
            let sampleOffsets := buildSampleOffsets audioTrack in
            match sampleOffsets with
            | [] => (removeFile Remove outputPath fs1, inl ErrSampleTable)
            | _ =>
              match extractSamples codecType aacProfile freqIdx channelCount inputFile
                      0 sampleOffsets [] false with
              | inl (e, written) =>
                (removeFile Remove outputPath (<[outputPath := written]> fs1), inl e)
              | inr (out, hasData) =>
                let fs2 := <[outputPath := out]> fs1 in
                if negb hasData then (removeFile Remove outputPath fs2, inl ErrEmptyOutput)
                else if negb (Stat outputPath) then (fs2, inl ErrStat)
                else (fs2, inr (outputPath, audioFormat))
              end
            end
      end
    end
  end.

(** ** Transcription session: data *)

Definition API_REQ_UPLOAD : string :=
  "https://member.bilibili.com/x/bcut/rubick-interface/resource/create".
Definition API_COMMIT_UPLOAD : string :=
  "https://member.bilibili.com/x/bcut/rubick-interface/resource/create/complete".
Definition API_CREATE_TASK : string :=
  "https://member.bilibili.com/x/bcut/rubick-interface/task".
Definition API_QUERY_RESULT : string :=
  "https://member.bilibili.com/x/bcut/rubick-interface/task/result".

Record BcutASR := {
  AudioPath : string;
  AudioFormat : string;
  ResourceID : string;
  DownloadURL : string;
  TaskID : string;
  Cookie : string;
  UploadID : string;
  InBossKey : string;
  Etags : list string
}.

Definition NewBcutASR (audioPath : string) : BcutASR :=
  {| AudioPath := audioPath; AudioFormat := ""; ResourceID := ""; DownloadURL := "";
     TaskID := ""; Cookie := ""; UploadID := ""; InBossKey := ""; Etags := [] |}.

Record ASRUtterance := {
  Transcript : string;
  StartTime : Z;
  EndTime : Z
}.

Record ASRResult := {
  Utterances : list ASRUtterance
}.

(** A form body ([url.Values]), as the list of the fields that were set. *)
Abbreviation Form := (list (string * string)).

(** Decoded reply of the upload plan request. *)
Record UploadResp := {
  up_Code : Z;
  up_ResourceID : string;
  up_UploadID : string;
  up_UploadURLs : list string;
  up_PerUploadSize : Z;      (* int64 *)
  up_DownloadURL : string;
  up_InBossKey : string
}.

(** [http.Header], keyed by canonical header names. *)
Abbreviation Header := (gmap string (list string)).

Record PutResp := {
  put_StatusCode : Z;
  put_Header : Header;
  put_Body : string
}.

Record CommitResp := {
  cm_Code : Z;
  cm_DownloadURL : string;
  cm_ResourceID : string
}.

Record TaskResp := {
  tk_Code : Z;
  tk_Message : string;
  tk_TaskID : string
}.

Record QueryResp := {
  q_Code : Z;
  q_Message : string;
  q_State : Z;
  q_Remark : string;
  q_Result : string
}.

(** What a request comes back with: nothing that can be used (the transfer
    or the reading of the body failed), a body that does not decode, or a
    decoded reply together with its raw body. *)
Inductive Reply (A : Type) :=
  | NoReply (what : string)
  | BadBody (body : string)
  | Decoded (a : A) (body : string).
Arguments NoReply {A} what.
Arguments BadBody {A} body.
Arguments Decoded {A} a body.

Inductive PutReply :=
  | PutBadRequest           (* http.NewRequest failed *)
  | PutNoReply              (* the transfer failed *)
  | PutReplied (r : PutResp).

(** What a query comes to: [http.NewRequest] refuses the URL and nothing is
    sent, or the request is sent and comes back as any other. *)
Inductive QueryReply :=
  | QueryBadRequest (what : string)
  | QueryReplied (reply : Reply QueryResp).

(** Everything the session sends or does to the outside, in program order. *)
Inductive Event :=
  | EvExtract (path : string)
  | EvReadFile (path : string)
  | EvPostForm (url : string) (form : Form)
  | EvPut (url : string) (chunk : list Z)
  | EvPostJSON (url : string) (fields : Form)
  | EvGet (url : string)
  | EvSleep (seconds : Z).

(** The outside world.  Each network oracle sees the events so far, so a reply
    may depend on the whole history of the session. *)
Record World := {
  goos : GOOS;
  Probe : list Z -> option ProbeInfo;
  Create : string -> bool;                          (* os.Create succeeds *)
  Stat : string -> bool;                            (* os.Stat succeeds *)
  Remove : string -> bool;                          (* os.Remove succeeds *)
  reqUploadReply : list Event -> Form -> Reply UploadResp;
  putReply : list Event -> string -> list Z -> PutReply;
  commitReply : list Event -> Form -> Reply CommitResp;
  createTaskReply : list Event -> Form -> Reply TaskResp;
  queryReply : list Event -> string -> QueryReply;
  unmarshalASRResult : string -> option ASRResult   (* json.Unmarshal into ASRResult *)
}.

(** ** Transcription session: the state and error monad *)

Record Session := {
  asr : BcutASR;
  files : FileSystem;
  events : list Event
}.

Inductive Outcome (A : Type) :=
  | Ok (a : A)
  | Err (e : error)
  | Panic (what : string).     (* a Go run-time panic: the process dies *)
Arguments Ok {A} a.
Arguments Err {A} e.
Arguments Panic {A} what.

Definition M (A : Type) : Type := Session -> Session * Outcome A.

Definition ret {A} (a : A) : M A := fun s => (s, Ok a).
Definition fail {A} (e : error) : M A := fun s => (s, Err e).
Definition panic {A} (what : string) : M A := fun s => (s, Panic what).

Definition bind {A B} (m : M A) (k : A -> M B) : M B :=
  fun s =>
    match m s with
    | (s', Ok a) => k a s'
    | (s', Err e) => (s', Err e)
    | (s', Panic p) => (s', Panic p)
    end.

Notation "x <- m ;; k" := (bind m (fun x => k))
  (at level 100, m at next level, right associativity).
Notation "m ;;; k" := (bind m (fun _ => k))
  (at level 100, right associativity).

(** Wrap the error of a step, as [Run] does with [fmt.Errorf]. *)
Definition wrapErr {A} (f : error -> error) (m : M A) : M A :=
  fun s =>
    match m s with
    | (s', Err e) => (s', Err (f e))
    | r => r
    end.

Definition getASR : M BcutASR := fun s => (s, Ok (asr s)).
Definition getEvents : M (list Event) := fun s => (s, Ok (events s)).
Definition setASR (f : BcutASR -> BcutASR) : M unit :=
  fun s => ({| asr := f (asr s); files := files s; events := events s |}, Ok tt).
Definition emit (e : Event) : M unit :=
  fun s => ({| asr := asr s; files := files s; events := events s ++ [e] |}, Ok tt).

Definition set_AudioPath (v : string) (a : BcutASR) : BcutASR :=
  {| AudioPath := v; AudioFormat := AudioFormat a; ResourceID := ResourceID a;
     DownloadURL := DownloadURL a; TaskID := TaskID a; Cookie := Cookie a;
     UploadID := UploadID a; InBossKey := InBossKey a; Etags := Etags a |}.
Definition set_AudioFormat (v : string) (a : BcutASR) : BcutASR :=
  {| AudioPath := AudioPath a; AudioFormat := v; ResourceID := ResourceID a;
     DownloadURL := DownloadURL a; TaskID := TaskID a; Cookie := Cookie a;
     UploadID := UploadID a; InBossKey := InBossKey a; Etags := Etags a |}.
Definition set_DownloadURL (v : string) (a : BcutASR) : BcutASR :=
  {| AudioPath := AudioPath a; AudioFormat := AudioFormat a; ResourceID := ResourceID a;
     DownloadURL := v; TaskID := TaskID a; Cookie := Cookie a;
     UploadID := UploadID a; InBossKey := InBossKey a; Etags := Etags a |}.
Definition set_TaskID (v : string) (a : BcutASR) : BcutASR :=
  {| AudioPath := AudioPath a; AudioFormat := AudioFormat a; ResourceID := ResourceID a;
     DownloadURL := DownloadURL a; TaskID := v; Cookie := Cookie a;
     UploadID := UploadID a; InBossKey := InBossKey a; Etags := Etags a |}.
Definition set_Etags (v : list string) (a : BcutASR) : BcutASR :=
  {| AudioPath := AudioPath a; AudioFormat := AudioFormat a; ResourceID := ResourceID a;
     DownloadURL := DownloadURL a; TaskID := TaskID a; Cookie := Cookie a;
     UploadID := UploadID a; InBossKey := InBossKey a; Etags := v |}.
(** The four fields [upload] takes from the upload plan. *)
Definition set_plan (r : UploadResp) (a : BcutASR) : BcutASR :=
  {| AudioPath := AudioPath a; AudioFormat := AudioFormat a; ResourceID := up_ResourceID r;
     DownloadURL := up_DownloadURL r; TaskID := TaskID a; Cookie := Cookie a;
     UploadID := up_UploadID r; InBossKey := up_InBossKey r; Etags := Etags a |}.

Definition getFiles : M FileSystem := fun s => (s, Ok (files s)).
Definition setFiles (fs : FileSystem) : M unit :=
  fun s => ({| asr := asr s; files := fs; events := events s |}, Ok tt).

(** ** Transcription session: upload *)

Definition upperByte (c : ascii) : ascii :=
  let n := N_of_ascii c in
  if (97 <=? n)%N && (n <=? 122)%N then ascii_of_N (n - 32) else c.

(** [textproto.CanonicalMIMEHeaderKey] on a header name made of token
    characters: a letter is upper case at the start and after a hyphen, lower
    case elsewhere. *)
Fixpoint canonicalFrom (upper : bool) (key : string) : string :=
  match key with
  | EmptyString => EmptyString
  | String c rest =>
    String (if upper then upperByte c else lowerByte c) (canonicalFrom (Ascii.eqb c "-") rest)
  end.

Definition CanonicalMIMEHeaderKey (key : string) : string := canonicalFrom true key.

(** [http.Header.Get]: first value under the canonical form of [key], or the
    empty string. *)
Definition Header_Get (h : Header) (key : string) : string :=
  match h !! CanonicalMIMEHeaderKey key with
  | Some (v :: _) => v
  | _ => ""
  end.

(** The slice expression [data[low:high]].  Go panics unless
    [0 <= low <= high <= cap(data)]; [upload] never asks for a [high] beyond
    the length, so the length stands for the capacity. *)
Definition sliceBytes (data : list Z) (low high : Z) : option (list Z) :=
  if (0 <=? low) && (low <=? high) && (high <=? Z.of_nat (length data))
  then Some (take (Z.to_nat (high - low)) (drop (Z.to_nat low) data))
  else None.

(** Bounds of the chunk with index [i]: [start] and the clamped [end]. *)
Definition chunkStart (perSize : Z) (i : nat) : Z := to_int64 (Z.of_nat i * perSize).

Definition chunkEnd (fileLen perSize : Z) (i : nat) : Z :=
  let end0 := to_int64 (chunkStart perSize i + perSize) in
  if end0 >? fileLen then fileLen else end0.

Definition chunkOf (fileData : list Z) (perSize : Z) (i : nat) : option (list Z) :=
  sliceBytes fileData (chunkStart perSize i) (chunkEnd (Z.of_nat (length fileData)) perSize i).

Definition etagOf (h : Header) : string :=
  let etag := Header_Get h "Etag" in
  if String.eqb etag "" then Header_Get h "ETag" else etag.

(** The loop over [uploadResp.Data.UploadURLs], from index [i] on. *)
Fixpoint uploadChunks (w : World) (fileData : list Z) (perSize : Z) (i : nat)
    (urls : list string) : M unit :=
  match urls with
  | [] => ret tt
  | uploadURL :: rest =>
    match chunkOf fileData perSize i with
    | None => panic "slice bounds out of range"
    | Some chunk =>
      evs <- getEvents ;;
      match putReply w evs uploadURL chunk with
      | PutBadRequest => fail ErrPutRequest
      | PutNoReply => emit (EvPut uploadURL chunk) ;;; fail (ErrPutTransport (Z.of_nat i + 1))
      | PutReplied r =>
        emit (EvPut uploadURL chunk) ;;;
        if negb (put_StatusCode r =? 200) && negb (put_StatusCode r =? 201)
        then fail (ErrPutStatus (Z.of_nat i + 1) (put_StatusCode r) (put_Body r))
        else
          setASR (fun a => set_Etags (Etags a ++ [etagOf (put_Header r)]) a) ;;;
          uploadChunks w fileData perSize (S i) rest
      end
    end
  end.

(** [upload] once [os.ReadFile] has returned [fileData]; [a] is the session
    record at entry. *)
Definition uploadData (w : World) (a : BcutASR) (fileData : list Z) : M unit :=
  let audioFmt := if String.eqb (AudioFormat a) "" then "mp3" else AudioFormat a in
  let formValues :=
    [("type", "2"); ("name", "audio." +:+ audioFmt);
     ("size", fmt_d (Z.of_nat (length fileData)));
     ("resource_file_type", audioFmt); ("model_id", "7")] in
  evs <- getEvents ;;
  emit (EvPostForm API_REQ_UPLOAD formValues) ;;;
  match reqUploadReply w evs formValues with
  | NoReply what => fail (ErrTransport what)
  | BadBody body => fail (ErrDecode body)
  | Decoded uploadResp _ =>
    if negb (up_Code uploadResp =? 0) then fail (ErrReqUploadCode (up_Code uploadResp))
    else
      setASR (set_plan uploadResp) ;;;
      setASR (set_Etags []) ;;;
      uploadChunks w fileData (up_PerUploadSize uploadResp) 0 (up_UploadURLs uploadResp) ;;;
      a2 <- getASR ;;
      let commitValues :=
        [("in_boss_key", InBossKey a2); ("resource_id", ResourceID a2);
         ("etags", Join (Etags a2) ","); ("upload_id", UploadID a2); ("model_id", "7")] in
      evs2 <- getEvents ;;
      emit (EvPostForm API_COMMIT_UPLOAD commitValues) ;;;
      match commitReply w evs2 commitValues with
      | NoReply what => fail (ErrTransport what)
      | BadBody body => fail (ErrDecode body)
      | Decoded commitResult body =>
        if negb (cm_Code commitResult =? 0)
        then fail (ErrCommitCode (cm_Code commitResult) body)
        else if negb (String.eqb (cm_DownloadURL commitResult) "")
        then setASR (set_DownloadURL (cm_DownloadURL commitResult))
        else ret tt
      end
  end.

Definition upload (w : World) : M unit :=
  a <- getASR ;;
  fs <- getFiles ;;
  emit (EvReadFile (AudioPath a)) ;;;
  match fs !! AudioPath a with
  | None => fail ErrReadFile
  | Some fileData => uploadData w a fileData
  end.

(** ** Transcription session: task creation, polling, text *)

Definition createTask (w : World) : M unit :=
  a <- getASR ;;
  let taskData := [("resource", DownloadURL a); ("model_id", "7")] in
  evs <- getEvents ;;
  emit (EvPostJSON API_CREATE_TASK taskData) ;;;
  match createTaskReply w evs taskData with
  | NoReply what => fail (ErrTransport what)
  | BadBody body => fail (ErrDecode body)
  | Decoded taskResp body =>
    if negb (tk_Code taskResp =? 0)
    then fail (ErrCreateTaskCode (tk_Code taskResp) (tk_Message taskResp) body)
    else setASR (set_TaskID (tk_TaskID taskResp))
  end.

Definition queryURL (taskID : string) : string :=
  API_QUERY_RESULT +:+ "?model_id=7&task_id=" +:+ taskID.

Definition genericRemark : string := "未知错误(可能是音频格式不支持或文件损坏)".

(** Remark surfaced on state 3. *)
Definition failureRemark (remark : string) : string :=
  if String.eqb remark "" then genericRemark else remark.

(** The [for i := 0; i < 500; i++] loop with [n] iterations left.
    [surface] is what the state-3 branch does with the remark. *)
Fixpoint pollAttempts (surface : string -> string) (w : World) (n : nat) : M ASRResult :=
  match n with
  | O => fail ErrTimeout
  | S n' =>
    a <- getASR ;;
    evs <- getEvents ;;
    match queryReply w evs (queryURL (TaskID a)) with
    | QueryBadRequest what => fail (ErrRequest what)
    | QueryReplied reply =>
      emit (EvGet (queryURL (TaskID a))) ;;;
      match reply with
      | NoReply what => fail (ErrTransport what)
      | BadBody body => fail (ErrDecode body)
      | Decoded resultResp _ =>
        if negb (q_Code resultResp =? 0)
        then fail (ErrQueryCode (q_Code resultResp) (q_Message resultResp))
        else
          match q_State resultResp with
          | 4 =>
            match unmarshalASRResult w (q_Result resultResp) with
            | None => fail ErrResultJSON
            | Some asrResult => ret asrResult
            end
          | 3 => fail (ErrASRFailed (surface (q_Remark resultResp)))
          | _ => emit (EvSleep 3) ;;; pollAttempts surface w n'
          end
      end
    end
  end.

Definition pollResult (w : World) : M ASRResult := pollAttempts failureRemark w 500.

Definition newline : string := String "010"%char EmptyString.

(** The loop of [toText]: [i] is the index of the head of [rest], [n] is
    [len(result.Utterances)], [text] the builder. *)
Fixpoint toTextLoop (n : Z) (i : Z) (rest : list ASRUtterance) (text : string) : string :=
  match rest with
  | [] => text
  | utterance :: rest' =>
    let text1 := text +:+ Transcript utterance in
    let text2 := if i <? n - 1 then text1 +:+ newline else text1 in
    toTextLoop n (i + 1) rest' text2
  end.

Definition toText (result : ASRResult) : string :=
  toTextLoop (Z.of_nat (length (Utterances result))) 0 (Utterances result) "".

(** ** The whole flow ([Run]) *)

(** Steps 1 to 4 of [Run], from the assignment [asr.AudioPath = audioPath]
    on: upload, task creation, polling, text. *)
Definition runFrom (w : World) (audioPath : string) : M string :=
  setASR (set_AudioPath audioPath) ;;;
  wrapErr ErrUploadStep (upload w) ;;;
  wrapErr ErrCreateTaskStep (createTask w) ;;;
  result <- wrapErr ErrPollStep (pollResult w) ;;
  ret (toText result).

Definition Run (w : World) : M string :=
  a <- getASR ;;
  let ext := ToLower (Ext (goos w) (AudioPath a)) in
  audioPath <-
    (if negb (mapIndex audioExts ext) then
       emit (EvExtract (AudioPath a)) ;;;
       fs <- getFiles ;;
       let '(fs', r) := videoToAudio (goos w) (Probe w) (Create w) (Stat w) (Remove w) fs
           (AudioPath a) in
       setFiles fs' ;;;
       match r with
       | inl e => fail (ErrExtract e)
       | inr (extractedPath, audioFmt) =>
         setASR (set_AudioFormat audioFmt) ;;; ret extractedPath
       end
     else
       setASR (set_AudioFormat (TrimPrefix ext ".")) ;;; ret (AudioPath a)) ;;
  runFrom w audioPath.

(** ** The revision built on gomedia ([core/asr.go]) *)

Module Gomedia.

(** [mp4.MP4_CODEC_TYPE]. *)
Inductive MP4_CODEC_TYPE :=
  | MP4_CODEC_H264 | MP4_CODEC_H265 | MP4_CODEC_AAC | MP4_CODEC_G711A
  | MP4_CODEC_G711U | MP4_CODEC_MP2 | MP4_CODEC_MP3 | MP4_CODEC_OPUS.

#[global] Instance MP4_CODEC_TYPE_eq_dec : EqDecision MP4_CODEC_TYPE.
Proof. solve_decision. Defined.

Record TrackInfo := {
  Cid : MP4_CODEC_TYPE;
  SampleRate : Z;
  TrackId : Z
}.

Definition isAudio (t : TrackInfo) : bool :=
  bool_decide (Cid t = MP4_CODEC_AAC) || bool_decide (Cid t = MP4_CODEC_MP3)
  || bool_decide (Cid t = MP4_CODEC_OPUS).

(** The track loop: every audio track overwrites [audioTrack]; an AAC
    track also ends the loop. *)
Fixpoint selectLoop (tracks : list TrackInfo) (audioTrack : option TrackInfo)
  : option TrackInfo :=
  match tracks with
  | [] => audioTrack
  | t :: rest =>
    if isAudio t then
      if bool_decide (Cid t = MP4_CODEC_AAC) then Some t else selectLoop rest (Some t)
    else selectLoop rest audioTrack
  end.

Definition selectAudioTrack (tracks : list TrackInfo) : option TrackInfo :=
  selectLoop tracks None.

(** State 3 surfaces the remark as it is. *)
Definition pollResult (w : World) : M ASRResult := pollAttempts (fun remark => remark) w 500.

Fixpoint toTextLoop (rest : list ASRUtterance) (text : string) : string :=
  match rest with
  | [] => text
  | utterance :: rest' => toTextLoop rest' (text +:+ Transcript utterance)
  end.

Definition toText (result : ASRResult) : string := toTextLoop (Utterances result) "".

End Gomedia.

(** The extraction of the gomedia revision: the demuxer hands out packets
    that already carry their ADTS headers. *)
Module GomediaExtract.

(** [mp4.AVPacket]: the fields the code reads. *)
Record AVPacket := {
  PktTrackId : Z;
  Data : list Z
}.

(** The [for] loop over [demuxer.ReadPacket()]: [packets] are the packets
    handed out before the first error, [out] what has been written. *)
Fixpoint writePackets (audioTrackId : Z) (packets : list AVPacket) (out : list Z)
    (hasData : bool) : list Z * bool :=
  match packets with
  | [] => (out, hasData)
  | pkg :: rest =>
    if negb (PktTrackId pkg =? audioTrackId) then writePackets audioTrackId rest out hasData
    else writePackets audioTrackId rest (out ++ Data pkg) true
  end.

Definition outputNaming (cid : Gomedia.MP4_CODEC_TYPE) : string * string :=
  match cid with
  | Gomedia.MP4_CODEC_MP3 => ("_temp.mp3", "mp3")
  | _ => ("_temp.aac", "aac")
  end.

(** [videoToAudio] of [core/asr.go].  [ReadHead] and [ReadPackets] stand for
    the demuxer: the track list of a file, and its packets in file order;
    [Create path] and [Remove path] say whether [os.Create] and [os.Remove]
    succeed on [path]. *)
Definition videoToAudio (os : GOOS)
    (ReadHead : list Z -> option (list Gomedia.TrackInfo))
    (ReadPackets : list Z -> list AVPacket)
    (Create Remove : string -> bool)
    (fs : FileSystem) (inputPath : string) : FileSystem * (error + (string * string)) :=
  match fs !! inputPath with
  | None => (fs, inl ErrOpen)
  | Some inputFile =>
    match ReadHead inputFile with
    | None => (fs, inl ErrProbe)
    | Some tracks =>
      match Gomedia.selectAudioTrack tracks with
      | None => (fs, inl (ErrNoAudioTrack []))
      | Some audioTrack =>
        let '(outputExt, audioFormat) := outputNaming (Gomedia.Cid audioTrack) in
        let outputPath := TrimSuffix inputPath (Ext os inputPath) +:+ outputExt in
        if negb (Create outputPath) then (fs, inl ErrCreate)
        else
          let fs1 := <[outputPath := []]> fs in
          let '(out, hasData) :=
            writePackets (Gomedia.TrackId audioTrack) (ReadPackets inputFile) [] false in
          let fs2 := <[outputPath := out]> fs1 in
          if negb hasData then (removeFile Remove outputPath fs2, inl ErrEmptyOutput)
          else (fs2, inr (outputPath, audioFormat))
      end
    end
  end.

End GomediaExtract.

(** [Run] of [core/asr.go].  Its text is that of the other revision; the
    extraction, the poll and the text it calls are those of its own file.
    [ReadHead] and [ReadPackets] stand for the demuxer. *)
Module GomediaRun.

Definition runFrom (w : World) (audioPath : string) : M string :=
  setASR (set_AudioPath audioPath) ;;;
  wrapErr ErrUploadStep (upload w) ;;;
  wrapErr ErrCreateTaskStep (createTask w) ;;;
  result <- wrapErr ErrPollStep (Gomedia.pollResult w) ;;
  ret (Gomedia.toText result).

Definition Run (ReadHead : list Z -> option (list Gomedia.TrackInfo))
    (ReadPackets : list Z -> list GomediaExtract.AVPacket) (w : World) : M string :=
  a <- getASR ;;
  let ext := ToLower (Ext (goos w) (AudioPath a)) in
  audioPath <-
    (if negb (mapIndex audioExts ext) then
       emit (EvExtract (AudioPath a)) ;;;
       fs <- getFiles ;;
       let '(fs', r) :=
         GomediaExtract.videoToAudio (goos w) ReadHead ReadPackets (Create w) (Remove w) fs
           (AudioPath a) in
       setFiles fs' ;;;
       match r with
       | inl e => fail (ErrExtract e)
       | inr (extractedPath, audioFmt) =>
         setASR (set_AudioFormat audioFmt) ;;; ret extractedPath
       end
     else
       setASR (set_AudioFormat (TrimPrefix ext ".")) ;;; ret (AudioPath a)) ;;
  runFrom w audioPath.

End GomediaRun.

(** ** Vocabulary of the statements *)

(** [emits P m]: running [m] only appends events, and each satisfies [P]. *)
Definition emits {A} (P : Event -> Prop) (m : M A) : Prop :=
  forall s, exists l, events (fst (m s)) = events s ++ l /\ Forall P l.

Definition notExtract (e : Event) : Prop := forall p, e <> EvExtract p.


(** A located sample the extraction loop does not skip. *)
Definition nonzero (si : sampleInfo) : bool := negb (size si =? 0).

(** The bytes [offset, offset + size) lie inside the file. *)
Definition readable (inputFile : list Z) (si : sampleInfo) : Prop :=
  0 <= offset si /\ offset si + size si <= Z.of_nat (length inputFile).

(** One framed unit: the ADTS header for an AAC track, nothing for another
    track, followed by the sample bytes as they are in the file. *)
Definition framedUnit (codecType : audioCodecType) (aacProfile freqIdx channelCount : Z)
    (inputFile : list Z) (si : sampleInfo) : list Z :=
  (if decide (codecType = audioCodecAAC)
   then makeADTSHeader aacProfile freqIdx channelCount (to_uint16 (size si))
   else [])
  ++ take (Z.to_nat (size si)) (drop (Z.to_nat (offset si)) inputFile).

Definition sumZ (l : list Z) : Z := fold_right Z.add 0 l.

(** Offsets of a run of samples that starts at [off]: each sample starts
    where the one before it ends. *)
Fixpoint accumulates (off : Z) (run : list sampleInfo) : Prop :=
  match run with
  | [] => True
  | si :: rest => offset si = off /\ accumulates (to_int64 (off + size si)) rest
  end.

(** Number of samples the chunk table accounts for. *)
Definition chunkTableSamples (chunks : list Chunk) : nat :=
  fold_right (fun c n => (Z.to_nat (SamplesPerChunk c) + n)%nat) O chunks.

(** Path of the extracted stream for an input path and a codec type. *)
Definition outputPathOf (os : GOOS) (inputPath : string) (codecType : audioCodecType) : string :=
  TrimSuffix inputPath (Ext os inputPath) +:+ fst (outputNaming codecType).

(** The contiguous byte range [lo, hi) of a file. *)
Definition byteRange (data : list Z) (lo hi : Z) : list Z :=
  take (Z.to_nat (hi - lo)) (drop (Z.to_nat lo) data).

(** Chunk [i] of a file cut in pieces of [perSize] bytes:
    the range [i * perSize, min ((i + 1) * perSize, n)). *)
Definition chunkBytes (data : list Z) (perSize : Z) (i : nat) : list Z :=
  byteRange data (Z.of_nat i * perSize)
    (Z.min ((Z.of_nat i + 1) * perSize) (Z.of_nat (length data))).

(** One PUT per URL, in URL order, chunk [i] to URL [i]. *)
Fixpoint putsFrom (data : list Z) (perSize : Z) (i : nat) (urls : list string) : list Event :=
  match urls with
  | [] => []
  | url :: rest => EvPut url (chunkBytes data perSize i) :: putsFrom data perSize (S i) rest
  end.

(** The ETags of the replies to those PUTs, in the same order; [evs] is the
    history before the PUT of chunk [i]. *)
Fixpoint etagsFrom (w : World) (data : list Z) (perSize : Z) (evs : list Event) (i : nat)
    (urls : list string) : list string :=
  match urls with
  | [] => []
  | url :: rest =>
    match putReply w evs url (chunkBytes data perSize i) with
    | PutReplied r => etagOf (put_Header r)
    | _ => ""
    end :: etagsFrom w data perSize (evs ++ [EvPut url (chunkBytes data perSize i)]) (S i) rest
  end.

(** Every PUT is answered with status 200 or 201. *)
Definition putsAccepted (w : World) : Prop :=
  forall evs url chunk,
    exists r, putReply w evs url chunk = PutReplied r
              /\ (put_StatusCode r = 200 \/ put_StatusCode r = 201).

(** [k] polling rounds that did not end the poll: a query, then the pause. *)
Fixpoint rounds (url : string) (k : nat) : list Event :=
  match k with
  | O => []
  | S k' => EvGet url :: EvSleep 3 :: rounds url k'
  end.

Definition isGet (e : Event) : bool :=
  match e with EvGet _ => true | _ => false end.

(** Body of a PUT. *)
Definition putBody (e : Event) : list Z :=
  match e with EvPut _ chunk => chunk | _ => [] end.

(** The errors [videoToAudio] can return. *)
Definition extractionError (e : error) : Prop :=
  match e with
  | ErrOpen | ErrProbe | ErrNoAudioTrack _ | ErrUnsupportedCodec _ | ErrCreate
  | ErrSampleTable | ErrSeek _ _ | ErrRead _ _ _ | ErrEmptyOutput | ErrStat => True
  | _ => False
  end.

(** An error that names the step of [Run] it comes from. *)
Definition stepError (e : error) : Prop :=
  match e with
  | ErrExtract _ | ErrUploadStep _ | ErrCreateTaskStep _ | ErrPollStep _ => True
  | _ => False
  end.

(** [preserves f m]: running [m] leaves the observation [f] of the session
    as it was. *)
Definition preserves {A X} (f : Session -> X) (m : M A) : Prop :=
  forall s, f (fst (m s)) = f s.

(** What no request of the session writes: the files, and the path, format
    and cookie of the record. *)
Definition untouched (s : Session) : FileSystem * string * string * string :=
  (files s, AudioPath (asr s), AudioFormat (asr s), Cookie (asr s)).

(** The form of the request for an upload plan. *)
Definition planForm (audioFormat : string) (size : nat) : Form :=
  let audioFmt := if String.eqb audioFormat "" then "mp3" else audioFormat in
  [("type", "2"); ("name", "audio." +:+ audioFmt); ("size", fmt_d (Z.of_nat size));
   ("resource_file_type", audioFmt); ("model_id", "7")].

(** ** Sample inputs *)

Module Demo.

Definition mp3Track : Track :=
  {| TrackID := 1; Timescale := 44100; TCodec := CodecMP4A; Encrypted := false;
     Samples := [ {| Size := 3 |} ];
     Chunks := [ {| DataOffset := 0; SamplesPerChunk := 1 |} ];
     MP4A := Some {| OTI := 0x6B; AudOTI := 0; ChannelCount := 2 |} |}.

(** An AAC-LC track of two samples, the first of size zero. *)
Definition aacTrack : Track :=
  {| TrackID := 2; Timescale := 44100; TCodec := CodecMP4A; Encrypted := false;
     Samples := [ {| Size := 0 |}; {| Size := 2 |} ];
     Chunks := [ {| DataOffset := 3; SamplesPerChunk := 2 |} ];
     MP4A := Some {| OTI := 0x40; AudOTI := 2; ChannelCount := 2 |} |}.

(** An AAC-LC track of three samples in two chunks. *)
Definition lcTrack : Track :=
  {| TrackID := 4; Timescale := 44100; TCodec := CodecMP4A; Encrypted := false;
     Samples := [ {| Size := 2 |}; {| Size := 1 |}; {| Size := 2 |} ];
     Chunks := [ {| DataOffset := 0; SamplesPerChunk := 2 |};
                 {| DataOffset := 3; SamplesPerChunk := 1 |} ];
     MP4A := Some {| OTI := 0x40; AudOTI := 2; ChannelCount := 2 |} |}.

(** An AAC-LC track whose two samples have size zero. *)
Definition emptyTrack : Track :=
  {| TrackID := 5; Timescale := 44100; TCodec := CodecMP4A; Encrypted := false;
     Samples := [ {| Size := 0 |}; {| Size := 0 |} ];
     Chunks := [ {| DataOffset := 0; SamplesPerChunk := 2 |} ];
     MP4A := Some {| OTI := 0x40; AudOTI := 2; ChannelCount := 2 |} |}.

(** An AAC-LC track whose two samples have size zero and whose chunk table
    is empty. *)
Definition unlocatedTrack : Track :=
  {| TrackID := 7; Timescale := 44100; TCodec := CodecMP4A; Encrypted := false;
     Samples := [ {| Size := 0 |}; {| Size := 0 |} ];
     Chunks := [];
     MP4A := Some {| OTI := 0x40; AudOTI := 2; ChannelCount := 2 |} |}.

(** An AAC-LC track whose second sample runs past the end of [clip]. *)
Definition shortTrack : Track :=
  {| TrackID := 6; Timescale := 44100; TCodec := CodecMP4A; Encrypted := false;
     Samples := [ {| Size := 2 |}; {| Size := 9 |} ];
     Chunks := [ {| DataOffset := 0; SamplesPerChunk := 2 |} ];
     MP4A := Some {| OTI := 0x40; AudOTI := 2; ChannelCount := 2 |} |}.

Definition videoTrack : Track :=
  {| TrackID := 3; Timescale := 90000; TCodec := CodecAVC1; Encrypted := false;
     Samples := []; Chunks := []; MP4A := None |}.

Definition clip : list Z := [10; 11; 12; 13; 14].

Definition disk : FileSystem := {[ "clip.mp4" := clip ]}.

Definition probeTo (tracks : list Track) : list Z -> option ProbeInfo :=
  fun _ => Some {| Tracks := tracks |}.

Definition gMP3 : Gomedia.TrackInfo :=
  {| Gomedia.Cid := Gomedia.MP4_CODEC_MP3; Gomedia.SampleRate := 44100; Gomedia.TrackId := 1 |}.
Definition gOPUS : Gomedia.TrackInfo :=
  {| Gomedia.Cid := Gomedia.MP4_CODEC_OPUS; Gomedia.SampleRate := 48000; Gomedia.TrackId := 2 |}.
Definition gAAC : Gomedia.TrackInfo :=
  {| Gomedia.Cid := Gomedia.MP4_CODEC_AAC; Gomedia.SampleRate := 44100; Gomedia.TrackId := 3 |}.
Definition gH264 : Gomedia.TrackInfo :=
  {| Gomedia.Cid := Gomedia.MP4_CODEC_H264; Gomedia.SampleRate := 0; Gomedia.TrackId := 4 |}.

(** A machine on which a file can always be created, examined and removed. *)
Definition allowed : string -> bool := fun _ => true.

(** A machine on which no file can be created, or examined, or removed. *)
Definition denied : string -> bool := fun _ => false.

(** A service that accepts everything: the plan names [urls] and
    [perSize], each PUT is answered 200 with an ETag made from its URL, and
    the first query already reports state [state]. *)
Definition service (urls : list string) (perSize : Z) (state : Z) (remark : string) : World :=
  {| goos := unix;
     Probe := fun _ => None;
     Create := allowed;
     Stat := allowed;
     Remove := allowed;
     reqUploadReply := fun _ _ =>
       Decoded {| up_Code := 0; up_ResourceID := "res"; up_UploadID := "upl";
                  up_UploadURLs := urls; up_PerUploadSize := perSize;
                  up_DownloadURL := "dl0"; up_InBossKey := "key" |} "";
     putReply := fun _ url _ =>
       PutReplied {| put_StatusCode := 200;
                     put_Header := {[ "Etag" := ["E-" +:+ url] ]};
                     put_Body := "" |};
     commitReply := fun _ _ =>
       Decoded {| cm_Code := 0; cm_DownloadURL := "dl1"; cm_ResourceID := "res" |} "";
     createTaskReply := fun _ _ =>
       Decoded {| tk_Code := 0; tk_Message := ""; tk_TaskID := "task" |} "";
     queryReply := fun _ _ =>
       QueryReplied
         (Decoded {| q_Code := 0; q_Message := ""; q_State := state; q_Remark := remark;
                     q_Result := "{}" |} "");
     unmarshalASRResult := fun _ =>
       Some {| Utterances := [ {| Transcript := "hello"; StartTime := 0; EndTime := 9 |} ] |} |}.

(** The same service, except that it answers every PUT with status 500. *)
Definition refusing (urls : list string) (perSize : Z) : World :=
  let w := service urls perSize 4 "" in
  {| goos := goos w; Probe := Probe w; Create := Create w; Stat := Stat w; Remove := Remove w;
     reqUploadReply := reqUploadReply w;
     putReply := fun _ _ _ =>
       PutReplied {| put_StatusCode := 500; put_Header := ∅; put_Body := "no" |};
     commitReply := commitReply w; createTaskReply := createTaskReply w;
     queryReply := queryReply w; unmarshalASRResult := unmarshalASRResult w |}.

(** The accepting service on a machine whose prober finds [tracks] in every
    file. *)
Definition studio (tracks : list Track) (urls : list string) (perSize : Z) : World :=
  let w := service urls perSize 4 "" in
  {| goos := goos w; Probe := probeTo tracks; Create := Create w; Stat := Stat w; Remove := Remove w;
     reqUploadReply := reqUploadReply w;
     putReply := putReply w; commitReply := commitReply w;
     createTaskReply := createTaskReply w; queryReply := queryReply w;
     unmarshalASRResult := unmarshalASRResult w |}.

Definition tenBytes : list Z := [0; 1; 2; 3; 4; 5; 6; 7; 8; 9].

(** A service whose first [k] replies to a query report state 1 and whose
    later replies are [final]. *)
Definition slow (k : nat) (final : QueryReply) : World :=
  let w := service [] 0 1 "" in
  {| goos := goos w; Probe := Probe w; Create := Create w; Stat := Stat w; Remove := Remove w;
     reqUploadReply := reqUploadReply w;
     putReply := putReply w; commitReply := commitReply w;
     createTaskReply := createTaskReply w;
     queryReply := fun evs url =>
       if (length (List.filter isGet evs) <? k)%nat then queryReply w evs url else final;
     unmarshalASRResult := unmarshalASRResult w |}.

Definition session (path : string) (data : list Z) : Session :=
  {| asr := NewBcutASR path; files := {[ path := data ]}; events := [] |}.

End Demo.

(** * Properties *)

(** ** Fixed-width arithmetic *)

Lemma to_uint8_small x : 0 <= x < 256 -> to_uint8 x = x.
Proof. intros H. unfold to_uint8. apply Z.mod_small. lia. Qed.

Lemma to_uint16_small x : 0 <= x < 65536 -> to_uint16 x = x.
Proof. intros H. unfold to_uint16. apply Z.mod_small. lia. Qed.

Lemma to_int64_small x : - 2 ^ 63 <= x < 2 ^ 63 -> to_int64 x = x.
Proof. intros H. unfold to_int64. rewrite Z.mod_small; lia. Qed.

Lemma land_mask_mod x k : 0 <= k -> Z.land x (2 ^ k - 1) = x mod 2 ^ k.
Proof.
  intros Hk. rewrite <- (Z.land_ones x k Hk). f_equal.
  rewrite Z.ones_equiv. lia.
Qed.

Lemma land_mask_range x k : 0 <= k -> 0 <= Z.land x (2 ^ k - 1) < 2 ^ k.
Proof.
  intros Hk. rewrite land_mask_mod by exact Hk.
  apply Z.mod_pos_bound. apply Z.pow_pos_nonneg; lia.
Qed.

Lemma testbit_below_pow2 x k n : 0 <= x < 2 ^ k -> 0 <= k <= n -> Z.testbit x n = false.
Proof.
  intros Hx Hn. rewrite <- (Z.mod_small x (2 ^ k)) by exact Hx.
  apply Z.mod_pow2_bits_high. exact Hn.
Qed.

(** Bit [n] of a mask of [k] ones. *)
Lemma testbit_mask k n : 0 <= k -> Z.testbit (2 ^ k - 1) n = (0 <=? n) && (n <? k).
Proof.
  intros Hk. replace (2 ^ k - 1) with (Z.ones k) by (rewrite Z.ones_equiv; lia).
  apply Z.testbit_ones. exact Hk.
Qed.

(** Reassembling a 13-bit value from its fields 12..11, 10..3 and 2..0. *)
Lemma bits_reassemble_13 L :
  0 <= L < 2 ^ 13 ->
  Z.lor (Z.lor (Z.shiftl (bits 12 11 L) 11) (Z.shiftl (bits 10 3 L) 3)) (bits 2 0 L) = L.
Proof.
  intros HL. apply Z.bits_inj'. intros n Hn. unfold bits.
  rewrite !Z.lor_spec, !Z.shiftl_spec, !Z.land_spec by lia.
  change (12 - 11 + 1) with 2. change (10 - 3 + 1) with 8. change (2 - 0 + 1) with 3.
  rewrite !testbit_mask by lia.
  destruct (Z.lt_ge_cases n 3) as [H3 | H3].
  - rewrite (Z.testbit_neg_r _ (n - 11)), (Z.testbit_neg_r _ (n - 3)) by lia.
    rewrite Z.shiftr_spec by lia. rewrite Z.add_0_r. simpl.
    replace (0 <=? n) with true by (symmetry; apply Z.leb_le; lia).
    replace (n <? 3) with true by (symmetry; apply Z.ltb_lt; lia).
    simpl. apply andb_true_r.
  - replace (n <? 3) with false by (symmetry; apply Z.ltb_ge; lia).
    rewrite andb_false_r, andb_false_r, orb_false_r.
    destruct (Z.lt_ge_cases n 11) as [H11 | H11].
    + rewrite (Z.testbit_neg_r _ (n - 11)) by lia. simpl.
      rewrite Z.shiftr_spec by lia.
      replace (n - 3 + 3) with n by lia.
      replace (0 <=? n - 3) with true by (symmetry; apply Z.leb_le; lia).
      replace (n - 3 <? 8) with true by (symmetry; apply Z.ltb_lt; lia).
      apply andb_true_r.
    + replace (n - 3 <? 8) with false by (symmetry; apply Z.ltb_ge; lia).
      rewrite andb_false_r, andb_false_r, orb_false_r.
      rewrite Z.shiftr_spec by lia. replace (n - 11 + 11) with n by lia.
      destruct (Z.lt_ge_cases n 13) as [H13 | H13].
      * replace (0 <=? n - 11) with true by (symmetry; apply Z.leb_le; lia).
        replace (n - 11 <? 2) with true by (symmetry; apply Z.ltb_lt; lia).
        apply andb_true_r.
      * rewrite (testbit_below_pow2 L 13 n) by lia. reflexivity.
Qed.

(** The two low bits of byte 3 are the length bits: the channel bits sit in
    positions 7..6. *)
Lemma byte3_low_bits c hi :
  0 <= hi < 4 -> Z.land (Z.lor (Z.shiftl (Z.land c 3) 6) hi) 3 = hi.
Proof.
  intros Hhi. apply Z.bits_inj'. intros n Hn.
  rewrite Z.land_spec, Z.lor_spec, Z.shiftl_spec by lia.
  change 3 with (2 ^ 2 - 1) at 2. rewrite testbit_mask by lia.
  destruct (Z.lt_ge_cases n 2) as [H2 | H2].
  - rewrite (Z.testbit_neg_r _ (n - 6)) by lia. simpl.
    replace (0 <=? n) with true by (symmetry; apply Z.leb_le; lia).
    replace (n <? 2) with true by (symmetry; apply Z.ltb_lt; lia).
    apply andb_true_r.
  - replace (n <? 2) with false by (symmetry; apply Z.ltb_ge; lia).
    rewrite andb_false_r, andb_false_r.
    symmetry. apply (testbit_below_pow2 hi 2 n); lia.
Qed.

(** The three high bits of byte 5 are the low length bits. *)
Lemma byte5_high_bits lo :
  0 <= lo < 8 -> Z.shiftr (Z.lor (Z.shiftl lo 5) 0x1F) 5 = lo.
Proof.
  intros Hlo. apply Z.bits_inj'. intros n Hn.
  rewrite Z.shiftr_spec, Z.lor_spec, Z.shiftl_spec by lia.
  replace (n + 5 - 5) with n by lia.
  change 0x1F with (2 ^ 5 - 1). rewrite testbit_mask by lia.
  replace (n + 5 <? 5) with false by (symmetry; apply Z.ltb_ge; lia).
  rewrite andb_false_r. apply orb_false_r.
Qed.

(** ** ADTS synthesis *)

Lemma bits_range hi lo x : lo <= hi -> 0 <= bits hi lo x < 2 ^ (hi - lo + 1).
Proof. intros H. unfold bits. apply land_mask_range. lia. Qed.

(** Closed form of the header when nothing wraps. *)
Lemma makeADTSHeader_closed_form p f c s :
  0 <= p <= 3 -> 0 <= f <= 12 -> 0 <= c < 256 -> 0 <= s -> s + 7 < 2 ^ 13 ->
  makeADTSHeader p f c (to_uint16 s) =
    [ 0xFF; 0xF1;
      Z.lor (Z.lor (Z.shiftl p 6) (Z.shiftl f 2)) (Z.shiftr c 2);
      Z.lor (Z.shiftl (Z.land c 3) 6) (bits 12 11 (s + 7));
      bits 10 3 (s + 7);
      Z.lor (Z.shiftl (bits 2 0 (s + 7)) 5) 0x1F;
      0xFC ].
Proof.
  intros Hp Hf Hc Hs HL. unfold makeADTSHeader.
  rewrite (to_uint16_small s) by lia.
  rewrite (to_uint16_small (s + 7)) by lia.
  assert (Hc3 : 0 <= Z.land c 3 < 4) by (apply (land_mask_range c 2); lia).
  assert (H1211 : 0 <= bits 12 11 (s + 7) < 4) by (apply (bits_range 12 11); lia).
  assert (H20 : 0 <= bits 2 0 (s + 7) < 8) by (apply (bits_range 2 0); lia).
  assert (E20 : Z.land (s + 7) 7 = bits 2 0 (s + 7)).
  { unfold bits. rewrite Z.shiftr_0_r. reflexivity. }
  assert (E103 : to_uint8 (Z.shiftr (s + 7) 3) = bits 10 3 (s + 7)).
  { unfold bits, to_uint8. change (10 - 3 + 1) with 8. rewrite land_mask_mod by lia.
    reflexivity. }
  rewrite E103, E20.
  change (Z.land (Z.shiftr (s + 7) 11) 3) with (bits 12 11 (s + 7)).
  rewrite (to_uint8_small (Z.shiftl p 6)) by (rewrite Z.shiftl_mul_pow2; lia).
  rewrite (to_uint8_small (Z.shiftl f 2)) by (rewrite Z.shiftl_mul_pow2; lia).
  rewrite (to_uint8_small (Z.shiftl (Z.land c 3) 6)) by (rewrite Z.shiftl_mul_pow2; lia).
  rewrite (to_uint8_small (bits 12 11 (s + 7))) by lia.
  rewrite (to_uint8_small (bits 2 0 (s + 7))) by lia.
  rewrite (to_uint8_small (Z.shiftl (bits 2 0 (s + 7)) 5)) by (rewrite Z.shiftl_mul_pow2; lia).
  reflexivity.
Qed.

(** C1.  For a profile in 0..3, a frequency index in 0..12, a channel count
    that fits a byte and a sample size [s] with [s + 7 < 2^13], the header is
    the seven bytes 0xFF, 0xF1, (p<<6)|(f<<2)|(c>>2), ((c&3)<<6)|bits 12..11
    of s+7, bits 10..3 of s+7, (bits 2..0 of s+7)<<5|0x1F, 0xFC, and the
    13-bit length field read back from bytes 3, 4 and 5 is s+7.  For profile
    1, frequency index 4, two channels and a 100-byte frame the field is 107.
    The channel configuration is 2 when the track has no MP4A description or
    reports zero channels. *)
Theorem makeADTSHeader_bit_exact (p f c s : Z) :
  0 <= p <= 3 -> 0 <= f <= 12 -> 0 <= c < 256 -> 0 <= s -> s + 7 < 2 ^ 13 ->
  makeADTSHeader p f c (to_uint16 s) =
    [ 0xFF; 0xF1;
      Z.lor (Z.lor (Z.shiftl p 6) (Z.shiftl f 2)) (Z.shiftr c 2);
      Z.lor (Z.shiftl (Z.land c 3) 6) (bits 12 11 (s + 7));
      bits 10 3 (s + 7);
      Z.lor (Z.shiftl (bits 2 0 (s + 7)) 5) 0x1F;
      0xFC ]
  /\ length (makeADTSHeader p f c (to_uint16 s)) = 7%nat
  /\ adtsFrameLength (makeADTSHeader p f c (to_uint16 s)) = s + 7
  /\ adtsFrameLength (makeADTSHeader 1 4 2 100) = 107
  /\ channelCountOf None = 2
  /\ (forall info, ChannelCount info = 0 -> channelCountOf (Some info) = 2).
Proof.
  intros Hp Hf Hc Hs HL.
  split; [apply makeADTSHeader_closed_form; assumption |].
  split; [reflexivity |].
  split.
  - rewrite makeADTSHeader_closed_form by assumption.
    unfold adtsFrameLength. cbn [nth].
    rewrite byte3_low_bits by (apply (bits_range 12 11); lia).
    rewrite byte5_high_bits by (apply (bits_range 2 0); lia).
    apply bits_reassemble_13. lia.
  - split; [reflexivity |]. split; [reflexivity |].
    intros info H0. unfold channelCountOf. rewrite H0. reflexivity.
Qed.

Lemma makeADTSHeader_bit_exact_witness :
  makeADTSHeader 1 4 2 (to_uint16 100) = [255; 241; 80; 128; 13; 127; 252]
  /\ adtsFrameLength (makeADTSHeader 1 4 2 (to_uint16 100)) = 107.
Proof.
  destruct (makeADTSHeader_bit_exact 1 4 2 100) as (Hh & _ & Hl & _); [lia | lia | lia | lia | lia |].
  split; [rewrite Hh; reflexivity | exact Hl].
Defined.

Lemma makeADTSHeader_length p f c s : length (makeADTSHeader p f c s) = 7%nat.
Proof. reflexivity. Qed.

(** ** Codec classification *)

(** C3, as the code has it.  Under OTI 0x40, AOT 1, 2, 3, 4 give family AAC
    with ADTS profiles 0, 1, 2, 3; AOT 5 and AOT 29 give the unsupported
    family; every other AOT gives family AAC with profile 1.  Under any other
    OTI the AOT is not consulted: two descriptions that differ only in their
    AOT classify alike. *)
Theorem detectAudioCodec_aot (aot cc : Z) :
  let classify a := detectAudioCodec (Some {| OTI := 0x40; AudOTI := a; ChannelCount := cc |}) in
  (codecTypeOf (classify 1) = audioCodecAAC /\ profileOf (classify 1) = 0)
  /\ (codecTypeOf (classify 2) = audioCodecAAC /\ profileOf (classify 2) = 1)
  /\ (codecTypeOf (classify 3) = audioCodecAAC /\ profileOf (classify 3) = 2)
  /\ (codecTypeOf (classify 4) = audioCodecAAC /\ profileOf (classify 4) = 3)
  /\ codecTypeOf (classify 5) = audioCodecHEAAC
  /\ codecTypeOf (classify 29) = audioCodecHEAAC
  /\ (aot <> 1 -> aot <> 2 -> aot <> 3 -> aot <> 4 -> aot <> 5 -> aot <> 29 ->
      codecTypeOf (classify aot) = audioCodecAAC /\ profileOf (classify aot) = 1)
  /\ (forall oti a1 a2, oti <> 0x40 ->
      detectAudioCodec (Some {| OTI := oti; AudOTI := a1; ChannelCount := cc |}) =
      detectAudioCodec (Some {| OTI := oti; AudOTI := a2; ChannelCount := cc |})).
Proof.
  cbn zeta.
  do 6 (split; [repeat split; reflexivity |]).
  split.
  - intros H1 H2 H3 H4 H5 H29. unfold detectAudioCodec; cbn [OTI AudOTI].
    destruct aot as [| q | q]; [split; reflexivity | | split; reflexivity].
    repeat (destruct q as [q | q |]; try (split; reflexivity); try congruence).
  - intros oti a1 a2 Hoti. unfold detectAudioCodec; cbn [OTI AudOTI].
    destruct oti as [| q | q]; try reflexivity.
    repeat (destruct q as [q | q |]; try reflexivity; try congruence).
Qed.

Lemma detectAudioCodec_aot_witness :
  codecTypeOf (detectAudioCodec (Some {| OTI := 0x40; AudOTI := 7; ChannelCount := 2 |}))
    = audioCodecAAC
  /\ profileOf (detectAudioCodec (Some {| OTI := 0x40; AudOTI := 7; ChannelCount := 2 |})) = 1.
Proof.
  destruct (detectAudioCodec_aot 7 2) as (_ & _ & _ & _ & _ & _ & H & _).
  apply H; discriminate.
Defined.

(** Without the OTI 0x40 condition the statement fails: under the MP3 OTI
    0x6B, AOT 5 classifies as MP3, and under the MPEG-2 Main OTI 0x66, AOT 2
    yields profile 0. *)
Lemma detectAudioCodec_aot_needs_oti_0x40 :
  codecTypeOf (detectAudioCodec (Some {| OTI := 0x6B; AudOTI := 5; ChannelCount := 2 |}))
    = audioCodecMP3
  /\ codecTypeOf (detectAudioCodec (Some {| OTI := 0x6B; AudOTI := 5; ChannelCount := 2 |}))
    <> audioCodecHEAAC
  /\ codecTypeOf (detectAudioCodec (Some {| OTI := 0x67; AudOTI := 29; ChannelCount := 2 |}))
    <> audioCodecHEAAC
  /\ profileOf (detectAudioCodec (Some {| OTI := 0x66; AudOTI := 2; ChannelCount := 2 |})) <> 1.
Proof. repeat split; discriminate. Qed.

(** ** Transcript text *)

Lemma append_cons (x : ascii) (a b : string) : String x a +:+ b = String x (a +:+ b).
Proof. reflexivity. Qed.

Lemma append_assoc (a b c : string) : (a +:+ b) +:+ c = a +:+ (b +:+ c).
Proof.
  induction a as [| x a IH]; [reflexivity |].
  rewrite !append_cons, IH. reflexivity.
Qed.

Lemma append_empty_r (a : string) : a +:+ "" = a.
Proof.
  induction a as [| x a IH]; [reflexivity |].
  rewrite append_cons, IH. reflexivity.
Qed.

(** Invariant of the builder loop: with [i + length rest = n], the loop adds
    the remaining transcripts joined by newlines. *)
Lemma toTextLoop_spec rest : forall n i text,
  n = i + Z.of_nat (length rest) ->
  toTextLoop n i rest text = text +:+ Join (map Transcript rest) newline.
Proof.
  induction rest as [| u rest IH]; intros n i text Hn.
  - simpl. symmetry. apply append_empty_r.
  - cbn [toTextLoop]. rewrite IH by (cbn [length] in Hn; lia).
    cbn [map Join]. destruct rest as [| u' rest].
    + cbn [length] in Hn.
      replace (i <? n - 1) with false by (symmetry; apply Z.ltb_ge; lia).
      simpl. apply append_empty_r.
    + cbn [length] in Hn.
      replace (i <? n - 1) with true by (symmetry; apply Z.ltb_lt; lia).
      cbn [map]. rewrite !append_assoc. reflexivity.
Qed.

Lemma Gomedia_toTextLoop_spec rest : forall text,
  Gomedia.toTextLoop rest text = text +:+ Join (map Transcript rest) "".
Proof.
  induction rest as [| u rest IH]; intros text; cbn [Gomedia.toTextLoop map].
  - cbn [Join]. rewrite append_empty_r. reflexivity.
  - rewrite IH. destruct rest as [| u' rest].
    + cbn [map Join]. rewrite append_empty_r. reflexivity.
    + cbn [map Join]. change ("" +:+ ?x) with x. rewrite <- append_assoc. reflexivity.
Qed.

(** C7, as the code has it.  [toText] is the utterances' transcripts in
    stored order.  In the go-mp4 revision they are joined by one newline
    between neighbours, nothing after the last: on "a", "b", "c" it is "a",
    newline, "b", newline, "c".  In the gomedia revision nothing is put
    between them: on "a", "b", "c" it is "abc". *)
Theorem toText_joins_with_newlines (result : ASRResult) :
  toText result = Join (map Transcript (Utterances result)) newline
  /\ toText {| Utterances :=
        [ {| Transcript := "a"; StartTime := 0; EndTime := 1 |};
          {| Transcript := "b"; StartTime := 1; EndTime := 2 |};
          {| Transcript := "c"; StartTime := 2; EndTime := 3 |} ] |}
     = String "a" (String "010" (String "b" (String "010" (String "c" EmptyString))))
  /\ Gomedia.toText result = Join (map Transcript (Utterances result)) ""
  /\ Gomedia.toText {| Utterances :=
        [ {| Transcript := "a"; StartTime := 0; EndTime := 1 |};
          {| Transcript := "b"; StartTime := 1; EndTime := 2 |};
          {| Transcript := "c"; StartTime := 2; EndTime := 3 |} ] |}
     = "abc"
  /\ (forall elems, Join elems "" = fold_right String.append "" elems).
Proof.
  split; [unfold toText; rewrite toTextLoop_spec by lia; reflexivity |].
  split; [reflexivity |].
  split; [unfold Gomedia.toText; rewrite Gomedia_toTextLoop_spec; reflexivity |].
  split; [reflexivity |].
  induction elems as [| e elems IH]; [reflexivity |].
  destruct elems as [| e' elems].
  - cbn [Join fold_right]. rewrite append_empty_r. reflexivity.
  - change (Join (e :: e' :: elems) "") with (e +:+ "" +:+ Join (e' :: elems) "").
    rewrite IH. reflexivity.
Qed.

(** The gomedia revision writes the transcripts back to back: on "a", "b",
    "c" it returns "abc", which has no newline. *)
Lemma Gomedia_toText_no_separator :
  Gomedia.toText {| Utterances :=
        [ {| Transcript := "a"; StartTime := 0; EndTime := 1 |};
          {| Transcript := "b"; StartTime := 1; EndTime := 2 |};
          {| Transcript := "c"; StartTime := 2; EndTime := 3 |} ] |} = "abc"
  /\ Gomedia.toText {| Utterances :=
        [ {| Transcript := "a"; StartTime := 0; EndTime := 1 |};
          {| Transcript := "b"; StartTime := 1; EndTime := 2 |};
          {| Transcript := "c"; StartTime := 2; EndTime := 3 |} ] |}
     <> String "a" (String "010" (String "b" (String "010" (String "c" EmptyString)))).
Proof. split; [reflexivity | discriminate]. Qed.

(** ** Track selection *)

Lemma findAudioTrack_first pre t post :
  Forall (fun x => TCodec x <> CodecMP4A) pre -> TCodec t = CodecMP4A ->
  findAudioTrack (pre ++ t :: post) = Some t.
Proof.
  intros Hpre Ht. induction Hpre as [| x pre Hx _ IH]; simpl.
  - destruct (decide (TCodec t = CodecMP4A)); [reflexivity | contradiction].
  - destruct (decide (TCodec x = CodecMP4A)); [contradiction | exact IH].
Qed.

Lemma findAudioTrack_none tracks :
  Forall (fun x => TCodec x <> CodecMP4A) tracks -> findAudioTrack tracks = None.
Proof.
  intros H. induction H as [| x l Hx _ IH]; simpl; [reflexivity |].
  destruct (decide (TCodec x = CodecMP4A)); [contradiction | exact IH].
Qed.

Lemma Gomedia_selectLoop_first_aac pre t post : forall cur,
  Forall (fun x => Gomedia.Cid x <> Gomedia.MP4_CODEC_AAC) pre ->
  Gomedia.Cid t = Gomedia.MP4_CODEC_AAC ->
  Gomedia.selectLoop (pre ++ t :: post) cur = Some t.
Proof.
  induction pre as [| x pre IH]; intros cur Hpre Ht; simpl.
  - unfold Gomedia.isAudio. rewrite Ht. reflexivity.
  - inversion Hpre as [| ? ? Hx Hpre']; subst.
    rewrite (bool_decide_eq_false_2 _ Hx).
    destruct (Gomedia.isAudio x); apply IH; assumption.
Qed.

Lemma Gomedia_selectLoop_no_audio post : forall cur,
  Forall (fun x => Gomedia.isAudio x = false) post ->
  Gomedia.selectLoop post cur = cur.
Proof.
  induction post as [| x post IH]; intros cur H; simpl; [reflexivity |].
  inversion H as [| ? ? Hx Hpost]; subst. rewrite Hx. apply IH. exact Hpost.
Qed.

Lemma Gomedia_selectLoop_last_audio pre t post : forall cur,
  Forall (fun x => Gomedia.Cid x <> Gomedia.MP4_CODEC_AAC) (pre ++ [t]) ->
  Gomedia.isAudio t = true ->
  Forall (fun x => Gomedia.isAudio x = false) post ->
  Gomedia.selectLoop (pre ++ t :: post) cur = Some t.
Proof.
  induction pre as [| x pre IH]; intros cur Hpre Ht Hpost; simpl.
  - rewrite Ht. inversion Hpre as [| ? ? Hx _]; subst.
    rewrite (bool_decide_eq_false_2 _ Hx).
    apply Gomedia_selectLoop_no_audio. exact Hpost.
  - simpl in Hpre. inversion Hpre as [| ? ? Hx Hpre']; subst.
    rewrite (bool_decide_eq_false_2 _ Hx).
    destruct (Gomedia.isAudio x); apply IH; assumption.
Qed.

(** C4, as the code has it.  The go-mp4 revision selects the first track
    whose codec is mp4a, in track order, whatever its family: an MP3 track
    listed before an AAC track is selected.  The gomedia revision selects the
    first AAC track whenever one exists, and otherwise the last MP3 or Opus
    track of the list. *)
Theorem track_selection_policy :
  (forall pre t post,
     Forall (fun x => TCodec x <> CodecMP4A) pre -> TCodec t = CodecMP4A ->
     findAudioTrack (pre ++ t :: post) = Some t)
  /\ (forall pre t post,
     Forall (fun x => Gomedia.Cid x <> Gomedia.MP4_CODEC_AAC) pre ->
     Gomedia.Cid t = Gomedia.MP4_CODEC_AAC ->
     Gomedia.selectAudioTrack (pre ++ t :: post) = Some t)
  /\ (forall pre t post,
     Forall (fun x => Gomedia.Cid x <> Gomedia.MP4_CODEC_AAC) (pre ++ [t]) ->
     Gomedia.isAudio t = true ->
     Forall (fun x => Gomedia.isAudio x = false) post ->
     Gomedia.selectAudioTrack (pre ++ t :: post) = Some t).
Proof.
  split; [exact findAudioTrack_first |].
  split.
  - intros pre t post Hpre Ht. apply Gomedia_selectLoop_first_aac; assumption.
  - intros pre t post Hpre Ht Hpost. apply Gomedia_selectLoop_last_audio; assumption.
Qed.

Lemma track_selection_policy_witness :
  findAudioTrack ([Demo.videoTrack] ++ Demo.mp3Track :: [Demo.aacTrack])
    = Some Demo.mp3Track
  /\ Gomedia.selectAudioTrack ([Demo.gMP3] ++ Demo.gAAC :: [Demo.gOPUS])
    = Some Demo.gAAC
  /\ Gomedia.selectAudioTrack ([Demo.gMP3] ++ Demo.gOPUS :: [Demo.gH264])
    = Some Demo.gOPUS.
Proof.
  destruct track_selection_policy as (H1 & H2 & H3).
  split; [| split].
  - apply H1; [repeat constructor; discriminate | reflexivity].
  - apply H2; [repeat constructor; discriminate | reflexivity].
  - apply H3; [repeat constructor; discriminate | reflexivity | repeat constructor].
Defined.

(** With an MP3 track listed before an AAC track the go-mp4 revision
    extracts the MP3 track, not the first AAC track; with no AAC track the
    gomedia revision selects the last audio track, not the first. *)
Lemma track_selection_not_aac_first :
  codecTypeOf (detectAudioCodec (MP4A Demo.mp3Track)) = audioCodecMP3
  /\ codecTypeOf (detectAudioCodec (MP4A Demo.aacTrack)) = audioCodecAAC
  /\ findAudioTrack [Demo.mp3Track; Demo.aacTrack] = Some Demo.mp3Track
  /\ findAudioTrack [Demo.mp3Track; Demo.aacTrack] <> Some Demo.aacTrack
  /\ snd (videoToAudio unix (Demo.probeTo [Demo.mp3Track; Demo.aacTrack])
            Demo.allowed Demo.allowed Demo.allowed Demo.disk "clip.mp4") = inr ("clip_temp.mp3", "mp3")
  /\ Gomedia.selectAudioTrack [Demo.gMP3; Demo.gOPUS] = Some Demo.gOPUS
  /\ Gomedia.selectAudioTrack [Demo.gMP3; Demo.gOPUS] <> Some Demo.gMP3.
Proof.
  split; [reflexivity |]. split; [reflexivity |]. split; [reflexivity |].
  split; [discriminate |]. split; [vm_compute; reflexivity |].
  split; [reflexivity | discriminate].
Qed.

(** ** What a computation sends out *)

Lemma emits_silent {A} P (m : M A) :
  (forall s, events (fst (m s)) = events s) -> emits P m.
Proof. intros H s. exists []. rewrite H, app_nil_r. split; [reflexivity | constructor]. Qed.

Lemma emits_ret {A} P (a : A) : emits P (ret a).
Proof. apply emits_silent. reflexivity. Qed.

Lemma emits_fail {A} P e : emits P (@fail A e).
Proof. apply emits_silent. reflexivity. Qed.

Lemma emits_panic {A} P what : emits P (@panic A what).
Proof. apply emits_silent. reflexivity. Qed.

Lemma emits_getASR P : emits P getASR.
Proof. apply emits_silent. reflexivity. Qed.

Lemma emits_getEvents P : emits P getEvents.
Proof. apply emits_silent. reflexivity. Qed.


Lemma emits_setASR P f : emits P (setASR f).
Proof. apply emits_silent. reflexivity. Qed.


Lemma emits_emit (P : Event -> Prop) e : P e -> emits P (emit e).
Proof. intros He s. exists [e]. split; [reflexivity | repeat constructor; exact He]. Qed.

Lemma emits_bind {A B} P (m : M A) (k : A -> M B) :
  emits P m -> (forall a, emits P (k a)) -> emits P (bind m k).
Proof.
  intros Hm Hk s. unfold bind. destruct (Hm s) as (l1 & E1 & F1).
  destruct (m s) as [s1 [a | e | what]]; cbn [fst] in *.
  - destruct (Hk a s1) as (l2 & E2 & F2). exists (l1 ++ l2).
    rewrite E2, E1, app_assoc. split; [reflexivity | apply Forall_app; split; assumption].
  - exists l1. split; assumption.
  - exists l1. split; assumption.
Qed.

Lemma emits_wrapErr {A} P f (m : M A) : emits P m -> emits P (wrapErr f m).
Proof.
  intros Hm s. unfold wrapErr. destruct (Hm s) as (l & E & F).
  destruct (m s) as [s1 [a | e | what]]; exists l; split; assumption.
Qed.

Lemma emits_uploadChunks P w fileData perSize urls : forall i,
  (forall url chunk, P (EvPut url chunk)) ->
  emits P (uploadChunks w fileData perSize i urls).
Proof.
  induction urls as [| u urls IH]; intros i HP; cbn [uploadChunks].
  - apply emits_ret.
  - destruct (chunkOf fileData perSize i) as [chunk |]; [| apply emits_panic].
    apply emits_bind; [apply emits_getEvents | intros evs].
    destruct (putReply w evs u chunk) as [| | r].
    + apply emits_fail.
    + apply emits_bind; [apply emits_emit, HP | intros _; apply emits_fail].
    + apply emits_bind; [apply emits_emit, HP | intros _].
      destruct (negb (put_StatusCode r =? 200) && negb (put_StatusCode r =? 201)).
      * apply emits_fail.
      * apply emits_bind; [apply emits_setASR | intros _; apply IH, HP].
Qed.



Lemma emits_createTask w : emits notExtract (createTask w).
Proof.
  unfold createTask.
  apply emits_bind; [apply emits_getASR | intros a].
  apply emits_bind; [apply emits_getEvents | intros evs].
  apply emits_bind; [apply emits_emit; intros p; discriminate | intros _].
  destruct (createTaskReply w evs _) as [what | body | r body]; try apply emits_fail.
  destruct (negb _); [apply emits_fail | apply emits_setASR].
Qed.

Lemma emits_pollAttempts (P : Event -> Prop) surface w n :
  (forall url, P (EvGet url)) -> P (EvSleep 3) ->
  emits P (pollAttempts surface w n).
Proof.
  intros HG HS. induction n as [| n IH]; cbn [pollAttempts]; [apply emits_fail |].
  apply emits_bind; [apply emits_getASR | intros a].
  apply emits_bind; [apply emits_getEvents | intros evs].
  destruct (queryReply w evs _) as [what | [what | body | r body]]; [apply emits_fail | ..];
    (apply emits_bind; [apply emits_emit, HG | intros _]); try apply emits_fail.
  destruct (negb _); [apply emits_fail |].
  assert (Hcont : emits P (emit (EvSleep 3);;; pollAttempts surface w n)).
  { apply emits_bind; [apply emits_emit, HS | intros _; exact IH]. }
  destruct (q_State r) as [| q | q]; try exact Hcont.
  repeat (destruct q as [q | q |]; try exact Hcont).
  - apply emits_fail.
  - destruct (unmarshalASRResult w (q_Result r)); [apply emits_ret | apply emits_fail].
Qed.


(** ** Extraction is gated by the extension *)



Lemma emits_weaken {A} (P Q : Event -> Prop) (m : M A) :
  (forall e, P e -> Q e) -> emits P m -> emits Q m.
Proof.
  intros HPQ Hm s. destruct (Hm s) as (l & E & F). exists l. split; [exact E |].
  eapply Forall_impl; eassumption.
Qed.




Lemma bind_setASR {B} f (k : unit -> M B) s :
  bind (setASR f) k s = k tt {| asr := f (asr s); files := files s; events := events s |}.
Proof. reflexivity. Qed.


Lemma bind_getASR {B} (k : BcutASR -> M B) s : bind getASR k s = k (asr s) s.
Proof. reflexivity. Qed.

Lemma emit_first_event {B} (P : Event -> Prop) e (k : unit -> M B) s :
  (forall a, emits P (k a)) ->
  exists l, events (fst (bind (emit e) k s)) = events s ++ e :: l /\ Forall P l.
Proof.
  intros Hk. unfold bind, emit.
  match goal with |- context [k tt ?s1] => destruct (Hk tt s1) as (l & E & F) end.
  exists l. rewrite E. cbn [events]. rewrite <- app_assoc. split; [reflexivity | exact F].
Qed.

Lemma Run_audio_branch w s :
  mapIndex audioExts (ToLower (Ext (goos w) (AudioPath (asr s)))) = true ->
  Run w s =
    runFrom w (AudioPath (asr s))
      {| asr := set_AudioFormat (TrimPrefix (ToLower (Ext (goos w) (AudioPath (asr s)))) ".")
                  (asr s);
         files := files s; events := events s |}.
Proof.
  intros H. unfold Run. rewrite bind_getASR. rewrite H. reflexivity.
Qed.


Lemma bind_getEvents {B} (k : list Event -> M B) s : bind getEvents k s = k (events s) s.
Proof. reflexivity. Qed.

Lemma bind_getFiles {B} (k : FileSystem -> M B) s : bind getFiles k s = k (files s) s.
Proof. reflexivity. Qed.

Lemma bind_emit {B} e (k : unit -> M B) s :
  bind (emit e) k s = k tt {| asr := asr s; files := files s; events := events s ++ [e] |}.
Proof. reflexivity. Qed.

Lemma bind_ok {A B} (m : M A) (k : A -> M B) s s' a :
  m s = (s', Ok a) -> bind m k s = k a s'.
Proof. intros E. unfold bind. rewrite E. reflexivity. Qed.

Lemma bind_err {A B} (m : M A) (k : A -> M B) s s' e :
  m s = (s', Err e) -> bind m k s = (s', Err e).
Proof. intros E. unfold bind. rewrite E. reflexivity. Qed.

(** [Run] on a path that is not an audio file, by the result of the
    extraction. *)
Lemma Run_extraction_result w s :
  mapIndex audioExts (ToLower (Ext (goos w) (AudioPath (asr s)))) = false ->
  let extracted := videoToAudio (goos w) (Probe w) (Create w) (Stat w) (Remove w) (files s) (AudioPath (asr s)) in
  let evs := events s ++ [EvExtract (AudioPath (asr s))] in
  Run w s
  = match snd extracted with
    | inl e => ({| asr := asr s; files := fst extracted; events := evs |}, Err (ErrExtract e))
    | inr (extractedPath, audioFmt) =>
      runFrom w extractedPath
        {| asr := set_AudioFormat audioFmt (asr s); files := fst extracted; events := evs |}
    end.
Proof.
  intros H. cbv zeta. unfold Run. rewrite bind_getASR, H. cbn [negb].
  destruct (videoToAudio (goos w) (Probe w) (Create w) (Stat w) (Remove w) (files s) (AudioPath (asr s)))
    as [fs' [e | [extractedPath audioFmt]]] eqn:Hv; cbn [fst snd].
  - erewrite bind_err; [reflexivity |].
    rewrite bind_emit, bind_getFiles. cbn [files]. rewrite Hv. reflexivity.
  - erewrite bind_ok; [reflexivity |].
    rewrite bind_emit, bind_getFiles. cbn [files]. rewrite Hv. reflexivity.
Qed.







(** ** The sample offset table *)

Lemma walkChunk_spec samples : forall n chunkOffset sampleIdx,
  map size (fst (walkChunk samples n chunkOffset sampleIdx))
    = map Size (take n (drop sampleIdx samples))
  /\ snd (walkChunk samples n chunkOffset sampleIdx)
    = (sampleIdx + length (fst (walkChunk samples n chunkOffset sampleIdx)))%nat
  /\ accumulates chunkOffset (fst (walkChunk samples n chunkOffset sampleIdx)).
Proof.
  induction n as [| n IH]; intros chunkOffset sampleIdx; cbn [walkChunk].
  - cbn. repeat split. lia.
  - destruct (samples !! sampleIdx) as [sample |] eqn:Hs.
    + specialize (IH (to_int64 (chunkOffset + Size sample)) (S sampleIdx)).
      destruct (walkChunk samples n (to_int64 (chunkOffset + Size sample)) (S sampleIdx))
        as [more idx'].
      cbn [fst snd] in *. destruct IH as (IH1 & IH2 & IH3).
      rewrite (drop_S _ _ _ Hs). cbn [take map length size offset accumulates].
      rewrite IH1. repeat split; [lia | exact IH3].
    + cbn. rewrite (drop_ge samples sampleIdx) by (apply lookup_ge_None; exact Hs).
      repeat split. lia.
Qed.

Lemma drop_past_end {A} (l : list A) i n :
  drop (i + length (take n (drop i l))) l = drop (i + n) l.
Proof.
  rewrite length_take, length_drop.
  destruct (Nat.le_gt_cases n (length l - i)) as [H | H].
  - rewrite Nat.min_l by exact H. reflexivity.
  - rewrite Nat.min_r by lia. rewrite !drop_ge by lia. reflexivity.
Qed.

Lemma walkChunks_sizes samples chunks : forall sampleIdx,
  map size (walkChunks samples chunks sampleIdx)
    = map Size (take (chunkTableSamples chunks) (drop sampleIdx samples)).
Proof.
  induction chunks as [| c chunks IH]; intros sampleIdx; cbn [walkChunks chunkTableSamples fold_right].
  - reflexivity.
  - pose proof (walkChunk_spec samples (Z.to_nat (SamplesPerChunk c))
                  (to_int64 (DataOffset c)) sampleIdx) as (H1 & H2 & _).
    destruct (walkChunk samples (Z.to_nat (SamplesPerChunk c)) (to_int64 (DataOffset c)) sampleIdx)
      as [here idx'].
    cbn [fst snd] in *. fold (chunkTableSamples chunks).
    rewrite map_app, IH, H1, H2.
    replace (length here) with (length (take (Z.to_nat (SamplesPerChunk c)) (drop sampleIdx samples)))
      by (rewrite <- (length_map Size), <- H1, length_map; reflexivity).
    rewrite drop_past_end, <- map_app, <- drop_drop, take_take_drop. reflexivity.
Qed.

(** The table is a run per chunk; each run starts at its chunk's offset and
    accumulates the sizes of its samples. *)
Lemma walkChunks_runs samples chunks : forall sampleIdx,
  exists runs,
    walkChunks samples chunks sampleIdx = concat runs
    /\ Forall2 (fun c run => accumulates (to_int64 (DataOffset c)) run
                             /\ (length run <= Z.to_nat (SamplesPerChunk c))%nat)
         chunks runs.
Proof.
  induction chunks as [| c chunks IH]; intros sampleIdx; cbn [walkChunks].
  - exists []. split; [reflexivity | constructor].
  - pose proof (walkChunk_spec samples (Z.to_nat (SamplesPerChunk c))
                  (to_int64 (DataOffset c)) sampleIdx) as (H1 & _ & H3).
    destruct (walkChunk samples (Z.to_nat (SamplesPerChunk c)) (to_int64 (DataOffset c)) sampleIdx)
      as [here idx'].
    cbn [fst snd] in *. destruct (IH idx') as (runs & E & F).
    exists (here :: runs). split; [rewrite E; reflexivity |].
    constructor; [| exact F]. split; [exact H3 |].
    rewrite <- (length_map size), H1, length_map, length_take. lia.
Qed.

Lemma buildSampleOffsets_sizes t :
  (length (Samples t) <= chunkTableSamples (Chunks t))%nat ->
  map size (buildSampleOffsets t) = map Size (Samples t).
Proof.
  intros H. unfold buildSampleOffsets. rewrite walkChunks_sizes.
  rewrite drop_0, take_ge by exact H. reflexivity.
Qed.

(** Whatever the chunk table, the located samples are an initial segment of
    the sample table. *)
Lemma buildSampleOffsets_prefix t :
  exists k, map size (buildSampleOffsets t) = map Size (take k (Samples t)).
Proof.
  exists (chunkTableSamples (Chunks t)). unfold buildSampleOffsets.
  rewrite walkChunks_sizes, drop_0. reflexivity.
Qed.

(** ** The extraction loop *)

Lemma readFull_readable inputFile si :
  readable inputFile si ->
  readFull inputFile (offset si) (size si)
    = Some (take (Z.to_nat (size si)) (drop (Z.to_nat (offset si)) inputFile)).
Proof.
  intros [H0 H1]. unfold readFull.
  destruct (decide _) as [_ | Hn]; [reflexivity |].
  exfalso. apply Hn. rewrite length_take, length_drop. lia.
Qed.

Lemma extractSamples_ok codecType aacProfile freqIdx channelCount inputFile sis :
  forall idx out hasData,
  Forall (fun si => size si <> 0 -> readable inputFile si) sis ->
  extractSamples codecType aacProfile freqIdx channelCount inputFile idx sis out hasData
    = inr (out ++ concat (map (framedUnit codecType aacProfile freqIdx channelCount inputFile)
                            (List.filter nonzero sis)),
           hasData || existsb nonzero sis).
Proof.
  induction sis as [| si sis IH]; intros idx out hasData Hr; cbn [extractSamples].
  - cbn. rewrite app_nil_r, orb_false_r. reflexivity.
  - inversion Hr as [| ? ? Hsi Hrest]; subst.
    cbn [List.filter existsb].
    assert (Hnz : nonzero si = negb (size si =? 0)) by reflexivity.
    rewrite Hnz. destruct (size si =? 0) eqn:Hz; cbn [negb].
    + rewrite IH by exact Hrest. reflexivity.
    + apply Z.eqb_neq in Hz. specialize (Hsi Hz).
      replace (offset si <? 0) with false by (symmetry; apply Z.ltb_ge; apply Hsi).
      rewrite (readFull_readable _ _ Hsi). rewrite IH by exact Hrest.
      cbn [map concat]. unfold framedUnit at 2.
      rewrite orb_true_r. cbn [orb].
      destruct (decide (codecType = audioCodecAAC)); rewrite <- ?app_assoc; reflexivity.
Qed.

(** A sample of size zero is never sought nor read: when every located
    sample has size zero the loop ends without data and without an error. *)
Lemma extractSamples_all_zero codecType aacProfile freqIdx channelCount inputFile sis :
  forall idx out hasData,
  Forall (fun si => size si = 0) sis ->
  extractSamples codecType aacProfile freqIdx channelCount inputFile idx sis out hasData
    = inr (out, hasData).
Proof.
  induction sis as [| si sis IH]; intros idx out hasData Hz; cbn [extractSamples].
  - reflexivity.
  - inversion Hz as [| ? ? Hsi Hrest]; subst. rewrite Hsi. cbn. apply IH. exact Hrest.
Qed.

(** ** [videoToAudio] on a selected track *)

(** Removing the file that was just written: gone, or left as written. *)
Lemma removeFile_insert Remove path content (fs : FileSystem) :
  removeFile Remove path (<[path := content]> fs)
  = if Remove path then delete path fs else <[path := content]> fs.
Proof.
  unfold removeFile. destruct (Remove path); [apply delete_insert_eq | reflexivity].
Qed.

Lemma removeFile_lookup Remove path content (fs : FileSystem) :
  removeFile Remove path (<[path := content]> fs) !! path
  = if Remove path then None else Some content.
Proof.
  rewrite removeFile_insert.
  destruct (Remove path); [apply lookup_delete_eq | apply lookup_insert_eq].
Qed.

Section Extraction.

Variables (os : GOOS) (Probe : list Z -> option ProbeInfo).
Variables (Create Stat Remove : string -> bool).
Variables (fs : FileSystem) (inputPath : string) (inputFile : list Z).
Variables (info : ProbeInfo) (t : Track).
Variables (codecType : audioCodecType) (aacProfile : Z) (codecName : string).

Hypothesis Hopen : fs !! inputPath = Some inputFile.
Hypothesis Hprobe : Probe inputFile = Some info.
Hypothesis Htrack : findAudioTrack (Tracks info) = Some t.
Hypothesis Hcodec : detectAudioCodec (MP4A t) = (codecType, aacProfile, codecName).
Hypothesis Hsupported : codecType <> audioCodecHEAAC.
Hypothesis Hcreate : Create (outputPathOf os inputPath codecType) = true.

Lemma videoToAudio_success :
  Forall (fun si => size si <> 0 -> readable inputFile si) (buildSampleOffsets t) ->
  existsb nonzero (buildSampleOffsets t) = true ->
  videoToAudio os Probe Create Stat Remove fs inputPath =
    if Stat (outputPathOf os inputPath codecType)
    then
      (<[outputPathOf os inputPath codecType :=
           concat (map (framedUnit codecType aacProfile (aacFrequencyIndex (Timescale t))
                          (channelCountOf (MP4A t)) inputFile)
                       (List.filter nonzero (buildSampleOffsets t)))]> fs,
       inr (outputPathOf os inputPath codecType, snd (outputNaming codecType)))
    else
      (<[outputPathOf os inputPath codecType :=
           concat (map (framedUnit codecType aacProfile (aacFrequencyIndex (Timescale t))
                          (channelCountOf (MP4A t)) inputFile)
                       (List.filter nonzero (buildSampleOffsets t)))]> fs,
       inl ErrStat).
Proof.
  intros Hr Hex. revert Hcreate. unfold videoToAudio. rewrite Hopen, Hprobe, Htrack, Hcodec.
  destruct (decide (codecType = audioCodecHEAAC)) as [E | _]; [contradiction |].
  unfold outputPathOf.
  destruct (outputNaming codecType) as [outputExt audioFormat]. cbn [fst snd].
  intros ->. cbn [negb].
  destruct (buildSampleOffsets t) as [| si0 sis] eqn:Hsis; [discriminate |].
  rewrite extractSamples_ok by exact Hr. rewrite Hex. cbn [orb negb app].
  rewrite insert_insert_eq. destruct (Stat _); reflexivity.
Qed.

Lemma videoToAudio_all_zero :
  buildSampleOffsets t <> [] ->
  Forall (fun si => size si = 0) (buildSampleOffsets t) ->
  videoToAudio os Probe Create Stat Remove fs inputPath
  = (removeFile Remove (outputPathOf os inputPath codecType)
       (<[outputPathOf os inputPath codecType := []]> fs),
     inl ErrEmptyOutput).
Proof.
  intros Hne Hz. revert Hcreate. unfold videoToAudio. rewrite Hopen, Hprobe, Htrack, Hcodec.
  destruct (decide (codecType = audioCodecHEAAC)) as [E | _]; [contradiction |].
  unfold outputPathOf.
  destruct (outputNaming codecType) as [outputExt audioFormat]. cbn [fst snd].
  intros ->. cbn [negb].
  destruct (buildSampleOffsets t) as [| si0 sis] eqn:Hsis; [contradiction |].
  rewrite extractSamples_all_zero by exact Hz. cbn [negb].
  rewrite insert_insert_eq. reflexivity.
Qed.

Lemma videoToAudio_no_table :
  buildSampleOffsets t = [] ->
  videoToAudio os Probe Create Stat Remove fs inputPath
  = (removeFile Remove (outputPathOf os inputPath codecType)
       (<[outputPathOf os inputPath codecType := []]> fs),
     inl ErrSampleTable).
Proof.
  intros Hnil. revert Hcreate. unfold videoToAudio. rewrite Hopen, Hprobe, Htrack, Hcodec.
  destruct (decide (codecType = audioCodecHEAAC)) as [E | _]; [contradiction |].
  unfold outputPathOf.
  destruct (outputNaming codecType) as [outputExt audioFormat]. cbn [fst snd].
  intros ->. cbn [negb].
  rewrite Hnil. reflexivity.
Qed.

(** When [os.Create] refuses the output path, nothing is written. *)
Lemma videoToAudio_no_create :
  Create (outputPathOf os inputPath codecType) = false ->
  videoToAudio os Probe Create Stat Remove fs inputPath = (fs, inl ErrCreate).
Proof.
  unfold videoToAudio. rewrite Hopen, Hprobe, Htrack, Hcodec.
  destruct (decide (codecType = audioCodecHEAAC)) as [E | _]; [contradiction |].
  unfold outputPathOf.
  destruct (outputNaming codecType) as [outputExt audioFormat]. cbn [fst snd].
  intros ->. reflexivity.
Qed.

End Extraction.

(** ** Sizes of framed units *)

Lemma framedUnit_length codecType aacProfile freqIdx channelCount inputFile si :
  0 <= size si -> readable inputFile si ->
  Z.of_nat (length (framedUnit codecType aacProfile freqIdx channelCount inputFile si))
    = (if decide (codecType = audioCodecAAC) then 7 else 0) + size si.
Proof.
  intros Hs [H0 H1]. unfold framedUnit. rewrite length_app, length_take, length_drop.
  destruct (decide (codecType = audioCodecAAC)); rewrite ?makeADTSHeader_length; cbn [length]; lia.
Qed.

(** Total size of the units written for a table: the sizes of all its
    samples, plus a header per sample of non-zero size on an AAC track. *)
Lemma framed_total_length codecType aacProfile freqIdx channelCount inputFile sis :
  Forall (fun si => 0 <= size si) sis ->
  Forall (fun si => size si <> 0 -> readable inputFile si) sis ->
  Z.of_nat (length (concat (map (framedUnit codecType aacProfile freqIdx channelCount inputFile)
                              (List.filter nonzero sis))))
    = sumZ (map size sis)
      + (if decide (codecType = audioCodecAAC) then 7 else 0)
        * Z.of_nat (length (List.filter nonzero sis)).
Proof.
  intros Hs Hr. induction sis as [| si sis IH]; [destruct (decide _); reflexivity |].
  inversion Hs as [| ? ? Hs0 Hs']; inversion Hr as [| ? ? Hr0 Hr']; subst.
  specialize (IH Hs' Hr'). cbn [List.filter map sumZ fold_right].
  fold (sumZ (map size sis)).
  assert (Hnz : nonzero si = negb (size si =? 0)) by reflexivity.
  rewrite Hnz. destruct (size si =? 0) eqn:Hz; cbn [negb].
  - apply Z.eqb_eq in Hz. rewrite IH, Hz. lia.
  - apply Z.eqb_neq in Hz. cbn [map concat length]. rewrite length_app, Nat2Z.inj_add.
    rewrite framedUnit_length by auto. rewrite IH. lia.
Qed.

Lemma filter_nonzero_sizes sis :
  map size (List.filter nonzero sis) = List.filter (fun z => negb (z =? 0)) (map size sis).
Proof.
  induction sis as [| si sis IH]; [reflexivity |]. cbn [List.filter map].
  assert (Hnz : nonzero si = negb (size si =? 0)) by reflexivity.
  rewrite Hnz. destruct (size si =? 0); cbn [negb map]; rewrite IH; reflexivity.
Qed.

Lemma filter_all_nonzero (l : list Z) :
  Forall (fun z => z <> 0) l -> List.filter (fun z => negb (z =? 0)) l = l.
Proof.
  intros H. induction H as [| z l Hz _ IH]; [reflexivity |]. cbn [List.filter].
  replace (z =? 0) with false by (symmetry; apply Z.eqb_neq; exact Hz).
  cbn [negb]. rewrite IH. reflexivity.
Qed.

Lemma existsb_nonzero_filter sis :
  List.filter nonzero sis <> [] -> existsb nonzero sis = true.
Proof.
  induction sis as [| si sis IH]; cbn [List.filter existsb]; [congruence |].
  destruct (nonzero si); [reflexivity | exact IH].
Qed.

Lemma Forall_size_of_map (P : Z -> Prop) (sis : list sampleInfo) (samples : list Sample) :
  map size sis = map Size samples ->
  Forall (fun s => P (Size s)) samples -> Forall (fun si => P (size si)) sis.
Proof.
  revert samples. induction sis as [| si sis IH]; intros [| s samples] E H;
    try discriminate; [constructor |].
  cbn [map] in E. injection E as E1 E2. inversion H as [| ? ? H1 H2]; subst.
  constructor; [rewrite E1; exact H1 | eapply IH; eassumption].
Qed.

Lemma Exists_nonzero_filter (samples : list Sample) :
  Exists (fun s => Size s <> 0) samples ->
  List.filter (fun z => negb (z =? 0)) (map Size samples) <> [].
Proof.
  intros H. induction H as [s l Hs | s l _ IH]; cbn [map List.filter].
  - replace (Size s =? 0) with false by (symmetry; apply Z.eqb_neq; exact Hs). discriminate.
  - destruct (negb (Size s =? 0)); [discriminate | exact IH].
Qed.

Lemma extractSamples_app codecType aacProfile freqIdx channelCount inputFile l1 l2 :
  forall idx out hasData,
  extractSamples codecType aacProfile freqIdx channelCount inputFile idx (l1 ++ l2) out hasData
    = match extractSamples codecType aacProfile freqIdx channelCount inputFile idx l1 out hasData with
      | inl e => inl e
      | inr (out', hasData') =>
        extractSamples codecType aacProfile freqIdx channelCount inputFile
          (idx + length l1) l2 out' hasData'
      end.
Proof.
  induction l1 as [| si l1 IH]; intros idx out hasData; cbn [app extractSamples length].
  - rewrite Nat.add_0_r. reflexivity.
  - replace (idx + S (length l1))%nat with (S idx + length l1)%nat by lia.
    destruct (size si =? 0); [apply IH |].
    destruct (offset si <? 0); [reflexivity |].
    destruct (readFull inputFile (offset si) (size si)); [apply IH | reflexivity].
Qed.

(** C2, as the code has it.  For a selected track whose chunk table accounts
    for all its N samples and whose samples of non-zero size lie inside the
    file, when the machine lets the output file be created and examined,
    extraction succeeds and the output file is the concatenation of one
    framed unit per sample of non-zero size, in the container's sample order
    (the located offsets restart at each chunk's offset and accumulate the
    sizes inside it): the sample bytes copied as they are, after a 7-byte
    header on an AAC track.  The output length is the sum of the sample sizes
    plus 7 times the number of samples of non-zero size for AAC, and the sum of
    the sample sizes for MP3; when no sample has size zero, N units are
    written. *)
Theorem extraction_reframes_samples
    (os : GOOS) (Probe : list Z -> option ProbeInfo) (Create Stat Remove : string -> bool)
    (fs : FileSystem)
    (inputPath : string) (inputFile : list Z) (info : ProbeInfo) (t : Track) :
  fs !! inputPath = Some inputFile ->
  Probe inputFile = Some info ->
  findAudioTrack (Tracks info) = Some t ->
  codecTypeOf (detectAudioCodec (MP4A t)) <> audioCodecHEAAC ->
  Forall (fun s => 0 <= Size s) (Samples t) ->
  (length (Samples t) <= chunkTableSamples (Chunks t))%nat ->
  Forall (fun si => size si <> 0 -> readable inputFile si) (buildSampleOffsets t) ->
  Exists (fun s => Size s <> 0) (Samples t) ->
  Create (outputPathOf os inputPath (codecTypeOf (detectAudioCodec (MP4A t)))) = true ->
  Stat (outputPathOf os inputPath (codecTypeOf (detectAudioCodec (MP4A t)))) = true ->
  let codecType := codecTypeOf (detectAudioCodec (MP4A t)) in
  let located := buildSampleOffsets t in
  let written := List.filter nonzero located in
  let unit1 :=
    framedUnit codecType (profileOf (detectAudioCodec (MP4A t)))
      (aacFrequencyIndex (Timescale t)) (channelCountOf (MP4A t)) inputFile in
  let out := concat (map unit1 written) in
  videoToAudio os Probe Create Stat Remove fs inputPath =
    (<[outputPathOf os inputPath codecType := out]> fs,
     inr (outputPathOf os inputPath codecType, snd (outputNaming codecType)))
  /\ map size located = map Size (Samples t)
  /\ (exists runs,
        located = concat runs
        /\ Forall2 (fun c run => accumulates (to_int64 (DataOffset c)) run
                                 /\ (length run <= Z.to_nat (SamplesPerChunk c))%nat)
             (Chunks t) runs)
  /\ map size written = List.filter (fun z => negb (z =? 0)) (map Size (Samples t))
  /\ (codecType = audioCodecAAC ->
      Z.of_nat (length out) = sumZ (map Size (Samples t)) + 7 * Z.of_nat (length written))
  /\ (codecType = audioCodecMP3 -> Z.of_nat (length out) = sumZ (map Size (Samples t)))
  /\ (Forall (fun s => Size s <> 0) (Samples t) -> length written = length (Samples t)).
Proof.
  intros Hopen Hprobe Htrack Hsup Hsizes Hcover Hread Hex Hcreate Hstat. cbv zeta.
  pose proof (buildSampleOffsets_sizes t Hcover) as Hmap.
  assert (Hw : map size (List.filter nonzero (buildSampleOffsets t))
               = List.filter (fun z => negb (z =? 0)) (map Size (Samples t))).
  { rewrite filter_nonzero_sizes, Hmap. reflexivity. }
  assert (Hpos : Forall (fun si => 0 <= size si) (buildSampleOffsets t)).
  { apply (Forall_size_of_map (fun z => 0 <= z) _ _ Hmap Hsizes). }
  destruct (detectAudioCodec (MP4A t)) as [[codecType aacProfile] codecName] eqn:Hcodec.
  unfold codecTypeOf, profileOf in *. cbn [fst snd] in *.
  split.
  - rewrite (videoToAudio_success os Probe Create Stat Remove fs inputPath inputFile info t
               codecType aacProfile codecName); try assumption.
    + rewrite Hstat. reflexivity.
    + apply existsb_nonzero_filter. intros Hnil. rewrite Hnil in Hw.
      apply (Exists_nonzero_filter _ Hex). symmetry. exact Hw.
  - split; [exact Hmap |]. split; [apply walkChunks_runs |]. split; [exact Hw |].
    pose proof (framed_total_length codecType aacProfile (aacFrequencyIndex (Timescale t))
                  (channelCountOf (MP4A t)) inputFile _ Hpos Hread) as Hlen.
    rewrite Hmap in Hlen.
    split; [| split].
    + intros E. rewrite Hlen. destruct (decide (codecType = audioCodecAAC)); [lia | contradiction].
    + intros E. rewrite Hlen. destruct (decide (codecType = audioCodecAAC)); [congruence | lia].
    + intros Hall. rewrite <- (length_map size), Hw, filter_all_nonzero, length_map; [reflexivity |].
      clear -Hall. induction Hall; cbn [map]; constructor; assumption.
Qed.

Example lcTrack_located :
  buildSampleOffsets Demo.lcTrack
    = [ {| offset := 0; size := 2 |}; {| offset := 2; size := 1 |}; {| offset := 3; size := 2 |} ].
Proof. vm_compute. reflexivity. Defined.

Example aacTrack_located :
  buildSampleOffsets Demo.aacTrack
    = [ {| offset := 3; size := 0 |}; {| offset := 3; size := 2 |} ].
Proof. vm_compute. reflexivity. Defined.

Lemma extraction_reframes_samples_witness :
  snd (videoToAudio unix (Demo.probeTo [Demo.videoTrack; Demo.lcTrack]) Demo.allowed Demo.allowed Demo.allowed
      Demo.disk "clip.mp4") = inr ("clip_temp.aac", "aac")
  /\ fst (videoToAudio unix (Demo.probeTo [Demo.videoTrack; Demo.lcTrack]) Demo.allowed Demo.allowed Demo.allowed
      Demo.disk "clip.mp4") !! "clip_temp.aac"
      = Some (makeADTSHeader 1 4 2 2 ++ [10; 11] ++ makeADTSHeader 1 4 2 1 ++ [12]
              ++ makeADTSHeader 1 4 2 2 ++ [13; 14]).
Proof.
  destruct (extraction_reframes_samples unix
              (Demo.probeTo [Demo.videoTrack; Demo.lcTrack]) Demo.allowed Demo.allowed Demo.allowed
              Demo.disk "clip.mp4"
              Demo.clip {| Tracks := [Demo.videoTrack; Demo.lcTrack] |} Demo.lcTrack)
    as (H & _).
  - reflexivity.
  - reflexivity.
  - reflexivity.
  - discriminate.
  - repeat (apply List.Forall_cons; [cbn; lia |]). apply List.Forall_nil.
  - cbn. lia.
  - rewrite lcTrack_located.
    repeat (apply List.Forall_cons; [intros _; split; cbn; lia |]). apply List.Forall_nil.
  - left. discriminate.
  - reflexivity.
  - reflexivity.
  - rewrite H. split; [reflexivity | vm_compute; reflexivity].
Defined.

(** A sample of size zero gets no unit: on a two-sample AAC track whose
    first sample is empty, one unit of 9 bytes is written, not two units
    totalling 2 + 7 * 2 bytes. *)
Lemma extraction_skips_zero_size_sample :
  snd (videoToAudio unix (Demo.probeTo [Demo.aacTrack]) Demo.allowed Demo.allowed Demo.allowed
      Demo.disk "clip.mp4")
    = inr ("clip_temp.aac", "aac")
  /\ fst (videoToAudio unix (Demo.probeTo [Demo.aacTrack]) Demo.allowed Demo.allowed Demo.allowed
      Demo.disk "clip.mp4")
        !! "clip_temp.aac" = Some (makeADTSHeader 1 4 2 2 ++ [13; 14])
  /\ length (Samples Demo.aacTrack) = 2%nat
  /\ Z.of_nat (length (makeADTSHeader 1 4 2 2 ++ [13; 14]))
      <> sumZ (map Size (Samples Demo.aacTrack)) + 7 * 2.
Proof.
  split; [vm_compute; reflexivity |]. split; [vm_compute; reflexivity |].
  split; [reflexivity | vm_compute; discriminate].
Qed.

(** C8, as the code has it.  When the machine lets the output file be
    created: on a selected track whose samples all have size zero, extraction
    fails, with the empty-output error when the chunk table locates at least
    one sample, and with the error of the empty offset table when it locates
    none; the output file is gone when the machine lets it be removed, and is
    left empty otherwise.  A located sample of size zero is passed over,
    wherever its offset points: the loop goes on with the samples after it,
    and when the samples of non-zero size lie inside the file and the written
    file can be examined, all of them are written. *)
Theorem zero_size_samples_are_skipped
    (os : GOOS) (Probe : list Z -> option ProbeInfo) (Create Stat Remove : string -> bool)
    (fs : FileSystem)
    (inputPath : string) (inputFile : list Z) (info : ProbeInfo) (t : Track) :
  fs !! inputPath = Some inputFile ->
  Probe inputFile = Some info ->
  findAudioTrack (Tracks info) = Some t ->
  codecTypeOf (detectAudioCodec (MP4A t)) <> audioCodecHEAAC ->
  Create (outputPathOf os inputPath (codecTypeOf (detectAudioCodec (MP4A t)))) = true ->
  let codecType := codecTypeOf (detectAudioCodec (MP4A t)) in
  let aacProfile := profileOf (detectAudioCodec (MP4A t)) in
  let freqIdx := aacFrequencyIndex (Timescale t) in
  let channelCount := channelCountOf (MP4A t) in
  let outputPath := outputPathOf os inputPath codecType in
  let result := videoToAudio os Probe Create Stat Remove fs inputPath in
  (Forall (fun s => Size s = 0) (Samples t) ->
     (buildSampleOffsets t <> [] -> snd result = inl ErrEmptyOutput)
     /\ (buildSampleOffsets t = [] -> snd result = inl ErrSampleTable)
     /\ (Remove outputPath = true ->
         fst result = delete outputPath fs /\ fst result !! outputPath = None)
     /\ (Remove outputPath = false ->
         fst result = <[outputPath := []]> fs /\ fst result !! outputPath = Some []))
  /\ (forall pre z post idx out hasData,
       size z = 0 ->
       extractSamples codecType aacProfile freqIdx channelCount inputFile idx
         (pre ++ z :: post) out hasData
       = match extractSamples codecType aacProfile freqIdx channelCount inputFile idx
                 pre out hasData with
         | inl e => inl e
         | inr (out', hasData') =>
           extractSamples codecType aacProfile freqIdx channelCount inputFile
             (idx + length pre + 1) post out' hasData'
         end)
  /\ (Forall (fun si => size si <> 0 -> readable inputFile si) (buildSampleOffsets t) ->
      Exists (fun si => size si <> 0) (buildSampleOffsets t) ->
      Stat outputPath = true ->
      snd result = inr (outputPath, snd (outputNaming codecType))
      /\ fst result !! outputPath
          = Some (concat (map (framedUnit codecType aacProfile freqIdx channelCount inputFile)
                            (List.filter nonzero (buildSampleOffsets t))))).
Proof.
  intros Hopen Hprobe Htrack Hsup Hcreate. cbv zeta.
  destruct (detectAudioCodec (MP4A t)) as [[codecType aacProfile] codecName] eqn:Hcodec.
  unfold codecTypeOf, profileOf in *. cbn [fst snd] in *.
  split; [| split].
  - intros Hzero.
    assert (Hz : Forall (fun si => size si = 0) (buildSampleOffsets t)).
    { destruct (buildSampleOffsets_prefix t) as (k & Hk).
      apply (Forall_size_of_map (fun z => z = 0) _ _ Hk).
      apply Forall_take. exact Hzero. }
    split; [| split].
    + intros Hne.
      rewrite (videoToAudio_all_zero os Probe Create Stat Remove fs inputPath inputFile info t
                 codecType aacProfile codecName) by assumption.
      reflexivity.
    + intros Hnil.
      rewrite (videoToAudio_no_table os Probe Create Stat Remove fs inputPath inputFile info t
                 codecType aacProfile codecName) by assumption.
      reflexivity.
    + assert (Hfs : fst (videoToAudio os Probe Create Stat Remove fs inputPath)
                    = removeFile Remove (outputPathOf os inputPath codecType)
                        (<[outputPathOf os inputPath codecType := []]> fs)).
      { destruct (buildSampleOffsets t) as [| si0 sis] eqn:Hsis.
        - rewrite (videoToAudio_no_table os Probe Create Stat Remove fs inputPath inputFile
                     info t codecType aacProfile codecName) by assumption.
          reflexivity.
        - rewrite (videoToAudio_all_zero os Probe Create Stat Remove fs inputPath inputFile
                     info t codecType aacProfile codecName);
            try assumption; [reflexivity | rewrite Hsis; discriminate | rewrite Hsis; exact Hz]. }
      rewrite Hfs, removeFile_insert.
      split; intros ->; (split; [reflexivity |]);
        [apply lookup_delete_eq | apply lookup_insert_eq].
  - intros pre z post idx out hasData Hz. rewrite extractSamples_app.
    destruct (extractSamples codecType aacProfile _ _ inputFile idx pre out hasData)
      as [e | [out' hasData']]; [reflexivity |].
    cbn [extractSamples]. rewrite Hz. cbn.
    replace (S (idx + length pre)) with (idx + length pre + 1)%nat by lia. reflexivity.
  - intros Hread Hex Hstat.
    rewrite (videoToAudio_success os Probe Create Stat Remove fs inputPath inputFile info t
               codecType aacProfile codecName); try assumption.
    + rewrite Hstat. cbn [fst snd]. split; [reflexivity | apply lookup_insert_eq].
    + clear -Hex. induction Hex as [si l Hs | si l _ IH]; cbn [existsb].
      * unfold nonzero. replace (size si =? 0) with false
          by (symmetry; apply Z.eqb_neq; exact Hs). reflexivity.
      * rewrite IH. apply orb_true_r.
Qed.

Lemma zero_size_samples_are_skipped_witness :
  snd (videoToAudio unix (Demo.probeTo [Demo.emptyTrack]) Demo.allowed Demo.allowed
         Demo.allowed Demo.disk "clip.mp4")
    = inl ErrEmptyOutput
  /\ fst (videoToAudio unix (Demo.probeTo [Demo.emptyTrack]) Demo.allowed Demo.allowed
            Demo.allowed Demo.disk "clip.mp4")
        !! "clip_temp.aac" = None
  /\ fst (videoToAudio unix (Demo.probeTo [Demo.emptyTrack]) Demo.allowed Demo.allowed
            Demo.denied Demo.disk "clip.mp4")
        !! "clip_temp.aac" = Some []
  /\ snd (videoToAudio unix (Demo.probeTo [Demo.aacTrack]) Demo.allowed Demo.allowed
            Demo.allowed Demo.disk "clip.mp4")
      = inr ("clip_temp.aac", "aac").
Proof.
  destruct (zero_size_samples_are_skipped unix (Demo.probeTo [Demo.emptyTrack])
              Demo.allowed Demo.allowed Demo.allowed
              Demo.disk "clip.mp4" Demo.clip {| Tracks := [Demo.emptyTrack] |}
              Demo.emptyTrack) as (H1 & _ & _);
    [reflexivity | reflexivity | reflexivity | discriminate | reflexivity |].
  destruct (zero_size_samples_are_skipped unix (Demo.probeTo [Demo.emptyTrack])
              Demo.allowed Demo.allowed Demo.denied
              Demo.disk "clip.mp4" Demo.clip {| Tracks := [Demo.emptyTrack] |}
              Demo.emptyTrack) as (H2 & _ & _);
    [reflexivity | reflexivity | reflexivity | discriminate | reflexivity |].
  destruct (zero_size_samples_are_skipped unix (Demo.probeTo [Demo.aacTrack])
              Demo.allowed Demo.allowed Demo.allowed
              Demo.disk "clip.mp4" Demo.clip {| Tracks := [Demo.aacTrack] |}
              Demo.aacTrack) as (_ & _ & H3);
    [reflexivity | reflexivity | reflexivity | discriminate | reflexivity |].
  destruct H1 as (H1a & _ & H1b & _);
    [repeat (apply List.Forall_cons; [reflexivity |]); apply List.Forall_nil |].
  destruct H2 as (_ & _ & _ & H2b);
    [repeat (apply List.Forall_cons; [reflexivity |]); apply List.Forall_nil |].
  destruct H3 as [H3a _].
  - rewrite aacTrack_located.
    apply List.Forall_cons; [intros Hz; exfalso; apply Hz; reflexivity |].
    apply List.Forall_cons; [intros _; split; cbn; lia | apply List.Forall_nil].
  - rewrite aacTrack_located. right. left. cbn. discriminate.
  - reflexivity.
  - split; [apply H1a; discriminate |].
    split; [exact (proj2 (H1b eq_refl)) |].
    split; [exact (proj2 (H2b eq_refl)) | exact H3a].
Defined.

(** All samples of size zero is not enough for the empty-output error: when
    the chunk table locates none of them, extraction fails on the empty
    offset table instead. *)
Lemma all_zero_samples_without_located_sample :
  Forall (fun s => Size s = 0) (Samples Demo.unlocatedTrack)
  /\ findAudioTrack [Demo.unlocatedTrack] = Some Demo.unlocatedTrack
  /\ snd (videoToAudio unix (Demo.probeTo [Demo.unlocatedTrack]) Demo.allowed Demo.allowed Demo.allowed
            Demo.disk "clip.mp4") = inl ErrSampleTable
  /\ snd (videoToAudio unix (Demo.probeTo [Demo.unlocatedTrack]) Demo.allowed Demo.allowed Demo.allowed
            Demo.disk "clip.mp4") <> inl ErrEmptyOutput.
Proof.
  split; [repeat (apply List.Forall_cons; [reflexivity |]); apply List.Forall_nil |].
  split; [reflexivity |].
  assert (E : snd (videoToAudio unix (Demo.probeTo [Demo.unlocatedTrack]) Demo.allowed
                     Demo.allowed Demo.allowed Demo.disk "clip.mp4") = inl ErrSampleTable)
    by (vm_compute; reflexivity).
  split; [exact E | rewrite E; discriminate].
Qed.

(** ** Chunks of the upload *)

Lemma sliceBytes_defined data low high :
  is_Some (sliceBytes data low high) <-> 0 <= low <= high /\ high <= Z.of_nat (length data).
Proof.
  unfold sliceBytes.
  destruct (0 <=? low) eqn:H0; destruct (low <=? high) eqn:H1;
    destruct (high <=? Z.of_nat (length data)) eqn:H2; cbn [andb];
    rewrite ?Z.leb_le, ?Z.leb_gt in *;
    (split; [intros [x Hx]; try discriminate; lia | intros H; try lia; eexists; reflexivity]).
Qed.

(** The upper bound is clamped to the file length. *)
Lemma chunkEnd_clamped fileLen perSize i : chunkEnd fileLen perSize i <= fileLen.
Proof.
  unfold chunkEnd. destruct (_ >? fileLen) eqn:H; [lia |].
  rewrite Z.gtb_ltb in H. apply Z.ltb_ge in H. exact H.
Qed.

Lemma chunkOf_defined fileData perSize i :
  is_Some (chunkOf fileData perSize i)
  <-> 0 <= chunkStart perSize i <= chunkEnd (Z.of_nat (length fileData)) perSize i.
Proof.
  unfold chunkOf. rewrite sliceBytes_defined.
  pose proof (chunkEnd_clamped (Z.of_nat (length fileData)) perSize i). tauto.
Qed.

Lemma chunkStart_exact perSize i :
  0 <= perSize -> Z.of_nat i * perSize < 2 ^ 63 -> chunkStart perSize i = Z.of_nat i * perSize.
Proof. intros H0 H1. unfold chunkStart. apply to_int64_small. nia. Qed.

Lemma chunkEnd_exact fileLen perSize i :
  0 <= perSize -> Z.of_nat i * perSize + perSize < 2 ^ 63 ->
  chunkEnd fileLen perSize i = Z.min ((Z.of_nat i + 1) * perSize) fileLen.
Proof.
  intros H0 H1. unfold chunkEnd. rewrite chunkStart_exact by nia.
  rewrite to_int64_small by nia.
  destruct (_ >? fileLen) eqn:H.
  - rewrite Z.gtb_ltb in H. apply Z.ltb_lt in H. lia.
  - rewrite Z.gtb_ltb in H. apply Z.ltb_ge in H. lia.
Qed.

(** Without wrap-around, chunk [i] exists exactly when its start is inside
    the file, and then it is the byte range of the statement. *)
Lemma chunkOf_exact fileData perSize i :
  0 <= perSize -> Z.of_nat i * perSize + perSize < 2 ^ 63 ->
  (is_Some (chunkOf fileData perSize i) <-> Z.of_nat i * perSize <= Z.of_nat (length fileData))
  /\ (Z.of_nat i * perSize <= Z.of_nat (length fileData) ->
      chunkOf fileData perSize i = Some (chunkBytes fileData perSize i)).
Proof.
  intros H0 H1.
  pose proof (chunkStart_exact perSize i H0 ltac:(nia)) as Es.
  pose proof (chunkEnd_exact (Z.of_nat (length fileData)) perSize i H0 H1) as Ee.
  split.
  - rewrite chunkOf_defined, Es, Ee. nia.
  - intros Hin. unfold chunkOf, sliceBytes. rewrite Es, Ee.
    replace (0 <=? Z.of_nat i * perSize) with true by (symmetry; apply Z.leb_le; nia).
    replace (Z.of_nat i * perSize <=? _) with true by (symmetry; apply Z.leb_le; nia).
    replace (Z.min _ _ <=? Z.of_nat (length fileData)) with true
      by (symmetry; apply Z.leb_le; lia).
    reflexivity.
Qed.

Lemma chunkBytes_length data perSize i :
  0 <= perSize -> Z.of_nat i * perSize <= Z.of_nat (length data) ->
  Z.of_nat (length (chunkBytes data perSize i))
    = Z.min perSize (Z.of_nat (length data) - Z.of_nat i * perSize).
Proof.
  intros H0 H1. unfold chunkBytes, byteRange. rewrite length_take, length_drop. nia.
Qed.

(** ** The chunk loop and the commit *)

Lemma accepted_status (r : PutResp) :
  put_StatusCode r = 200 \/ put_StatusCode r = 201 ->
  negb (put_StatusCode r =? 200) && negb (put_StatusCode r =? 201) = false.
Proof. intros [E | E]; rewrite E; reflexivity. Qed.

(** When every chunk start lies inside the file and every PUT is accepted,
    the loop sends chunk [i] to URL [i] for each URL in turn and appends the
    ETag of each reply. *)
Lemma uploadChunks_ok w data perSize urls : forall i s,
  0 <= perSize ->
  Z.of_nat (length data) + perSize < 2 ^ 63 ->
  (forall j, (j < i + length urls)%nat -> Z.of_nat j * perSize <= Z.of_nat (length data)) ->
  putsAccepted w ->
  uploadChunks w data perSize i urls s =
    ({| asr := set_Etags (Etags (asr s) ++ etagsFrom w data perSize (events s) i urls) (asr s);
        files := files s;
        events := events s ++ putsFrom data perSize i urls |}, Ok tt).
Proof.
  induction urls as [| url urls IH]; intros i s H0 Hfit Hin Hacc;
    cbn [uploadChunks etagsFrom putsFrom].
  - rewrite !app_nil_r. destruct s as [a fs evs]. destruct a. reflexivity.
  - assert (Hi : Z.of_nat i * perSize <= Z.of_nat (length data))
      by (apply Hin; cbn [length]; lia).
    destruct (chunkOf_exact data perSize i H0 ltac:(lia)) as [_ Hc].
    rewrite (Hc Hi). rewrite bind_getEvents.
    destruct (Hacc (events s) url (chunkBytes data perSize i)) as (r & Er & Hst).
    rewrite Er, bind_emit, (accepted_status r Hst), bind_setASR.
    rewrite IH; try assumption.
    + cbn [asr files events set_Etags Etags]. rewrite <- !app_assoc. reflexivity.
    + intros j Hj. apply Hin. cbn [length]. lia.
Qed.

(** What [upload] sends when the plan is accepted, every chunk start lies
    inside the file and every PUT is accepted: the plan request, the PUTs,
    and the commit with the comma-joined ETags. *)
Lemma upload_events w s data plan body :
  files s !! AudioPath (asr s) = Some data ->
  (forall evs form, reqUploadReply w evs form = Decoded plan body) ->
  up_Code plan = 0 ->
  0 <= up_PerUploadSize plan ->
  Z.of_nat (length data) + up_PerUploadSize plan < 2 ^ 63 ->
  (forall j, (j < length (up_UploadURLs plan))%nat ->
             Z.of_nat j * up_PerUploadSize plan <= Z.of_nat (length data)) ->
  putsAccepted w ->
  exists formValues,
    let evs0 := events s ++ [EvReadFile (AudioPath (asr s)); EvPostForm API_REQ_UPLOAD formValues] in
    let etags := etagsFrom w data (up_PerUploadSize plan) evs0 0 (up_UploadURLs plan) in
    events (fst (upload w s)) =
      evs0 ++ putsFrom data (up_PerUploadSize plan) 0 (up_UploadURLs plan)
           ++ [EvPostForm API_COMMIT_UPLOAD
                 [("in_boss_key", up_InBossKey plan); ("resource_id", up_ResourceID plan);
                  ("etags", Join etags ","); ("upload_id", up_UploadID plan);
                  ("model_id", "7")]]
    /\ Etags (asr (fst (upload w s))) = etags
    /\ (forall what, snd (upload w s) <> Panic what).
Proof.
  intros Hfile Hplan Hcode H0 Hfit Hin Hacc.
  unfold upload. rewrite bind_getASR, bind_getFiles, bind_emit, Hfile.
  unfold uploadData. rewrite bind_getEvents, bind_emit, Hplan, Hcode. cbn [Z.eqb negb].
  eexists. cbv zeta.
  rewrite bind_setASR, bind_setASR.
  erewrite bind_ok by (apply uploadChunks_ok; assumption).
  rewrite bind_getASR, bind_getEvents, bind_emit.
  cbn [asr files events set_Etags set_plan Etags InBossKey ResourceID UploadID app].
  rewrite <- !app_assoc. cbn [app].
  match goal with |- context [commitReply w ?e ?f] => destruct (commitReply w e f) as [x | x | c x] end;
    cbn [fst snd events asr];
    [ | | destruct (negb (cm_Code c =? 0)); [| destruct (negb _)]];
    cbn [fst snd events asr setASR ret fail set_DownloadURL Etags];
    (split; [reflexivity | split; [reflexivity | intros ?; discriminate]]).
Qed.

Lemma putsFrom_length data perSize urls : forall i,
  length (putsFrom data perSize i urls) = length urls.
Proof. induction urls as [| u urls IH]; intros i; cbn; [reflexivity | rewrite IH; reflexivity]. Qed.

Lemma putsFrom_lookup data perSize urls : forall i j url,
  urls !! j = Some url ->
  putsFrom data perSize i urls !! j = Some (EvPut url (chunkBytes data perSize (i + j))).
Proof.
  induction urls as [| u urls IH]; intros i j url H; [discriminate |].
  destruct j as [| j]; cbn in *.
  - injection H as ->. rewrite Nat.add_0_r. reflexivity.
  - replace (i + S j)%nat with (S i + j)%nat by lia. apply IH. exact H.
Qed.

Lemma etagsFrom_length w data perSize urls : forall evs i,
  length (etagsFrom w data perSize evs i urls) = length urls.
Proof.
  induction urls as [| u urls IH]; intros evs i; cbn; [reflexivity | rewrite IH; reflexivity].
Qed.

(** ETag [j] comes from the reply to PUT [j], which the service gives
    knowing the PUTs before it. *)
Lemma etagsFrom_lookup w data perSize urls : forall evs i j url,
  putsAccepted w ->
  urls !! j = Some url ->
  exists r,
    putReply w (evs ++ take j (putsFrom data perSize i urls)) url
      (chunkBytes data perSize (i + j)) = PutReplied r
    /\ etagsFrom w data perSize evs i urls !! j = Some (etagOf (put_Header r)).
Proof.
  induction urls as [| u urls IH]; intros evs i j url Hacc H; [discriminate |].
  destruct j as [| j]; cbn [etagsFrom putsFrom take] in *.
  - cbn in H. injection H as ->. rewrite app_nil_r, Nat.add_0_r.
    destruct (Hacc evs url (chunkBytes data perSize i)) as (r & Er & _).
    exists r. rewrite Er. split; reflexivity.
  - cbn in H.
    destruct (IH (evs ++ [EvPut u (chunkBytes data perSize i)]) (S i) j url Hacc H)
      as (r & Er & El).
    exists r. rewrite <- app_assoc in Er. cbn [app] in Er.
    replace (i + S j)%nat with (S i + j)%nat by lia. split; [exact Er | exact El].
Qed.

(** C5, as the code has it.  Take an accepted upload plan with k URLs and
    chunk size perSize >= 0 over a file of n bytes, such that every chunk
    start i * perSize is at most n and every PUT is answered 200 or 201.  Then
    [upload] sends, after the plan request, exactly k PUTs in URL order, PUT i
    carrying the bytes [i * perSize, min ((i + 1) * perSize, n)), so every
    chunk but the last has perSize bytes; the ETag of reply i, read from
    header "Etag" or else "ETag", is stored at index i; and the commit form
    carries the comma-join of these ETags in chunk order.  For a file of
    12,000,000 bytes and perSize 5,000,000 the three chunks have 5000000,
    5000000 and 2000000 bytes. *)
Theorem upload_sends_chunks_in_order
    (w : World) (s : Session) (data : list Z) (plan : UploadResp) (body : string) :
  files s !! AudioPath (asr s) = Some data ->
  (forall evs form, reqUploadReply w evs form = Decoded plan body) ->
  up_Code plan = 0 ->
  0 <= up_PerUploadSize plan ->
  Z.of_nat (length data) + up_PerUploadSize plan < 2 ^ 63 ->
  (forall j, (j < length (up_UploadURLs plan))%nat ->
             Z.of_nat j * up_PerUploadSize plan <= Z.of_nat (length data)) ->
  putsAccepted w ->
  let perSize := up_PerUploadSize plan in
  let urls := up_UploadURLs plan in
  let n := Z.of_nat (length data) in
  (exists formValues,
    let evs0 :=
      events s ++ [EvReadFile (AudioPath (asr s)); EvPostForm API_REQ_UPLOAD formValues] in
    let puts := putsFrom data perSize 0 urls in
    let etags := etagsFrom w data perSize evs0 0 urls in
    events (fst (upload w s)) =
      evs0 ++ puts
           ++ [EvPostForm API_COMMIT_UPLOAD
                 [("in_boss_key", up_InBossKey plan); ("resource_id", up_ResourceID plan);
                  ("etags", Join etags ","); ("upload_id", up_UploadID plan);
                  ("model_id", "7")]]
    /\ length puts = length urls
    /\ (forall i url, urls !! i = Some url ->
          puts !! i = Some (EvPut url (chunkBytes data perSize i)))
    /\ Etags (asr (fst (upload w s))) = etags
    /\ length etags = length urls
    /\ (forall i url, urls !! i = Some url ->
          exists r,
            putReply w (evs0 ++ take i puts) url (chunkBytes data perSize i) = PutReplied r
            /\ etags !! i =
               Some (if String.eqb (Header_Get (put_Header r) "Etag") ""
                     then Header_Get (put_Header r) "ETag"
                     else Header_Get (put_Header r) "Etag")))
  /\ (forall i, (i < length urls)%nat ->
        Z.of_nat (length (chunkBytes data perSize i)) = Z.min perSize (n - Z.of_nat i * perSize))
  /\ (forall i, (S i < length urls)%nat ->
        Z.of_nat (length (chunkBytes data perSize i)) = perSize)
  /\ (forall big : list Z, Z.of_nat (length big) = 12000000 ->
        map (fun i => Z.of_nat (length (chunkBytes big 5000000 i))) [0; 1; 2]%nat
          = [5000000; 5000000; 2000000]).
Proof.
  intros Hfile Hplan Hcode H0 Hfit Hin Hacc. cbv zeta.
  split; [| split; [| split]].
  - destruct (upload_events w s data plan body Hfile Hplan Hcode H0 Hfit Hin Hacc)
      as (formValues & Hev & Het & _).
    exists formValues. cbv zeta. cbv zeta in Hev, Het.
    split; [exact Hev |]. split; [apply putsFrom_length |].
    split; [intros i url Hu; apply (putsFrom_lookup data _ _ 0 i url Hu) |].
    split; [exact Het |]. split; [apply etagsFrom_length |].
    intros i url Hu.
    destruct (etagsFrom_lookup w data (up_PerUploadSize plan) (up_UploadURLs plan)
                (events s ++ [EvReadFile (AudioPath (asr s)); EvPostForm API_REQ_UPLOAD formValues])
                0 i url Hacc Hu) as (r & Er & El).
    exists r. split; [exact Er | exact El].
  - intros i Hi. apply chunkBytes_length; [exact H0 | apply Hin; exact Hi].
  - intros i Hi. rewrite chunkBytes_length; [| exact H0 | apply Hin; lia].
    pose proof (Hin (S i) Hi) as Hn. lia.
  - intros big Hbig. cbn [map].
    rewrite !chunkBytes_length by (rewrite ?Hbig; lia). rewrite Hbig. reflexivity.
Qed.

Lemma upload_sends_chunks_in_order_witness :
  Etags (asr (fst (upload (Demo.service ["u0"; "u1"; "u2"] 4 4 "")
                     (Demo.session "talk.m4a" Demo.tenBytes))))
    = ["E-u0"; "E-u1"; "E-u2"]
  /\ map (fun i => Z.of_nat (length (chunkBytes Demo.tenBytes 4 i))) [0; 1; 2]%nat = [4; 4; 2].
Proof.
  destruct (upload_sends_chunks_in_order (Demo.service ["u0"; "u1"; "u2"] 4 4 "")
              (Demo.session "talk.m4a" Demo.tenBytes) Demo.tenBytes
              {| up_Code := 0; up_ResourceID := "res"; up_UploadID := "upl";
                 up_UploadURLs := ["u0"; "u1"; "u2"]; up_PerUploadSize := 4;
                 up_DownloadURL := "dl0"; up_InBossKey := "key" |} "")
    as ((formValues & _ & _ & _ & Het & _) & Hlen & _).
  - reflexivity.
  - intros evs form. reflexivity.
  - reflexivity.
  - cbn. lia.
  - cbn. lia.
  - cbn. intros j Hj. lia.
  - intros evs url chunk. eexists. split; [reflexivity | left; reflexivity].
  - split.
    + rewrite Het. reflexivity.
    + cbn [map]. rewrite !Hlen by (cbn; lia). reflexivity.
Defined.

(** Without its preconditions the statement fails.  A plan of four URLs for a
    10-byte file in chunks of 5 gets three PUTs and then no commit: the
    fourth slice starts beyond the file.  And a plan of two URLs whose first
    PUT is answered 500 gets one PUT and the error of that PUT. *)
Lemma upload_does_not_always_send_k_puts :
  snd (upload (Demo.service ["u0"; "u1"; "u2"; "u3"] 5 4 "")
         (Demo.session "talk.m4a" Demo.tenBytes)) = Panic "slice bounds out of range"
  /\ events (fst (upload (Demo.service ["u0"; "u1"; "u2"; "u3"] 5 4 "")
                    (Demo.session "talk.m4a" Demo.tenBytes)))
      = [ EvReadFile "talk.m4a";
          EvPostForm API_REQ_UPLOAD
            [("type", "2"); ("name", "audio.mp3"); ("size", "10");
             ("resource_file_type", "mp3"); ("model_id", "7")];
          EvPut "u0" [0; 1; 2; 3; 4]; EvPut "u1" [5; 6; 7; 8; 9]; EvPut "u2" [] ]
  /\ snd (upload (Demo.refusing ["u0"; "u1"] 5) (Demo.session "talk.m4a" Demo.tenBytes))
      = Err (ErrPutStatus 1 500 "no")
  /\ events (fst (upload (Demo.refusing ["u0"; "u1"] 5)
                    (Demo.session "talk.m4a" Demo.tenBytes)))
      = [ EvReadFile "talk.m4a";
          EvPostForm API_REQ_UPLOAD
            [("type", "2"); ("name", "audio.mp3"); ("size", "10");
             ("resource_file_type", "mp3"); ("model_id", "7")];
          EvPut "u0" [0; 1; 2; 3; 4] ].
Proof. repeat split; vm_compute; reflexivity. Qed.

(** C9.  The upper bound of a chunk is clamped to the file length, the
    lower bound is not: the slice of chunk [i] is defined only if its start,
    [i * perSize] as the code computes it, is at most the file length (and at
    most the clamped end); without wrap-around that condition is also
    sufficient.  A plan with more URLs than ceil(n / perSize) can break it:
    with four URLs for 10 bytes in chunks of 5, the fourth slice has start 15
    above end 10, and [upload] ends in a run-time panic, not in an error
    value. *)
Theorem upload_chunk_computation_is_partial :
  (forall (fileData : list Z) (perSize : Z) (i : nat),
     chunkEnd (Z.of_nat (length fileData)) perSize i <= Z.of_nat (length fileData)
     /\ (is_Some (chunkOf fileData perSize i)
         <-> 0 <= chunkStart perSize i <= chunkEnd (Z.of_nat (length fileData)) perSize i)
     /\ (is_Some (chunkOf fileData perSize i)
         -> chunkStart perSize i <= Z.of_nat (length fileData)))
  /\ (forall (fileData : list Z) (perSize : Z) (i : nat),
       0 <= perSize -> Z.of_nat i * perSize + perSize < 2 ^ 63 ->
       chunkStart perSize i = Z.of_nat i * perSize
       /\ (is_Some (chunkOf fileData perSize i)
           <-> Z.of_nat i * perSize <= Z.of_nat (length fileData)))
  /\ (Z.of_nat (length ["u0"; "u1"; "u2"; "u3"]) > (Z.of_nat (length Demo.tenBytes) + 5 - 1) / 5
      /\ chunkStart 5 3 = 15
      /\ chunkEnd (Z.of_nat (length Demo.tenBytes)) 5 3 = 10
      /\ chunkOf Demo.tenBytes 5 3 = None
      /\ snd (upload (Demo.service ["u0"; "u1"; "u2"; "u3"] 5 4 "")
                (Demo.session "talk.m4a" Demo.tenBytes)) = Panic "slice bounds out of range"
      /\ (forall e, snd (upload (Demo.service ["u0"; "u1"; "u2"; "u3"] 5 4 "")
                           (Demo.session "talk.m4a" Demo.tenBytes)) <> Err e)).
Proof.
  split; [| split].
  - intros fileData perSize i.
    split; [apply chunkEnd_clamped |]. split; [apply chunkOf_defined |].
    intros H. apply chunkOf_defined in H.
    pose proof (chunkEnd_clamped (Z.of_nat (length fileData)) perSize i). lia.
  - intros fileData perSize i H0 H1.
    split; [apply chunkStart_exact; nia | apply chunkOf_exact; assumption].
  - split; [vm_compute; reflexivity |]. split; [vm_compute; reflexivity |].
    split; [vm_compute; reflexivity |]. split; [vm_compute; reflexivity |].
    assert (E : snd (upload (Demo.service ["u0"; "u1"; "u2"; "u3"] 5 4 "")
                       (Demo.session "talk.m4a" Demo.tenBytes))
                = Panic "slice bounds out of range") by (vm_compute; reflexivity).
    split; [exact E | intros e; rewrite E; discriminate].
Qed.

Lemma upload_chunk_computation_is_partial_witness :
  chunkStart 5 3 = 3 * 5 /\ is_Some (chunkOf Demo.tenBytes 5 2).
Proof.
  destruct upload_chunk_computation_is_partial as (_ & H & _).
  destruct (H Demo.tenBytes 5 3%nat) as [Hs _]; [lia | cbn; lia |].
  destruct (H Demo.tenBytes 5 2%nat) as [_ Hd]; [lia | cbn; lia |].
  split; [exact Hs | apply Hd; cbn; lia].
Defined.

(** ** Polling *)

(** The dispatch on the service state, as a chain of tests. *)
Lemma state_dispatch {A} (st : Z) (done failed other : A) :
  match st with 4 => done | 3 => failed | _ => other end
  = if st =? 4 then done else if st =? 3 then failed else other.
Proof.
  destruct st as [| q | q]; try reflexivity.
  repeat (destruct q as [q | q |]; try reflexivity).
Qed.

(** One attempt on a decoded reply with code 0. *)
Lemma pollAttempts_step surface w n s r body :
  queryReply w (events s) (queryURL (TaskID (asr s))) = QueryReplied (Decoded r body) ->
  q_Code r = 0 ->
  let asked :=
    {| asr := asr s; files := files s;
       events := events s ++ [EvGet (queryURL (TaskID (asr s)))] |} in
  pollAttempts surface w (S n) s =
    if q_State r =? 4 then
      (asked, match unmarshalASRResult w (q_Result r) with
              | Some asrResult => Ok asrResult
              | None => Err ErrResultJSON
              end)
    else if q_State r =? 3 then (asked, Err (ErrASRFailed (surface (q_Remark r))))
    else pollAttempts surface w n
           {| asr := asr s; files := files s;
              events := events s ++ [EvGet (queryURL (TaskID (asr s))); EvSleep 3] |}.
Proof.
  intros Hq Hc. cbv zeta. cbn [pollAttempts].
  rewrite bind_getASR, bind_getEvents, Hq, bind_emit, Hc. cbn [Z.eqb negb].
  rewrite state_dispatch.
  destruct (q_State r =? 4); [destruct (unmarshalASRResult w (q_Result r)); reflexivity |].
  destruct (q_State r =? 3); [reflexivity |].
  rewrite bind_emit. cbn [asr files events]. rewrite <- app_assoc. reflexivity.
Qed.

(** One attempt whose request cannot be built: nothing is sent. *)
Lemma pollAttempts_unbuilt surface w n s what :
  queryReply w (events s) (queryURL (TaskID (asr s))) = QueryBadRequest what ->
  pollAttempts surface w (S n) s = (s, Err (ErrRequest what)).
Proof.
  intros Hq. cbn [pollAttempts]. rewrite bind_getASR, bind_getEvents, Hq. reflexivity.
Qed.

(** One attempt whose request is sent and comes back with [reply]. *)
Lemma pollAttempts_sent surface w n s reply :
  queryReply w (events s) (queryURL (TaskID (asr s))) = QueryReplied reply ->
  let asked :=
    {| asr := asr s; files := files s;
       events := events s ++ [EvGet (queryURL (TaskID (asr s)))] |} in
  pollAttempts surface w (S n) s =
    match reply with
    | NoReply what => (asked, Err (ErrTransport what))
    | BadBody body => (asked, Err (ErrDecode body))
    | Decoded r body =>
      if negb (q_Code r =? 0) then (asked, Err (ErrQueryCode (q_Code r) (q_Message r)))
      else if q_State r =? 4 then
        (asked, match unmarshalASRResult w (q_Result r) with
                | Some asrResult => Ok asrResult
                | None => Err ErrResultJSON
                end)
      else if q_State r =? 3 then (asked, Err (ErrASRFailed (surface (q_Remark r))))
      else pollAttempts surface w n
             {| asr := asr s; files := files s;
                events := events s ++ [EvGet (queryURL (TaskID (asr s))); EvSleep 3] |}
    end.
Proof.
  intros Hq. cbv zeta. destruct reply as [what | body | r body].
  - cbn [pollAttempts]. rewrite bind_getASR, bind_getEvents, Hq, bind_emit. reflexivity.
  - cbn [pollAttempts]. rewrite bind_getASR, bind_getEvents, Hq, bind_emit. reflexivity.
  - destruct (q_Code r =? 0) eqn:Hc; cbn [negb].
    + apply Z.eqb_eq in Hc. apply (pollAttempts_step surface w n s r body Hq Hc).
    + cbn [pollAttempts]. rewrite bind_getASR, bind_getEvents, Hq, bind_emit, Hc. reflexivity.
Qed.

(** Shape of every poll of at most [n] attempts: [k] rounds that went on,
    then the budget is spent ([k = n], timeout), or one last query ends the
    poll with something else than the timeout, or the next request cannot be
    built and the poll ends without it. *)
Lemma pollAttempts_shape surface w n : forall s,
  exists k,
    (k <= n)%nat
    /\ ((k = n
         /\ events (fst (pollAttempts surface w n s))
            = events s ++ rounds (queryURL (TaskID (asr s))) k
         /\ snd (pollAttempts surface w n s) = Err ErrTimeout)
        \/ ((k < n)%nat
            /\ events (fst (pollAttempts surface w n s))
               = events s ++ rounds (queryURL (TaskID (asr s))) k
                          ++ [EvGet (queryURL (TaskID (asr s)))]
            /\ snd (pollAttempts surface w n s) <> Err ErrTimeout)
        \/ ((k < n)%nat
            /\ events (fst (pollAttempts surface w n s))
               = events s ++ rounds (queryURL (TaskID (asr s))) k
            /\ exists what, snd (pollAttempts surface w n s) = Err (ErrRequest what))).
Proof.
  induction n as [| n IH]; intros s.
  - exists O. split; [lia |]. left. cbn. rewrite app_nil_r. repeat split.
  - destruct (queryReply w (events s) (queryURL (TaskID (asr s)))) as [what | reply] eqn:Hq.
    + exists O. split; [lia |]. right. right.
      rewrite (pollAttempts_unbuilt surface w n s what Hq). cbn. rewrite app_nil_r.
      split; [lia |]. split; [reflexivity | exists what; reflexivity].
    + pose proof (pollAttempts_sent surface w n s reply Hq) as Hsent. cbv zeta in Hsent.
      rewrite Hsent. clear Hsent.
      destruct reply as [what | body | r body].
      * exists O. split; [lia |]. right. left. cbn.
        split; [lia |]. split; [reflexivity | discriminate].
      * exists O. split; [lia |]. right. left. cbn.
        split; [lia |]. split; [reflexivity | discriminate].
      * destruct (negb (q_Code r =? 0)).
        { exists O. split; [lia |]. right. left. cbn.
          split; [lia |]. split; [reflexivity | discriminate]. }
        destruct (q_State r =? 4).
        { exists O. split; [lia |]. right. left. cbn. split; [lia |]. split; [reflexivity |].
          destruct (unmarshalASRResult w (q_Result r)); discriminate. }
        destruct (q_State r =? 3).
        { exists O. split; [lia |]. right. left. cbn.
          split; [lia |]. split; [reflexivity | discriminate]. }
        match goal with |- context [pollAttempts surface w n ?s1] =>
          destruct (IH s1) as (k & Hk & Hcases) end.
        exists (S k). split; [lia |]. cbn [asr events rounds] in *.
        destruct Hcases as [(E1 & E2 & E3) | [(E1 & E2 & E3) | (E1 & E2 & E3)]].
        -- left. rewrite E2, E3, <- app_assoc. cbn [app]. repeat split. lia.
        -- right. left. rewrite E2, <- app_assoc. cbn [app].
           split; [lia |]. split; [reflexivity | exact E3].
        -- right. right. rewrite E2, <- app_assoc. cbn [app].
           split; [lia |]. split; [reflexivity | exact E3].
Qed.

Lemma rounds_queries url k : length (List.filter isGet (rounds url k)) = k.
Proof. induction k as [| k IH]; cbn; [reflexivity | rewrite IH; reflexivity]. Qed.

(** When no reply is ever terminal, the whole budget is spent. *)
Lemma pollAttempts_exhausted surface w n : forall s,
  (forall evs u, exists r body,
      queryReply w evs u = QueryReplied (Decoded r body) /\ q_Code r = 0
      /\ q_State r <> 3 /\ q_State r <> 4) ->
  pollAttempts surface w n s =
    ({| asr := asr s; files := files s;
        events := events s ++ rounds (queryURL (TaskID (asr s))) n |}, Err ErrTimeout).
Proof.
  induction n as [| n IH]; intros s Hall.
  - cbn. rewrite app_nil_r. destruct s; reflexivity.
  - destruct (Hall (events s) (queryURL (TaskID (asr s)))) as (r & body & Hq & Hc & H3 & H4).
    rewrite (pollAttempts_step surface w n s r body Hq Hc).
    replace (q_State r =? 4) with false by (symmetry; apply Z.eqb_neq; exact H4).
    replace (q_State r =? 3) with false by (symmetry; apply Z.eqb_neq; exact H3).
    rewrite IH by exact Hall. cbn [asr files events rounds].
    rewrite <- app_assoc. reflexivity.
Qed.

(** The bound on the queries of a poll of at most [n] attempts. *)
Lemma pollAttempts_bound surface w n s :
  exists l,
    events (fst (pollAttempts surface w n s)) = events s ++ l
    /\ (length (List.filter isGet l) <= n)%nat
    /\ (length (List.filter isGet l) <= length (List.filter (fun e => negb (isGet e)) l) + 1)%nat.
Proof.
  assert (Hsleeps : forall url k,
            length (List.filter (fun e => negb (isGet e)) (rounds url k)) = k).
  { intros url k. induction k as [| k IH]; cbn; [reflexivity | rewrite IH; reflexivity]. }
  destruct (pollAttempts_shape surface w n s)
    as (k & Hk & [(E1 & E2 & E3) | [(E1 & E2 & E3) | (E1 & E2 & E3)]]).
  - eexists. split; [exact E2 |]. rewrite rounds_queries, Hsleeps. lia.
  - eexists. split; [exact E2 |].
    rewrite !List.filter_app, !length_app, rounds_queries, Hsleeps.
    cbn [List.filter isGet negb length]. lia.
  - eexists. split; [exact E2 |]. rewrite rounds_queries, Hsleeps. lia.
Qed.

(** C6, as the code has it.  [pollResult] makes at most 500 queries, with a
    3-second pause after each query that does not end the poll, in both
    revisions.  On a decoded reply with code 0: state 4 ends the poll with the
    [ASRResult] parsed from the embedded JSON string; state 3 ends it with a
    failure that carries the service remark, where an empty remark is
    replaced by the generic message in the go-mp4 revision and kept empty in
    the gomedia revision; any other state pauses and goes on with one attempt
    less.  When no reply is ever terminal, the poll ends after 500 queries
    with the timeout error.  A query whose request cannot be built ends the
    poll without being sent. *)
Theorem pollResult_protocol (w : World) (s : Session) :
  let url := queryURL (TaskID (asr s)) in
  pollResult w = pollAttempts failureRemark w 500
  /\ Gomedia.pollResult w = pollAttempts (fun remark => remark) w 500
  /\ (forall remark,
        failureRemark remark
        = if String.eqb remark "" then "未知错误(可能是音频格式不支持或文件损坏)" else remark)
  /\ (forall poll, poll = pollResult w \/ poll = Gomedia.pollResult w ->
      (exists k,
         (k <= 500)%nat
         /\ ((k = 500%nat
              /\ events (fst (poll s)) = events s ++ rounds url k
              /\ snd (poll s) = Err ErrTimeout)
             \/ ((k < 500)%nat
                 /\ events (fst (poll s)) = events s ++ rounds url k ++ [EvGet url]
                 /\ snd (poll s) <> Err ErrTimeout)
             \/ ((k < 500)%nat
                 /\ events (fst (poll s)) = events s ++ rounds url k
                 /\ exists what, snd (poll s) = Err (ErrRequest what))))
      /\ (exists l,
            events (fst (poll s)) = events s ++ l
            /\ (length (List.filter isGet l) <= 500)%nat
            /\ (length (List.filter isGet l)
                <= length (List.filter (fun e => negb (isGet e)) l) + 1)%nat)
      /\ ((forall evs u, exists r body,
              queryReply w evs u = QueryReplied (Decoded r body) /\ q_Code r = 0
              /\ q_State r <> 3 /\ q_State r <> 4) ->
          snd (poll s) = Err ErrTimeout
          /\ events (fst (poll s)) = events s ++ rounds url 500
          /\ length (List.filter isGet (rounds url 500)) = 500%nat))
  /\ (forall surface n s1 r body,
        queryReply w (events s1) (queryURL (TaskID (asr s1))) = QueryReplied (Decoded r body) ->
        q_Code r = 0 ->
        let asked :=
          {| asr := asr s1; files := files s1;
             events := events s1 ++ [EvGet (queryURL (TaskID (asr s1)))] |} in
        (q_State r = 4 ->
           pollAttempts surface w (S n) s1
           = (asked, match unmarshalASRResult w (q_Result r) with
                     | Some asrResult => Ok asrResult
                     | None => Err ErrResultJSON
                     end))
        /\ (q_State r = 3 ->
              pollAttempts surface w (S n) s1
              = (asked, Err (ErrASRFailed (surface (q_Remark r)))))
        /\ (q_State r <> 3 -> q_State r <> 4 ->
              pollAttempts surface w (S n) s1
              = pollAttempts surface w n
                  {| asr := asr s1; files := files s1;
                     events := events s1 ++ [EvGet (queryURL (TaskID (asr s1))); EvSleep 3] |}))
  /\ (forall surface n s1 what,
        queryReply w (events s1) (queryURL (TaskID (asr s1))) = QueryBadRequest what ->
        pollAttempts surface w (S n) s1 = (s1, Err (ErrRequest what))).
Proof.
  cbv zeta.
  split; [reflexivity |]. split; [reflexivity |]. split; [reflexivity |].
  split.
  { assert (Hboth : forall surface,
              (exists k,
                 (k <= 500)%nat
                 /\ ((k = 500%nat
                      /\ events (fst (pollAttempts surface w 500 s))
                         = events s ++ rounds (queryURL (TaskID (asr s))) k
                      /\ snd (pollAttempts surface w 500 s) = Err ErrTimeout)
                     \/ ((k < 500)%nat
                         /\ events (fst (pollAttempts surface w 500 s))
                            = events s ++ rounds (queryURL (TaskID (asr s))) k
                                       ++ [EvGet (queryURL (TaskID (asr s)))]
                         /\ snd (pollAttempts surface w 500 s) <> Err ErrTimeout)
                     \/ ((k < 500)%nat
                         /\ events (fst (pollAttempts surface w 500 s))
                            = events s ++ rounds (queryURL (TaskID (asr s))) k
                         /\ exists what,
                              snd (pollAttempts surface w 500 s) = Err (ErrRequest what))))
              /\ (exists l,
                    events (fst (pollAttempts surface w 500 s)) = events s ++ l
                    /\ (length (List.filter isGet l) <= 500)%nat
                    /\ (length (List.filter isGet l)
                        <= length (List.filter (fun e => negb (isGet e)) l) + 1)%nat)
              /\ ((forall evs u, exists r body,
                      queryReply w evs u = QueryReplied (Decoded r body) /\ q_Code r = 0
                      /\ q_State r <> 3 /\ q_State r <> 4) ->
                  snd (pollAttempts surface w 500 s) = Err ErrTimeout
                  /\ events (fst (pollAttempts surface w 500 s))
                     = events s ++ rounds (queryURL (TaskID (asr s))) 500
                  /\ length (List.filter isGet (rounds (queryURL (TaskID (asr s))) 500))
                     = 500%nat)).
    { intros surface. split; [apply pollAttempts_shape |].
      split; [apply pollAttempts_bound |].
      intros Hall. rewrite (pollAttempts_exhausted surface w 500 s Hall).
      cbn [fst snd events]. split; [reflexivity |]. split; [reflexivity | apply rounds_queries]. }
    intros poll [-> | ->].
    - unfold pollResult. apply Hboth.
    - unfold Gomedia.pollResult. apply Hboth. }
  split.
  { intros surface n s1 r body Hq Hc. cbv zeta.
    pose proof (pollAttempts_step surface w n s1 r body Hq Hc) as Hstep.
    cbv zeta in Hstep. split; [| split].
    - intros E. rewrite Hstep, E. reflexivity.
    - intros E. rewrite Hstep, E. reflexivity.
    - intros H3 H4. rewrite Hstep.
      replace (q_State r =? 4) with false by (symmetry; apply Z.eqb_neq; exact H4).
      replace (q_State r =? 3) with false by (symmetry; apply Z.eqb_neq; exact H3).
      reflexivity. }
  intros surface n s1 what Hq. apply pollAttempts_unbuilt. exact Hq.
Qed.

Lemma pollResult_protocol_witness :
  snd (pollResult (Demo.service [] 0 4 "") (Demo.session "talk.m4a" Demo.tenBytes))
    = Ok {| Utterances := [ {| Transcript := "hello"; StartTime := 0; EndTime := 9 |} ] |}
  /\ snd (pollResult (Demo.service [] 0 3 "") (Demo.session "talk.m4a" Demo.tenBytes))
    = Err (ErrASRFailed "未知错误(可能是音频格式不支持或文件损坏)")
  /\ snd (Gomedia.pollResult (Demo.service [] 0 3 "busy")
            (Demo.session "talk.m4a" Demo.tenBytes))
    = Err (ErrASRFailed "busy")
  /\ snd (pollResult (Demo.service [] 0 1 "") (Demo.session "talk.m4a" Demo.tenBytes))
    = Err ErrTimeout.
Proof.
  destruct (pollResult_protocol (Demo.service [] 0 4 "")
              (Demo.session "talk.m4a" Demo.tenBytes)) as (E4 & _ & _ & _ & Hdone & _).
  destruct (pollResult_protocol (Demo.service [] 0 3 "")
              (Demo.session "talk.m4a" Demo.tenBytes)) as (E3 & _ & Hmsg & _ & Hfailed & _).
  destruct (pollResult_protocol (Demo.service [] 0 3 "busy")
              (Demo.session "talk.m4a" Demo.tenBytes)) as (_ & G3 & _ & _ & Hkept & _).
  destruct (pollResult_protocol (Demo.service [] 0 1 "")
              (Demo.session "talk.m4a" Demo.tenBytes)) as (_ & _ & _ & Hout & _).
  split; [| split; [| split]].
  - rewrite E4. change 500%nat with (S 499).
    destruct (Hdone failureRemark 499%nat (Demo.session "talk.m4a" Demo.tenBytes)
                {| q_Code := 0; q_Message := ""; q_State := 4; q_Remark := "";
                   q_Result := "{}" |} "") as (H4 & _ & _); [reflexivity | reflexivity |].
    rewrite H4 by reflexivity. reflexivity.
  - rewrite E3. change 500%nat with (S 499).
    destruct (Hfailed failureRemark 499%nat (Demo.session "talk.m4a" Demo.tenBytes)
                {| q_Code := 0; q_Message := ""; q_State := 3; q_Remark := "";
                   q_Result := "{}" |} "") as (_ & H3 & _); [reflexivity | reflexivity |].
    rewrite H3 by reflexivity. cbn [snd q_Remark]. rewrite Hmsg. reflexivity.
  - rewrite G3. change 500%nat with (S 499).
    destruct (Hkept (fun remark : string => remark) 499%nat
                (Demo.session "talk.m4a" Demo.tenBytes)
                {| q_Code := 0; q_Message := ""; q_State := 3; q_Remark := "busy";
                   q_Result := "{}" |} "") as (_ & H3 & _); [reflexivity | reflexivity |].
    rewrite H3 by reflexivity. reflexivity.
  - destruct (Hout (pollResult (Demo.service [] 0 1 ""))) as (_ & _ & Htime);
      [left; reflexivity |].
    apply Htime. intros evs u. eexists. eexists.
    split; [reflexivity |]. split; [reflexivity |]. split; discriminate.
Defined.

(** The gomedia revision surfaces an empty remark as it is: no generic
    message stands in for it. *)
Lemma Gomedia_pollResult_empty_remark :
  snd (Gomedia.pollResult (Demo.service [] 0 3 "")
         (Demo.session "talk.m4a" Demo.tenBytes)) = Err (ErrASRFailed "")
  /\ snd (pollResult (Demo.service [] 0 3 "")
            (Demo.session "talk.m4a" Demo.tenBytes))
     = Err (ErrASRFailed "未知错误(可能是音频格式不支持或文件损坏)")
  /\ snd (Gomedia.pollResult (Demo.service [] 0 3 "")
            (Demo.session "talk.m4a" Demo.tenBytes))
     <> snd (pollResult (Demo.service [] 0 3 "")
               (Demo.session "talk.m4a" Demo.tenBytes)).
Proof.
  assert (E1 : snd (Gomedia.pollResult (Demo.service [] 0 3 "")
                      (Demo.session "talk.m4a" Demo.tenBytes)) = Err (ErrASRFailed ""))
    by (vm_compute; reflexivity).
  assert (E2 : snd (pollResult (Demo.service [] 0 3 "")
                      (Demo.session "talk.m4a" Demo.tenBytes))
               = Err (ErrASRFailed "未知错误(可能是音频格式不支持或文件损坏)"))
    by (vm_compute; reflexivity).
  split; [exact E1 |]. split; [exact E2 |]. rewrite E1, E2. discriminate.
Qed.

(** A whole run on an audio file: no extraction, three chunks, one query. *)
Example Run_on_audio_file :
  Run (Demo.service ["u0"; "u1"; "u2"] 4 4 "") (Demo.session "talk.m4a" Demo.tenBytes)
  = ({| asr :=
          {| AudioPath := "talk.m4a"; AudioFormat := "m4a"; ResourceID := "res";
             DownloadURL := "dl1"; TaskID := "task"; Cookie := ""; UploadID := "upl";
             InBossKey := "key"; Etags := ["E-u0"; "E-u1"; "E-u2"] |};
        files := {[ "talk.m4a" := Demo.tenBytes ]};
        events :=
          [ EvReadFile "talk.m4a";
            EvPostForm API_REQ_UPLOAD
              [("type", "2"); ("name", "audio.m4a"); ("size", "10");
               ("resource_file_type", "m4a"); ("model_id", "7")];
            EvPut "u0" [0; 1; 2; 3]; EvPut "u1" [4; 5; 6; 7]; EvPut "u2" [8; 9];
            EvPostForm API_COMMIT_UPLOAD
              [("in_boss_key", "key"); ("resource_id", "res");
               ("etags", "E-u0,E-u1,E-u2"); ("upload_id", "upl"); ("model_id", "7")];
            EvPostJSON API_CREATE_TASK [("resource", "dl1"); ("model_id", "7")];
            EvGet (queryURL "task") ] |},
     Ok "hello").
Proof. vm_compute. reflexivity. Qed.

(** * Further properties of the code *)

(** ** Frequency index *)

(** What a scan returns: the first position, counted from [i], whose entry
    passes the test. *)
Lemma scan_rates_some p rs : forall i k,
  scan_rates p i rs = Some k ->
  exists j, k = i + Z.of_nat j /\ (j < length rs)%nat
            /\ p (nth j rs 0) = true
            /\ (forall j', (j' < j)%nat -> p (nth j' rs 0) = false).
Proof.
  induction rs as [| r rs IH]; intros i k H; cbn [scan_rates] in H; [discriminate |].
  destruct (p r) eqn:Hp.
  - injection H as <-. exists O. cbn. repeat split; [lia | lia | exact Hp | intros; lia].
  - destruct (IH _ _ H) as (j & -> & Hj & Hpj & Hbefore).
    exists (S j). cbn [length nth]. repeat split; [lia | lia | exact Hpj |].
    intros [| j'] Hlt; [exact Hp | apply Hbefore; lia].
Qed.

Lemma scan_rates_none p rs : forall i,
  scan_rates p i rs = None -> forall j, (j < length rs)%nat -> p (nth j rs 0) = false.
Proof.
  induction rs as [| r rs IH]; intros i H j Hj; cbn [length] in Hj; [lia |].
  cbn [scan_rates] in H. destruct (p r) eqn:Hp; [discriminate |].
  destruct j as [| j]; [exact Hp | cbn [nth]; apply (IH _ H); lia].
Qed.

(** The table is strictly decreasing. *)
Lemma rates_decreasing j k :
  (j < k)%nat -> (k < length rates)%nat -> nth k rates 0 < nth j rates 0.
Proof.
  intros Hjk Hk. cbn [length rates] in Hk.
  unfold rates.
  do 13 (destruct k as [| k]; [do 13 (destruct j as [| j]; [cbn [nth]; lia |]); lia |]). lia.
Qed.

(** X1.  [aacFrequencyIndex] returns the position of a rate that is in the
    table; its result is always an index of the table; below the smallest
    entry it is 4; from the smallest entry on it is the first entry, in the
    table's decreasing order, that does not exceed the rate. *)
Theorem aacFrequencyIndex_table (r : Z) :
  (forall i, (i < length rates)%nat -> aacFrequencyIndex (nth i rates 0) = Z.of_nat i)
  /\ 0 <= aacFrequencyIndex r <= 12
  /\ (r < 7350 -> aacFrequencyIndex r = 4)
  /\ (7350 <= r ->
      nth (Z.to_nat (aacFrequencyIndex r)) rates 0 <= r
      /\ forall j, (j < Z.to_nat (aacFrequencyIndex r))%nat -> r < nth j rates 0).
Proof.
  assert (Hsome : forall p k, scan_rates p 0 rates = Some k ->
            to_uint8 k = k /\ 0 <= k <= 12 /\ p (nth (Z.to_nat k) rates 0) = true
            /\ forall j, (j < Z.to_nat k)%nat -> p (nth j rates 0) = false).
  { intros p k H. destruct (scan_rates_some p rates 0 k H) as (j & -> & Hj & Hp & Hb).
    cbn [length rates] in Hj. rewrite Z.add_0_l, Nat2Z.id.
    split; [apply to_uint8_small; lia |]. split; [lia |]. split; assumption. }
  split; [| split; [| split]].
  - intros i Hi. cbn [length rates] in Hi.
    do 13 (destruct i as [| i]; [reflexivity |]). lia.
  - unfold aacFrequencyIndex.
    destruct (scan_rates (fun x => r =? x) 0 rates) as [k |] eqn:E1.
    + destruct (Hsome _ _ E1) as (-> & Hk & _). exact Hk.
    + destruct (scan_rates (fun x => r >=? x) 0 rates) as [k |] eqn:E2; [| lia].
      destruct (Hsome _ _ E2) as (-> & Hk & _). exact Hk.
  - intros Hlow. unfold aacFrequencyIndex.
    destruct (scan_rates (fun x => r =? x) 0 rates) as [k |] eqn:E1.
    + destruct (Hsome _ _ E1) as (_ & Hk & Hp & _). apply Z.eqb_eq in Hp.
      pose proof (rates_decreasing (Z.to_nat k) 12) as Hd. cbn [length rates] in Hd.
      destruct (Z.eq_dec k 12) as [-> | Hne];
        [change (nth (Z.to_nat 12) rates 0) with 7350 in Hp; lia |].
      specialize (Hd ltac:(lia) ltac:(lia)). change (nth 12 rates 0) with 7350 in Hd. lia.
    + destruct (scan_rates (fun x => r >=? x) 0 rates) as [k |] eqn:E2; [| reflexivity].
      destruct (Hsome _ _ E2) as (_ & Hk & Hp & _). apply Z.geb_le in Hp.
      pose proof (rates_decreasing (Z.to_nat k) 12) as Hd. cbn [length rates] in Hd.
      destruct (Z.eq_dec k 12) as [-> | Hne];
        [change (nth (Z.to_nat 12) rates 0) with 7350 in Hp; lia |].
      specialize (Hd ltac:(lia) ltac:(lia)). change (nth 12 rates 0) with 7350 in Hd. lia.
  - intros Hhigh. unfold aacFrequencyIndex.
    destruct (scan_rates (fun x => r =? x) 0 rates) as [k |] eqn:E1.
    + destruct (Hsome _ _ E1) as (-> & Hk & Hp & _). apply Z.eqb_eq in Hp.
      split; [lia |]. intros j Hj. rewrite Hp at 1.
      apply rates_decreasing; [exact Hj | cbn [length rates]; lia].
    + destruct (scan_rates (fun x => r >=? x) 0 rates) as [k |] eqn:E2.
      * destruct (Hsome _ _ E2) as (-> & Hk & Hp & Hb). apply Z.geb_le in Hp.
        split; [exact Hp |]. intros j Hj. specialize (Hb j Hj).
        rewrite Z.geb_leb in Hb. apply Z.leb_gt in Hb. exact Hb.
      * pose proof (scan_rates_none _ _ _ E2 12%nat ltac:(cbn; lia)) as H12.
        cbn [nth rates] in H12. rewrite Z.geb_leb in H12. apply Z.leb_gt in H12. lia.
Qed.

Lemma aacFrequencyIndex_table_witness :
  aacFrequencyIndex 7000 = 4
  /\ nth (Z.to_nat (aacFrequencyIndex 50000)) rates 0 <= 50000.
Proof.
  destruct (aacFrequencyIndex_table 7000) as (_ & _ & Hlow & _).
  destruct (aacFrequencyIndex_table 50000) as (_ & _ & _ & Hhigh).
  split; [apply Hlow; lia | apply Hhigh; lia].
Defined.

(** ** Classifier: the whole table *)

(** The two nested switches as chains of tests; only the family and the
    profile are kept. *)
Lemma detectAudioCodec_tests (info : MP4AInfo) :
  fst (detectAudioCodec (Some info)) =
    if OTI info =? 0x6B then (audioCodecMP3, 0)
    else if OTI info =? 0x69 then (audioCodecMP3, 0)
    else if OTI info =? 0x66 then (audioCodecAAC, 0)
    else if OTI info =? 0x67 then (audioCodecAAC, 1)
    else if OTI info =? 0x68 then (audioCodecAAC, 2)
    else if OTI info =? 0x40 then
      if AudOTI info =? 1 then (audioCodecAAC, 0)
      else if AudOTI info =? 2 then (audioCodecAAC, 1)
      else if AudOTI info =? 3 then (audioCodecAAC, 2)
      else if AudOTI info =? 4 then (audioCodecAAC, 3)
      else if AudOTI info =? 5 then (audioCodecHEAAC, 1)
      else if AudOTI info =? 29 then (audioCodecHEAAC, 1)
      else (audioCodecAAC, 1)
    else (audioCodecAAC, 1).
Proof.
  destruct info as [oti aot cc]. unfold detectAudioCodec. cbn [OTI AudOTI].
  destruct oti as [| q | q]; try reflexivity.
  repeat (destruct q as [q | q |]; try reflexivity).
  cbn [Z.eqb Pos.eqb fst].
  destruct aot as [| q | q]; try reflexivity.
  repeat (destruct q as [q | q |]; try reflexivity).
Qed.

(** X2.  Whatever the description, the classifier returns a profile that
    fits the two-bit ADTS field and never the unknown family; the family is
    MP3 exactly for OTI 0x6B and 0x69, and unsupported exactly for OTI 0x40
    with AOT 5 or 29; a track without description is AAC with profile 1. *)
Theorem detectAudioCodec_total (mp4a : option MP4AInfo) :
  0 <= profileOf (detectAudioCodec mp4a) <= 3
  /\ codecTypeOf (detectAudioCodec mp4a) <> audioCodecUnknown
  /\ (codecTypeOf (detectAudioCodec mp4a) = audioCodecMP3
      <-> exists info, mp4a = Some info /\ (OTI info = 0x6B \/ OTI info = 0x69))
  /\ (codecTypeOf (detectAudioCodec mp4a) = audioCodecHEAAC
      <-> exists info, mp4a = Some info /\ OTI info = 0x40
                       /\ (AudOTI info = 5 \/ AudOTI info = 29))
  /\ fst (detectAudioCodec None) = (audioCodecAAC, 1).
Proof.
  unfold profileOf, codecTypeOf.
  destruct mp4a as [info |].
  - rewrite (detectAudioCodec_tests info).
    repeat match goal with
           | |- context [?x =? ?y] => destruct (Z.eqb_spec x y)
           end.
    all: cbn [fst snd].
    all: split; [lia |].
    all: split; [discriminate |].
    all: split; [| split; [| reflexivity]].
    all: split.
    all: match goal with
         | |- _ = _ -> _ =>
           intros H; first [discriminate H | exists info; split; [reflexivity | lia]]
         | |- (exists _, _) -> _ =>
           intros (i & Hi & H); injection Hi as <-; first [reflexivity | exfalso; lia]
         end.
  - cbn. split; [lia |]. split; [discriminate |].
    split; [split; [discriminate | intros (i & H & _); discriminate] |].
    split; [split; [discriminate | intros (i & H & _); discriminate] | reflexivity].
Qed.

(** ** ADTS header: bytes and oversize frames *)

Lemma lor_byte a b : 0 <= a < 256 -> 0 <= b < 256 -> 0 <= Z.lor a b < 256.
Proof.
  intros Ha Hb. split; [apply Z.lor_nonneg; lia |].
  destruct (Z.eq_dec (Z.lor a b) 0) as [E | E]; [lia |].
  change 256 with (2 ^ 8). apply Z.log2_lt_pow2; [pose proof (Z.lor_nonneg a b); lia |].
  rewrite Z.log2_lor by lia.
  destruct (Z.eq_dec a 0) as [-> | Ha0]; destruct (Z.eq_dec b 0) as [-> | Hb0].
  - cbn. lia.
  - rewrite Z.max_r by (cbn; apply Z.log2_nonneg). apply Z.log2_lt_pow2; lia.
  - rewrite Z.max_l by (cbn; apply Z.log2_nonneg). apply Z.log2_lt_pow2; lia.
  - apply Z.max_lub_lt; apply Z.log2_lt_pow2; lia.
Qed.

Lemma to_uint8_range x : 0 <= to_uint8 x < 256.
Proof. unfold to_uint8. apply Z.mod_pos_bound. lia. Qed.

Lemma to_uint16_range x : 0 <= to_uint16 x < 65536.
Proof. unfold to_uint16. apply Z.mod_pos_bound. lia. Qed.

(** The three length fields put back together give the length modulo 2^13. *)
Lemma bits_reassemble_mod L :
  Z.lor (Z.lor (Z.shiftl (bits 12 11 L) 11) (Z.shiftl (bits 10 3 L) 3)) (bits 2 0 L)
  = L mod 2 ^ 13.
Proof.
  apply Z.bits_inj'. intros n Hn. unfold bits.
  rewrite !Z.lor_spec, !Z.shiftl_spec, !Z.land_spec by lia.
  change (12 - 11 + 1) with 2. change (10 - 3 + 1) with 8. change (2 - 0 + 1) with 3.
  rewrite !testbit_mask by lia.
  destruct (Z.lt_ge_cases n 13) as [H13 | H13].
  - rewrite Z.mod_pow2_bits_low by lia.
    destruct (Z.lt_ge_cases n 3) as [H3 | H3].
    + rewrite (Z.testbit_neg_r _ (n - 11)), (Z.testbit_neg_r _ (n - 3)) by lia.
      rewrite Z.shiftr_spec by lia. rewrite Z.add_0_r. simpl.
      replace (0 <=? n) with true by (symmetry; apply Z.leb_le; lia).
      replace (n <? 3) with true by (symmetry; apply Z.ltb_lt; lia).
      simpl. apply andb_true_r.
    + replace (n <? 3) with false by (symmetry; apply Z.ltb_ge; lia).
      rewrite andb_false_r, andb_false_r, orb_false_r.
      destruct (Z.lt_ge_cases n 11) as [H11 | H11].
      * rewrite (Z.testbit_neg_r _ (n - 11)) by lia. simpl.
        rewrite Z.shiftr_spec by lia.
        replace (n - 3 + 3) with n by lia.
        replace (0 <=? n - 3) with true by (symmetry; apply Z.leb_le; lia).
        replace (n - 3 <? 8) with true by (symmetry; apply Z.ltb_lt; lia).
        apply andb_true_r.
      * replace (n - 3 <? 8) with false by (symmetry; apply Z.ltb_ge; lia).
        rewrite andb_false_r, andb_false_r, orb_false_r.
        rewrite Z.shiftr_spec by lia. replace (n - 11 + 11) with n by lia.
        replace (0 <=? n - 11) with true by (symmetry; apply Z.leb_le; lia).
        replace (n - 11 <? 2) with true by (symmetry; apply Z.ltb_lt; lia).
        apply andb_true_r.
  - rewrite Z.mod_pow2_bits_high by lia.
    replace (n <? 3) with false by (symmetry; apply Z.ltb_ge; lia).
    replace (n - 3 <? 8) with false by (symmetry; apply Z.ltb_ge; lia).
    replace (n - 11 <? 2) with false by (symmetry; apply Z.ltb_ge; lia).
    rewrite !andb_false_r. reflexivity.
Qed.

(** X3.  For operands that are bytes, every entry of the header is a byte,
    and the length field read back is the 16-bit sum [frameLen + 7] reduced
    modulo 2^13: a frame of more than 8184 bytes gets a header whose length
    field is too small. *)
Theorem makeADTSHeader_bytes_and_wrap (p f c frameLen : Z) :
  0 <= p < 256 -> 0 <= f < 256 -> 0 <= c < 256 ->
  Forall (fun b => 0 <= b < 256) (makeADTSHeader p f c frameLen)
  /\ adtsFrameLength (makeADTSHeader p f c frameLen) = to_uint16 (frameLen + 7) mod 2 ^ 13
  /\ adtsFrameLength (makeADTSHeader p f c 8185) = 0.
Proof.
  intros Hp Hf Hc.
  assert (Hc3 : 0 <= Z.land c 3 < 4) by (apply (land_mask_range c 2); lia).
  assert (Hsh : 0 <= Z.shiftr c 2 < 256).
  { rewrite Z.shiftr_div_pow2 by lia. split; [apply Z.div_pos; lia |].
    apply Z.div_lt_upper_bound; lia. }
  assert (Hgen : forall fl,
            adtsFrameLength (makeADTSHeader p f c fl) = to_uint16 (fl + 7) mod 2 ^ 13).
  { intros fl. pose proof (to_uint16_range (fl + 7)) as HL.
    unfold makeADTSHeader, adtsFrameLength. cbn [nth].
    set (L := to_uint16 (fl + 7)) in *.
    assert (H1211 : 0 <= bits 12 11 L < 4) by (apply (bits_range 12 11); lia).
    assert (H20 : 0 <= bits 2 0 L < 8) by (apply (bits_range 2 0); lia).
    assert (E20 : Z.land L 7 = bits 2 0 L).
    { unfold bits. rewrite Z.shiftr_0_r. reflexivity. }
    assert (E103 : to_uint8 (Z.shiftr L 3) = bits 10 3 L).
    { unfold bits, to_uint8. change (10 - 3 + 1) with 8. rewrite land_mask_mod by lia.
      reflexivity. }
    rewrite E103, E20.
    change (Z.land (Z.shiftr L 11) 3) with (bits 12 11 L).
    rewrite (to_uint8_small (Z.shiftl (Z.land c 3) 6)) by (rewrite Z.shiftl_mul_pow2; lia).
    rewrite (to_uint8_small (bits 12 11 L)) by lia.
    rewrite (to_uint8_small (bits 2 0 L)) by lia.
    rewrite (to_uint8_small (Z.shiftl (bits 2 0 L) 5)) by (rewrite Z.shiftl_mul_pow2; lia).
    rewrite byte3_low_bits by lia. rewrite byte5_high_bits by lia.
    apply bits_reassemble_mod. }
  split; [| split; [apply Hgen | rewrite Hgen; reflexivity]].
  unfold makeADTSHeader.
  repeat (apply List.Forall_cons || apply List.Forall_nil);
    try lia; try apply to_uint8_range;
    repeat (apply lor_byte; try apply to_uint8_range; try lia).
Qed.

Lemma makeADTSHeader_bytes_and_wrap_witness :
  adtsFrameLength (makeADTSHeader 1 4 2 9000) = 9007 mod 2 ^ 13.
Proof.
  destruct (makeADTSHeader_bytes_and_wrap 1 4 2 9000) as (_ & H & _); [lia | lia | lia |].
  exact H.
Defined.

(** ** Paths *)

Lemma append_length (a b : string) :
  String.length (a +:+ b) = (String.length a + String.length b)%nat.
Proof.
  induction a as [| x a IH]; [reflexivity |].
  rewrite append_cons. cbn [String.length]. rewrite IH. reflexivity.
Qed.

Lemma substring_prefix (a b : string) : String.substring 0 (String.length a) (a +:+ b) = a.
Proof.
  induction a as [| x a IH].
  - cbn. destruct b; reflexivity.
  - rewrite append_cons. cbn [String.length String.substring]. rewrite IH. reflexivity.
Qed.

Lemma HasSuffix_append (a b : string) : HasSuffix (a +:+ b) b = true.
Proof.
  induction a as [| x a IH].
  - change ("" +:+ b) with b. destruct b as [| y b]; [reflexivity |].
    cbn [HasSuffix]. rewrite String.eqb_refl. reflexivity.
  - rewrite append_cons. cbn [HasSuffix]. rewrite IH. apply orb_true_r.
Qed.

Lemma TrimSuffix_append (a b : string) : TrimSuffix (a +:+ b) b = a.
Proof.
  unfold TrimSuffix. rewrite HasSuffix_append, append_length.
  replace (String.length a + String.length b - String.length b)%nat with (String.length a) by lia.
  apply substring_prefix.
Qed.

Lemma append_cancel_l (a b c : string) : a +:+ b = a +:+ c -> b = c.
Proof.
  induction a as [| x a IH]; intros H; [exact H |].
  rewrite !append_cons in H. injection H as H. apply IH. exact H.
Qed.

(** What the backward scan has found is a suffix that starts with a dot. *)
Lemma scanExt_found os path e :
  scanExt os path = ScanFound e ->
  exists stem rest, path = stem +:+ e /\ e = String "." rest.
Proof.
  revert e. induction path as [| c path IH]; intros e H; cbn [scanExt] in H; [discriminate |].
  destruct (scanExt os path) as [e' | |] eqn:Hs.
  - injection H as <-. destruct (IH e' eq_refl) as (stem & rest & -> & ->).
    exists (String c stem), rest. split; reflexivity.
  - discriminate.
  - destruct (IsPathSeparator os c); [discriminate |].
    destruct (Ascii.eqb c ".") eqn:Hc; [| discriminate].
    injection H as <-. apply Ascii.eqb_eq in Hc. subst c.
    exists EmptyString, path. split; reflexivity.
Qed.

(** [filepath.Ext] cuts the path in a stem and an extension that is empty
    or starts with a dot, and [strings.TrimSuffix] gives the stem back. *)
Lemma Ext_splits os path :
  exists stem,
    path = stem +:+ Ext os path
    /\ TrimSuffix path (Ext os path) = stem
    /\ (Ext os path = "" \/ exists rest, Ext os path = String "." rest).
Proof.
  unfold Ext. destruct (scanExt os path) as [e | |] eqn:Hs.
  - destruct (scanExt_found os path e Hs) as (stem & rest & Hp & He).
    exists stem. split; [exact Hp |]. split; [| right; exists rest; exact He].
    rewrite Hp at 1. apply TrimSuffix_append.
  - exists path. rewrite append_empty_r.
    split; [reflexivity |]. split; [| left; reflexivity].
    rewrite <- (append_empty_r path) at 1. apply TrimSuffix_append.
  - exists path. rewrite append_empty_r.
    split; [reflexivity |]. split; [| left; reflexivity].
    rewrite <- (append_empty_r path) at 1. apply TrimSuffix_append.
Qed.

(** An extension found in a suffix is found in every path with that suffix. *)
Lemma scanExt_append os (stem tail e : string) :
  scanExt os tail = ScanFound e -> scanExt os (stem +:+ tail) = ScanFound e.
Proof.
  intros H. induction stem as [| c stem IH]; [exact H |].
  rewrite append_cons. cbn [scanExt]. rewrite IH. reflexivity.
Qed.

(** The output path of an extraction: it differs from the input path, and
    its extension is the dot followed by the format tag. *)
Lemma outputPath_facts os inputPath codecType :
  outputPathOf os inputPath codecType <> inputPath
  /\ Ext os (outputPathOf os inputPath codecType)
     = String "." (snd (outputNaming codecType))
  /\ (snd (outputNaming codecType) = "aac" \/ snd (outputNaming codecType) = "mp3")
  /\ (snd (outputNaming codecType) = "mp3" <-> codecType = audioCodecMP3).
Proof.
  destruct (Ext_splits os inputPath) as (stem & Hp & Ht & He).
  unfold outputPathOf. rewrite Ht.
  split; [| split; [| split]].
  - intros Heq. rewrite Hp in Heq. apply append_cancel_l in Heq.
    destruct He as [He | (rest & He)]; rewrite He in Heq; destruct codecType; discriminate.
  - unfold Ext.
    destruct codecType; cbn [outputNaming fst snd];
      (erewrite scanExt_append; [reflexivity | destruct os; reflexivity]).
  - destruct codecType; cbn; auto.
  - destruct codecType; cbn; split; intros H; try reflexivity; discriminate.
Qed.

(** ** Every way [videoToAudio] can end *)

Lemma extractSamples_error codecType aacProfile freqIdx channelCount inputFile sis :
  forall idx out hasData e written,
  extractSamples codecType aacProfile freqIdx channelCount inputFile idx sis out hasData
    = inl (e, written) ->
  exists si i, In si sis /\ size si <> 0
    /\ (e = ErrSeek i (offset si) \/ e = ErrRead i (offset si) (size si)).
Proof.
  induction sis as [| si sis IH]; intros idx out hasData e written H;
    cbn [extractSamples] in H; [discriminate |].
  destruct (size si =? 0) eqn:Hz.
  - destruct (IH _ _ _ _ _ H) as (si' & i & Hin & Hs & He).
    exists si', i. split; [right; exact Hin | split; assumption].
  - apply Z.eqb_neq in Hz. destruct (offset si <? 0).
    + injection H as <- _. exists si, idx.
      split; [left; reflexivity |]. split; [exact Hz | left; reflexivity].
    + destruct (readFull inputFile (offset si) (size si)) as [buf |].
      * destruct (IH _ _ _ _ _ H) as (si' & i & Hin & Hs & He).
        exists si', i. split; [right; exact Hin | split; assumption].
      * injection H as <- _. exists si, idx.
        split; [left; reflexivity |]. split; [exact Hz | right; reflexivity].
Qed.

(** The loop reports data exactly when it met a sample of non-zero size. *)
Lemma extractSamples_hasData codecType aacProfile freqIdx channelCount inputFile sis :
  forall idx out hasData out' hasData',
  extractSamples codecType aacProfile freqIdx channelCount inputFile idx sis out hasData
    = inr (out', hasData') ->
  hasData' = hasData || existsb nonzero sis.
Proof.
  induction sis as [| si sis IH]; intros idx out hasData out' hasData' H;
    cbn [extractSamples existsb] in *.
  - injection H as <- <-. rewrite orb_false_r. reflexivity.
  - assert (Hnz : nonzero si = negb (size si =? 0)) by reflexivity. rewrite Hnz.
    destruct (size si =? 0); cbn [negb orb].
    + apply (IH _ _ _ _ _ H).
    + destruct (offset si <? 0); [discriminate |].
      destruct (readFull inputFile (offset si) (size si)); [| discriminate].
      rewrite (IH _ _ _ _ _ H). rewrite orb_true_r. reflexivity.
Qed.

Lemma videoToAudio_cases os Probe Create Stat Remove fs inputPath :
  (fs !! inputPath = None
   /\ videoToAudio os Probe Create Stat Remove fs inputPath = (fs, inl ErrOpen))
  \/ (exists inputFile,
        fs !! inputPath = Some inputFile /\ Probe inputFile = None
        /\ videoToAudio os Probe Create Stat Remove fs inputPath = (fs, inl ErrProbe))
  \/ (exists inputFile info,
        fs !! inputPath = Some inputFile /\ Probe inputFile = Some info
        /\ findAudioTrack (Tracks info) = None
        /\ videoToAudio os Probe Create Stat Remove fs inputPath
           = (fs, inl (ErrNoAudioTrack (trackInfoFrom 0 (Tracks info)))))
  \/ (exists inputFile info t,
        fs !! inputPath = Some inputFile /\ Probe inputFile = Some info
        /\ findAudioTrack (Tracks info) = Some t
        /\ let codecType := codecTypeOf (detectAudioCodec (MP4A t)) in
           let outputPath := outputPathOf os inputPath codecType in
           let loop :=
             extractSamples codecType (profileOf (detectAudioCodec (MP4A t)))
               (aacFrequencyIndex (Timescale t)) (channelCountOf (MP4A t)) inputFile
               0 (buildSampleOffsets t) [] false in
           (codecType = audioCodecHEAAC
            /\ videoToAudio os Probe Create Stat Remove fs inputPath
               = (fs, inl (ErrUnsupportedCodec (snd (detectAudioCodec (MP4A t))))))
           \/ (codecType <> audioCodecHEAAC
               /\ ((Create outputPath = false
                    /\ videoToAudio os Probe Create Stat Remove fs inputPath
                       = (fs, inl ErrCreate))
                   \/ (Create outputPath = true /\ buildSampleOffsets t = []
                       /\ videoToAudio os Probe Create Stat Remove fs inputPath
                          = (removeFile Remove outputPath (<[outputPath := []]> fs),
                             inl ErrSampleTable))
                   \/ (exists e written, Create outputPath = true
                        /\ buildSampleOffsets t <> [] /\ loop = inl (e, written)
                        /\ videoToAudio os Probe Create Stat Remove fs inputPath
                           = (removeFile Remove outputPath (<[outputPath := written]> fs),
                              inl e))
                   \/ (exists out, Create outputPath = true
                        /\ buildSampleOffsets t <> [] /\ loop = inr (out, false)
                        /\ videoToAudio os Probe Create Stat Remove fs inputPath
                           = (removeFile Remove outputPath (<[outputPath := out]> fs),
                              inl ErrEmptyOutput))
                   \/ (exists out, Create outputPath = true
                        /\ buildSampleOffsets t <> [] /\ loop = inr (out, true)
                        /\ Stat outputPath = false
                        /\ videoToAudio os Probe Create Stat Remove fs inputPath
                           = (<[outputPath := out]> fs, inl ErrStat))
                   \/ (exists out, Create outputPath = true
                        /\ buildSampleOffsets t <> [] /\ loop = inr (out, true)
                        /\ Stat outputPath = true
                        /\ videoToAudio os Probe Create Stat Remove fs inputPath
                           = (<[outputPath := out]> fs,
                              inr (outputPath, snd (outputNaming codecType))))))).
Proof.
  unfold videoToAudio.
  destruct (fs !! inputPath) as [inputFile |] eqn:Hopen; [| left; split; reflexivity].
  right. destruct (Probe inputFile) as [info |] eqn:Hprobe;
    [| left; exists inputFile; repeat split; assumption].
  right. destruct (findAudioTrack (Tracks info)) as [t |] eqn:Htrack;
    [| left; exists inputFile, info; repeat split; assumption].
  right. exists inputFile, info, t.
  split; [reflexivity |]. split; [exact Hprobe |]. split; [exact Htrack |]. cbv zeta.
  unfold codecTypeOf, profileOf, outputPathOf.
  destruct (detectAudioCodec (MP4A t)) as [[codecType aacProfile] codecName]. cbn [fst snd].
  destruct (decide (codecType = audioCodecHEAAC)) as [E | E]; [left; split; [exact E | reflexivity] |].
  right. split; [exact E |].
  destruct (outputNaming codecType) as [outputExt audioFormat]. cbn [fst snd].
  destruct (Create (TrimSuffix inputPath (Ext os inputPath) +:+ outputExt)) eqn:Hcreate;
    cbn [negb]; [right | left; split; reflexivity].
  destruct (buildSampleOffsets t) as [| si0 sis] eqn:Hsis.
  - left. split; [reflexivity |]. split; reflexivity.
  - right.
    destruct (extractSamples codecType aacProfile _ _ inputFile 0 (si0 :: sis) [] false)
      as [[e written] | [out hasData]].
    + left. exists e, written.
      split; [reflexivity |]. split; [discriminate |]. split; [reflexivity |].
      rewrite insert_insert_eq. reflexivity.
    + right. destruct hasData; cbn [negb].
      * right.
        destruct (Stat (TrimSuffix inputPath (Ext os inputPath) +:+ outputExt)) eqn:Hstat;
          cbn [negb]; [right | left]; exists out;
          (split; [reflexivity |]; split; [discriminate |]; split; [reflexivity |];
           split; [reflexivity |]; rewrite insert_insert_eq; reflexivity).
      * left. exists out. split; [reflexivity |]. split; [discriminate |]. split; [reflexivity |].
        rewrite insert_insert_eq. reflexivity.
Qed.

(** X4.  The offset table has one entry per sample as long as the chunk
    table accounts for it: its length is the smaller of the number of samples
    and the number of samples the chunks announce, and its sizes are those of
    the first samples, in order.  A chunk table that announces fewer samples
    truncates the extraction; one that announces more is cut at the sample
    table. *)
Theorem buildSampleOffsets_truncates (t : Track) :
  length (buildSampleOffsets t) = Nat.min (chunkTableSamples (Chunks t)) (length (Samples t))
  /\ map size (buildSampleOffsets t)
     = map Size (take (chunkTableSamples (Chunks t)) (Samples t)).
Proof.
  assert (H : map size (buildSampleOffsets t)
              = map Size (take (chunkTableSamples (Chunks t)) (Samples t))).
  { unfold buildSampleOffsets. rewrite walkChunks_sizes, drop_0. reflexivity. }
  split; [| exact H].
  rewrite <- (length_map size), H, length_map, length_take. reflexivity.
Qed.

Lemma accumulates_closed_form run : forall off,
  accumulates off run ->
  - 2 ^ 63 <= off ->
  Forall (fun si => 0 <= size si) run ->
  off + sumZ (map size run) < 2 ^ 63 ->
  forall before si after,
    run = before ++ si :: after -> offset si = off + sumZ (map size before).
Proof.
  induction run as [| s0 run IH]; intros off Hacc Hoff Hpos Hfit before si after Hrun.
  - destruct before; discriminate.
  - cbn [accumulates] in Hacc. destruct Hacc as [H0 Hrest].
    inversion Hpos as [| ? ? Hs0 Hpos']; subst.
    cbn [map sumZ fold_right] in Hfit. fold (sumZ (map size run)) in Hfit.
    assert (Hsum : 0 <= sumZ (map size run)).
    { clear -Hpos'. induction Hpos' as [| x l Hx _ IHl]; cbn; [lia |].
      fold (sumZ (map size l)). lia. }
    destruct before as [| b before]; cbn [app] in Hrun; injection Hrun as -> ->.
    + cbn. lia.
    + rewrite to_int64_small in Hrest by lia.
      rewrite (IH _ Hrest ltac:(lia) Hpos' ltac:(lia) before si after eq_refl).
      cbn [map sumZ fold_right]. fold (sumZ (map size before)). lia.
Qed.

(** X5.  The table is one run per chunk, and inside a run the samples are
    laid end to end: when nothing wraps, a sample starts at its chunk's
    offset plus the sizes of the samples of that chunk before it. *)
Theorem buildSampleOffsets_contiguous (t : Track) :
  exists runs,
    buildSampleOffsets t = concat runs
    /\ Forall2 (fun c run =>
                  0 <= DataOffset c ->
                  Forall (fun si => 0 <= size si) run ->
                  DataOffset c + sumZ (map size run) < 2 ^ 63 ->
                  forall before si after,
                    run = before ++ si :: after ->
                    offset si = DataOffset c + sumZ (map size before))
         (Chunks t) runs.
Proof.
  destruct (walkChunks_runs (Samples t) (Chunks t) 0) as (runs & E & F).
  exists runs. split; [exact E |].
  eapply Forall2_impl; [exact F |].
  intros c run [Hacc _] H0 Hpos Hfit before si after Hrun.
  assert (Hsum : 0 <= sumZ (map size run)).
  { clear -Hpos. induction Hpos as [| x l Hx _ IHl]; cbn; [lia |].
    fold (sumZ (map size l)). lia. }
  rewrite (to_int64_small (DataOffset c)) in Hacc by lia.
  apply (accumulates_closed_form run (DataOffset c) Hacc ltac:(lia) Hpos Hfit before si after Hrun).
Qed.

Lemma readFull_short inputFile si :
  0 <= offset si -> 0 < size si -> Z.of_nat (length inputFile) < offset si + size si ->
  readFull inputFile (offset si) (size si) = None.
Proof.
  intros H0 H1 H2. unfold readFull.
  destruct (decide _) as [E | _]; [| reflexivity].
  exfalso. rewrite length_take, length_drop in E. lia.
Qed.

(** The first sample of non-zero size that cannot be read ends the loop
    with the error of that sample; its index counts the samples of size zero
    before it. *)
Lemma extractSamples_first_unreadable
    codecType aacProfile freqIdx channelCount inputFile before si after idx out hasData :
  Forall (fun s => size s <> 0 -> readable inputFile s) before ->
  0 < size si ->
  (offset si < 0 \/ Z.of_nat (length inputFile) < offset si + size si) ->
  extractSamples codecType aacProfile freqIdx channelCount inputFile idx
    (before ++ si :: after) out hasData
  = inl (if offset si <? 0 then ErrSeek (idx + length before) (offset si)
         else ErrRead (idx + length before) (offset si) (size si),
         out ++ concat (map (framedUnit codecType aacProfile freqIdx channelCount inputFile)
                          (List.filter nonzero before))).
Proof.
  intros Hb Hs Hbad. rewrite extractSamples_app, extractSamples_ok by exact Hb.
  cbn [extractSamples].
  replace (size si =? 0) with false by (symmetry; apply Z.eqb_neq; lia).
  destruct (offset si <? 0) eqn:Hneg; [reflexivity |].
  apply Z.ltb_ge in Hneg. rewrite readFull_short by lia. reflexivity.
Qed.

(** X6.  If the selected track has a located sample of non-zero size that
    starts before the file or runs past its end, and every sample of non-zero
    size before it can be read, then, when the machine lets the output file
    be created, extraction fails with the seek or read error of that sample;
    the output file is gone when the machine lets it be removed, and
    otherwise stays with the units written before that sample.  When the
    machine does not let the output file be created, extraction fails with
    the creation error before any sample is read and writes nothing. *)
Theorem videoToAudio_unreadable_sample
    (os : GOOS) (Probe : list Z -> option ProbeInfo) (Create Stat Remove : string -> bool)
    (fs : FileSystem)
    (inputPath : string) (inputFile : list Z) (info : ProbeInfo) (t : Track)
    (before after : list sampleInfo) (si : sampleInfo) :
  fs !! inputPath = Some inputFile ->
  Probe inputFile = Some info ->
  findAudioTrack (Tracks info) = Some t ->
  codecTypeOf (detectAudioCodec (MP4A t)) <> audioCodecHEAAC ->
  buildSampleOffsets t = before ++ si :: after ->
  Forall (fun s => size s <> 0 -> readable inputFile s) before ->
  0 < size si ->
  (offset si < 0 \/ Z.of_nat (length inputFile) < offset si + size si) ->
  let codecType := codecTypeOf (detectAudioCodec (MP4A t)) in
  let outputPath := outputPathOf os inputPath codecType in
  let written :=
    concat (map (framedUnit codecType (profileOf (detectAudioCodec (MP4A t)))
                   (aacFrequencyIndex (Timescale t)) (channelCountOf (MP4A t)) inputFile)
                (List.filter nonzero before)) in
  (Create outputPath = true ->
     snd (videoToAudio os Probe Create Stat Remove fs inputPath)
       = inl (if offset si <? 0 then ErrSeek (length before) (offset si)
              else ErrRead (length before) (offset si) (size si))
     /\ (Remove outputPath = true ->
         fst (videoToAudio os Probe Create Stat Remove fs inputPath) = delete outputPath fs
         /\ fst (videoToAudio os Probe Create Stat Remove fs inputPath) !! outputPath = None)
     /\ (Remove outputPath = false ->
         fst (videoToAudio os Probe Create Stat Remove fs inputPath)
         = <[outputPath := written]> fs))
  /\ (Create outputPath = false ->
      videoToAudio os Probe Create Stat Remove fs inputPath = (fs, inl ErrCreate)).
Proof.
  intros Hopen Hprobe Htrack Hsup Htab Hb Hs Hbad. cbv zeta.
  destruct (videoToAudio_cases os Probe Create Stat Remove fs inputPath)
    as [[H _] | [(f & H1 & H2 & _) | [(f & i & H1 & H2 & H3 & _) | (f & i & t' & H1 & H2 & H3 & H)]]];
    try congruence.
  rewrite Hopen in H1. injection H1 as <-. rewrite Hprobe in H2. injection H2 as <-.
  rewrite Htrack in H3. injection H3 as <-. cbv zeta in H.
  rewrite Htab in H.
  rewrite (extractSamples_first_unreadable _ _ _ _ _ before si after 0 [] false Hb Hs Hbad) in H.
  cbn [Nat.add app] in H.
  destruct H as [[E _] | [_ [[Hc Hr] | [(Hc & E & _) | [(e & wr & Hc & _ & He & Hr)
                | [(o & _ & _ & He & _) | [(o & _ & _ & He & _) | (o & _ & _ & He & _)]]]]]]];
    try contradiction; try discriminate.
  - split; [intros Hyes; congruence | intros _; exact Hr].
  - destruct before; discriminate.
  - split; [intros _ | intros Hno; congruence].
    injection He as <- <-. rewrite Hr, removeFile_insert. cbn [fst snd].
    split; [reflexivity |].
    split; intros ->; [split; [reflexivity | apply lookup_delete_eq] | reflexivity].
Qed.

Example shortTrack_located :
  buildSampleOffsets Demo.shortTrack
    = [ {| offset := 0; size := 2 |} ] ++ {| offset := 2; size := 9 |} :: [].
Proof. vm_compute. reflexivity. Defined.

Lemma videoToAudio_unreadable_sample_witness :
  snd (videoToAudio unix (Demo.probeTo [Demo.shortTrack]) Demo.allowed Demo.allowed
         Demo.allowed Demo.disk "clip.mp4")
    = inl (ErrRead 1 2 9)
  /\ fst (videoToAudio unix (Demo.probeTo [Demo.shortTrack]) Demo.allowed Demo.allowed
            Demo.allowed Demo.disk "clip.mp4")
       !! "clip_temp.aac" = None
  /\ fst (videoToAudio unix (Demo.probeTo [Demo.shortTrack]) Demo.allowed Demo.allowed
            Demo.denied Demo.disk "clip.mp4")
     = <["clip_temp.aac" := makeADTSHeader 1 4 2 2 ++ [10; 11]]> Demo.disk
  /\ videoToAudio unix (Demo.probeTo [Demo.shortTrack]) Demo.denied Demo.allowed
        Demo.allowed Demo.disk "clip.mp4"
     = (Demo.disk, inl ErrCreate).
Proof.
  assert (Hwit : forall Create Remove,
            (Create (outputPathOf unix "clip.mp4"
                       (codecTypeOf (detectAudioCodec (MP4A Demo.shortTrack)))) = true ->
               snd (videoToAudio unix (Demo.probeTo [Demo.shortTrack]) Create Demo.allowed
                      Remove Demo.disk "clip.mp4")
                 = inl (ErrRead 1 2 9)
               /\ (Remove "clip_temp.aac" = true ->
                   fst (videoToAudio unix (Demo.probeTo [Demo.shortTrack]) Create Demo.allowed
                          Remove Demo.disk "clip.mp4")
                   = delete "clip_temp.aac" Demo.disk
                   /\ fst (videoToAudio unix (Demo.probeTo [Demo.shortTrack]) Create
                             Demo.allowed Remove Demo.disk "clip.mp4")
                        !! "clip_temp.aac" = None)
               /\ (Remove "clip_temp.aac" = false ->
                   fst (videoToAudio unix (Demo.probeTo [Demo.shortTrack]) Create Demo.allowed
                          Remove Demo.disk "clip.mp4")
                   = <["clip_temp.aac" := makeADTSHeader 1 4 2 2 ++ [10; 11]]> Demo.disk))
            /\ (Create (outputPathOf unix "clip.mp4"
                          (codecTypeOf (detectAudioCodec (MP4A Demo.shortTrack)))) = false ->
                videoToAudio unix (Demo.probeTo [Demo.shortTrack]) Create Demo.allowed
                  Remove Demo.disk "clip.mp4"
                = (Demo.disk, inl ErrCreate))).
  { intros Create Remove.
    apply (videoToAudio_unreadable_sample unix (Demo.probeTo [Demo.shortTrack])
             Create Demo.allowed Remove Demo.disk
             "clip.mp4" Demo.clip {| Tracks := [Demo.shortTrack] |} Demo.shortTrack
             [ {| offset := 0; size := 2 |} ] [] {| offset := 2; size := 9 |}).
    - reflexivity.
    - reflexivity.
    - reflexivity.
    - discriminate.
    - exact shortTrack_located.
    - apply List.Forall_cons; [intros _; split; cbn; lia | apply List.Forall_nil].
    - cbn. lia.
    - right. cbn. lia. }
  destruct (Hwit Demo.allowed Demo.allowed) as ((H1 & H2 & _) & _); [reflexivity |].
  destruct (Hwit Demo.allowed Demo.denied) as ((_ & _ & H3) & _); [reflexivity |].
  destruct (Hwit Demo.denied Demo.allowed) as (_ & H4).
  split; [exact H1 |]. split; [exact (proj2 (H2 eq_refl)) |].
  split; [exact (H3 eq_refl) | exact (H4 eq_refl)].
Defined.

(** X7.  [videoToAudio] never changes its input file, and no file but the
    one at its output path.  When it fails with the error of [os.Stat], the
    written output is left in place; when it fails with any other error, the
    file system is as before, or the output was created and then is absent
    if the machine lets it be removed, and left with what was written if
    not; when it succeeds, only the returned path has changed, and the
    machine let that path be created and examined. *)
Theorem videoToAudio_file_system
    (os : GOOS) (Probe : list Z -> option ProbeInfo) (Create Stat Remove : string -> bool)
    (fs : FileSystem) (inputPath : string) :
  fst (videoToAudio os Probe Create Stat Remove fs inputPath) !! inputPath = fs !! inputPath
  /\ (snd (videoToAudio os Probe Create Stat Remove fs inputPath) = inl ErrStat ->
        exists codecType out,
          Stat (outputPathOf os inputPath codecType) = false
          /\ Create (outputPathOf os inputPath codecType) = true
          /\ fst (videoToAudio os Probe Create Stat Remove fs inputPath)
             = <[outputPathOf os inputPath codecType := out]> fs)
  /\ (snd (videoToAudio os Probe Create Stat Remove fs inputPath) = inl ErrCreate ->
        fst (videoToAudio os Probe Create Stat Remove fs inputPath) = fs)
  /\ (forall e, snd (videoToAudio os Probe Create Stat Remove fs inputPath) = inl e ->
        e <> ErrStat ->
        fst (videoToAudio os Probe Create Stat Remove fs inputPath) = fs
        \/ exists codecType,
             Create (outputPathOf os inputPath codecType) = true
             /\ ((Remove (outputPathOf os inputPath codecType) = true
                  /\ fst (videoToAudio os Probe Create Stat Remove fs inputPath)
                     = delete (outputPathOf os inputPath codecType) fs)
                 \/ (Remove (outputPathOf os inputPath codecType) = false
                     /\ exists written,
                          fst (videoToAudio os Probe Create Stat Remove fs inputPath)
                          = <[outputPathOf os inputPath codecType := written]> fs)))
  /\ (forall p fmt, snd (videoToAudio os Probe Create Stat Remove fs inputPath) = inr (p, fmt) ->
        p <> inputPath /\ Create p = true /\ Stat p = true
        /\ forall q, q <> p ->
             fst (videoToAudio os Probe Create Stat Remove fs inputPath) !! q = fs !! q).
Proof.
  destruct (videoToAudio_cases os Probe Create Stat Remove fs inputPath)
    as [[_ E] | [(f & _ & _ & E) | [(f & i & _ & _ & _ & E) | (f & i & t & _ & _ & _ & H)]]].
  1-3: rewrite E; cbn [fst snd]; split; [reflexivity |];
       split; [intros Hr; discriminate |]; split; [intros _; reflexivity |];
       split; [intros e _ _; left; reflexivity | intros p fmt Hr; discriminate].
  cbv zeta in H.
  pose proof (outputPath_facts os inputPath (codecTypeOf (detectAudioCodec (MP4A t))))
    as (Hne & _).
  assert (Hremoved : forall written e,
            e <> ErrStat -> e <> ErrCreate ->
            Create (outputPathOf os inputPath (codecTypeOf (detectAudioCodec (MP4A t)))) = true ->
            videoToAudio os Probe Create Stat Remove fs inputPath
            = (removeFile Remove
                 (outputPathOf os inputPath (codecTypeOf (detectAudioCodec (MP4A t))))
                 (<[outputPathOf os inputPath (codecTypeOf (detectAudioCodec (MP4A t)))
                    := written]> fs), inl e) ->
            fst (videoToAudio os Probe Create Stat Remove fs inputPath) !! inputPath
              = fs !! inputPath
            /\ (snd (videoToAudio os Probe Create Stat Remove fs inputPath) = inl ErrStat ->
                  exists codecType out,
                    Stat (outputPathOf os inputPath codecType) = false
                    /\ Create (outputPathOf os inputPath codecType) = true
                    /\ fst (videoToAudio os Probe Create Stat Remove fs inputPath)
                       = <[outputPathOf os inputPath codecType := out]> fs)
            /\ (snd (videoToAudio os Probe Create Stat Remove fs inputPath) = inl ErrCreate ->
                  fst (videoToAudio os Probe Create Stat Remove fs inputPath) = fs)
            /\ (forall e, snd (videoToAudio os Probe Create Stat Remove fs inputPath) = inl e ->
                  e <> ErrStat ->
                  fst (videoToAudio os Probe Create Stat Remove fs inputPath) = fs
                  \/ exists codecType,
                       Create (outputPathOf os inputPath codecType) = true
                       /\ ((Remove (outputPathOf os inputPath codecType) = true
                            /\ fst (videoToAudio os Probe Create Stat Remove fs inputPath)
                               = delete (outputPathOf os inputPath codecType) fs)
                           \/ (Remove (outputPathOf os inputPath codecType) = false
                               /\ exists written,
                                    fst (videoToAudio os Probe Create Stat Remove fs inputPath)
                                    = <[outputPathOf os inputPath codecType := written]> fs)))
            /\ (forall p fmt,
                  snd (videoToAudio os Probe Create Stat Remove fs inputPath) = inr (p, fmt) ->
                  p <> inputPath /\ Create p = true /\ Stat p = true
                  /\ forall q, q <> p ->
                       fst (videoToAudio os Probe Create Stat Remove fs inputPath) !! q
                       = fs !! q)).
  { intros written e Hs Hc Hcr E. rewrite E, removeFile_insert. cbn [fst snd].
    split.
    { destruct (Remove _); [apply lookup_delete_ne | apply lookup_insert_ne]; exact Hne. }
    split; [intros Hr; congruence |]. split; [intros Hr; congruence |].
    split; [| intros p fmt Hr; discriminate].
    intros e' _ _. right. exists (codecTypeOf (detectAudioCodec (MP4A t))).
    split; [exact Hcr |].
    destruct (Remove _); [left; split; reflexivity | right; split; [reflexivity |]].
    exists written. reflexivity. }
  destruct H as [[_ E] | [_ [[Hcr E] | [(Hcr & _ & E) | [(e & written & Hcr & _ & He & E)
                | [(o & Hcr & _ & _ & E) | [(o & Hcr & _ & Hloop & Hst & E)
                | (o & Hcr & _ & _ & Hst & E)]]]]]]].
  - rewrite E. cbn [fst snd].
    split; [reflexivity |]. split; [intros Hr; discriminate |]. split; [intros _; reflexivity |].
    split; [intros e _ _; left; reflexivity | intros p fmt Hr; discriminate].
  - rewrite E. cbn [fst snd].
    split; [reflexivity |]. split; [intros Hr; discriminate |]. split; [intros _; reflexivity |].
    split; [intros e _ _; left; reflexivity | intros p fmt Hr; discriminate].
  - apply (Hremoved [] ErrSampleTable); [discriminate | discriminate | exact Hcr | exact E].
  - destruct (extractSamples_error _ _ _ _ _ _ _ _ _ _ _ He) as (si & k & _ & _ & [Hk | Hk]);
      apply (Hremoved written e); try exact Hcr; try exact E; rewrite Hk; discriminate.
  - apply (Hremoved o ErrEmptyOutput); [discriminate | discriminate | exact Hcr | exact E].
  - rewrite E. cbn [fst snd].
    split; [apply lookup_insert_ne; exact Hne |].
    split; [| split; [intros Hr; discriminate
                     | split; [intros e Hr Hn; congruence | intros p fmt Hr; discriminate]]].
    intros _. exists (codecTypeOf (detectAudioCodec (MP4A t))), o.
    split; [exact Hst |]. split; [exact Hcr | reflexivity].
  - rewrite E. cbn [fst snd].
    split; [apply lookup_insert_ne; exact Hne |].
    split; [intros Hr; discriminate |]. split; [intros Hr; discriminate |].
    split; [intros e Hr; discriminate |].
    intros p fmt Hr. injection Hr as <- <-. split; [exact Hne |].
    split; [exact Hcr |]. split; [exact Hst |].
    intros q Hq. apply lookup_insert_ne. congruence.
Qed.

Lemma In_take {A} (x : A) k (l : list A) : In x (take k l) -> In x l.
Proof.
  intros H. rewrite <- (take_drop k l). apply in_or_app. left. exact H.
Qed.

(** X8.  A successful extraction returns the tag "aac" or "mp3", "mp3"
    exactly for an MP3 track, and a path made of the input's stem and
    "_temp." and the tag: its extension, lower-cased, is a key of the audio
    table of [Run], and stripping the dot from it gives the tag back.  The
    selected track then has a sample of non-zero size. *)
Theorem videoToAudio_success_naming
    (os : GOOS) (Probe : list Z -> option ProbeInfo) (Create Stat Remove : string -> bool)
    (fs : FileSystem)
    (inputPath p fmt : string) :
  snd (videoToAudio os Probe Create Stat Remove fs inputPath) = inr (p, fmt) ->
  (fmt = "aac" \/ fmt = "mp3")
  /\ p = TrimSuffix inputPath (Ext os inputPath) +:+ "_temp." +:+ fmt
  /\ Ext os p = String "." fmt
  /\ mapIndex audioExts (ToLower (Ext os p)) = true
  /\ TrimPrefix (ToLower (Ext os p)) "." = fmt
  /\ exists inputFile info t,
       fs !! inputPath = Some inputFile /\ Probe inputFile = Some info
       /\ findAudioTrack (Tracks info) = Some t
       /\ (fmt = "mp3" <-> codecTypeOf (detectAudioCodec (MP4A t)) = audioCodecMP3)
       /\ Exists (fun s => Size s <> 0) (Samples t).
Proof.
  intros Hr.
  destruct (videoToAudio_cases os Probe Create Stat Remove fs inputPath)
    as [[_ E] | [(f & _ & _ & E) | [(f & i & _ & _ & _ & E) | (f & i & t & H1 & H2 & H3 & H)]]];
    try (rewrite E in Hr; discriminate).
  cbv zeta in H.
  destruct H as [[_ E] | [_ [[_ E] | [(_ & _ & E) | [(e & wr & _ & _ & _ & E)
                | [(o & _ & _ & _ & E) | [(o & _ & _ & _ & _ & E)
                | (o & _ & _ & Hloop & _ & E)]]]]]]];
    try (rewrite E in Hr; discriminate).
  rewrite E in Hr. cbn [snd] in Hr. injection Hr as <- <-.
  pose proof (outputPath_facts os inputPath (codecTypeOf (detectAudioCodec (MP4A t))))
    as (_ & Hext & Hfmt & Hmp3).
  assert (Hlow : ToLower (String "." (snd (outputNaming (codecTypeOf (detectAudioCodec (MP4A t))))))
                 = String "." (snd (outputNaming (codecTypeOf (detectAudioCodec (MP4A t)))))).
  { destruct Hfmt as [-> | ->]; reflexivity. }
  split; [exact Hfmt |]. split.
  { unfold outputPathOf. f_equal.
    destruct (codecTypeOf (detectAudioCodec (MP4A t))); reflexivity. }
  split; [exact Hext |]. rewrite Hext, Hlow.
  split; [destruct Hfmt as [-> | ->]; vm_compute; reflexivity |].
  split; [destruct Hfmt as [-> | ->]; reflexivity |].
  exists f, i, t. split; [exact H1 |]. split; [exact H2 |]. split; [exact H3 |].
  split; [exact Hmp3 |].
  apply extractSamples_hasData in Hloop. cbn [orb] in Hloop. symmetry in Hloop.
  apply existsb_exists in Hloop. destruct Hloop as (si & Hin & Hnz).
  destruct (buildSampleOffsets_prefix t) as (k & Hk).
  assert (Hsz : In (size si) (map Size (take k (Samples t)))).
  { rewrite <- Hk. apply in_map. exact Hin. }
  apply in_map_iff in Hsz. destruct Hsz as (s & Hs & Hins).
  apply Exists_exists. exists s. split; [apply list_elem_of_In; eapply In_take; exact Hins |].
  rewrite Hs. unfold nonzero in Hnz. apply negb_true_iff in Hnz. apply Z.eqb_neq in Hnz. exact Hnz.
Qed.

Lemma videoToAudio_success_naming_witness :
  Ext unix "clip_temp.aac" = ".aac"
  /\ mapIndex audioExts (ToLower (Ext unix "clip_temp.aac")) = true.
Proof.
  destruct (videoToAudio_success_naming unix (Demo.probeTo [Demo.aacTrack]) Demo.allowed Demo.allowed Demo.allowed
      Demo.disk
              "clip.mp4" "clip_temp.aac" "aac") as (_ & _ & H1 & H2 & _).
  - vm_compute. reflexivity.
  - split; [exact H1 | exact H2].
Defined.

(** X10.  [videoToAudio] fails only in ten ways: open, parse, no audio
    track, unsupported codec, creation of the output, empty offset table,
    seek, read, empty output, examination of the output.  With a file that
    opens and parses, it reports a missing audio track exactly when no track
    is mp4a, with one diagnostic line per track, and an unsupported codec
    only when the first mp4a track classifies so; in both cases before any
    output file is created.  It reports the creation error exactly when the
    first mp4a track is supported and the machine refuses its output path. *)
Theorem videoToAudio_failures
    (os : GOOS) (Probe : list Z -> option ProbeInfo) (Create Stat Remove : string -> bool)
    (fs : FileSystem)
    (inputPath : string) (inputFile : list Z) (info : ProbeInfo) :
  (forall e, snd (videoToAudio os Probe Create Stat Remove fs inputPath) = inl e -> extractionError e)
  /\ (fs !! inputPath = Some inputFile -> Probe inputFile = Some info ->
      ((exists lines, snd (videoToAudio os Probe Create Stat Remove fs inputPath) = inl (ErrNoAudioTrack lines))
         <-> Forall (fun t => TCodec t <> CodecMP4A) (Tracks info))
      /\ (forall lines, snd (videoToAudio os Probe Create Stat Remove fs inputPath) = inl (ErrNoAudioTrack lines) ->
            length lines = length (Tracks info)
            /\ fst (videoToAudio os Probe Create Stat Remove fs inputPath) = fs)
      /\ (forall name, snd (videoToAudio os Probe Create Stat Remove fs inputPath) = inl (ErrUnsupportedCodec name) ->
            fst (videoToAudio os Probe Create Stat Remove fs inputPath) = fs
            /\ exists t, findAudioTrack (Tracks info) = Some t
                         /\ codecTypeOf (detectAudioCodec (MP4A t)) = audioCodecHEAAC)
      /\ (snd (videoToAudio os Probe Create Stat Remove fs inputPath) = inl ErrCreate
          <-> exists t, findAudioTrack (Tracks info) = Some t
                        /\ codecTypeOf (detectAudioCodec (MP4A t)) <> audioCodecHEAAC
                        /\ Create (outputPathOf os inputPath
                                     (codecTypeOf (detectAudioCodec (MP4A t)))) = false)).
Proof.
  assert (Hlines : forall ts i, length (trackInfoFrom i ts) = length ts).
  { induction ts as [| x ts IH]; intros i; cbn; [reflexivity | rewrite IH; reflexivity]. }
  assert (Hnone : forall ts, findAudioTrack ts = None -> Forall (fun t => TCodec t <> CodecMP4A) ts).
  { induction ts as [| x ts IH]; cbn; intros H; [constructor |].
    destruct (decide (TCodec x = CodecMP4A)); [discriminate | constructor; auto]. }
  destruct (videoToAudio_cases os Probe Create Stat Remove fs inputPath)
    as [[H0 E] | [(f & H1 & H2 & E) | [(f & i & H1 & H2 & H3 & E) | (f & i & t & H1 & H2 & H3 & H)]]].
  - rewrite E. cbn [fst snd]. split; [intros e [= <-]; exact I |].
    intros Hopen. congruence.
  - rewrite E. cbn [fst snd]. split; [intros e [= <-]; exact I |].
    intros Hopen Hprobe. congruence.
  - rewrite E. cbn [fst snd]. split; [intros e [= <-]; exact I |].
    intros Hopen Hprobe. rewrite Hopen in H1. injection H1 as <-.
    rewrite Hprobe in H2. injection H2 as <-.
    split; [split; [intros _; apply Hnone; exact H3 | intros _; eexists; reflexivity] |].
    split; [intros lines [= <-]; split; [apply Hlines | reflexivity] |].
    split; [intros name Hn; discriminate |].
    split; [intros Hn; discriminate | intros (t & Ht & _); congruence].
  - cbv zeta in H.
    assert (Hx : (exists e, snd (videoToAudio os Probe Create Stat Remove fs inputPath) = inl e
                            /\ extractionError e
                            /\ (forall lines, e <> ErrNoAudioTrack lines)
                            /\ (forall name, e = ErrUnsupportedCodec name ->
                                  fst (videoToAudio os Probe Create Stat Remove fs inputPath) = fs
                                  /\ codecTypeOf (detectAudioCodec (MP4A t)) = audioCodecHEAAC)
                            /\ (e = ErrCreate
                                <-> codecTypeOf (detectAudioCodec (MP4A t)) <> audioCodecHEAAC
                                    /\ Create (outputPathOf os inputPath
                                                 (codecTypeOf (detectAudioCodec (MP4A t))))
                                       = false))
                 \/ (exists r, snd (videoToAudio os Probe Create Stat Remove fs inputPath) = inr r)
                    /\ Create (outputPathOf os inputPath
                                 (codecTypeOf (detectAudioCodec (MP4A t)))) = true).
    { destruct H as [[Hc E] | [Hs [[Hcr E] | [(Hcr & _ & E) | [(e & wr & Hcr & _ & He & E)
                    | [(o & Hcr & _ & _ & E) | [(o & Hcr & _ & _ & _ & E)
                    | (o & Hcr & _ & _ & _ & E)]]]]]]];
        rewrite E; cbn [fst snd].
      - left. eexists. split; [reflexivity |]. split; [exact I |].
        split; [intros; discriminate |].
        split; [intros name _; split; [reflexivity | exact Hc] |].
        split; [intros Hn; discriminate | intros [Hn _]; contradiction].
      - left. eexists. split; [reflexivity |]. split; [exact I |].
        split; [intros; discriminate |]. split; [intros; discriminate |].
        split; [intros _; split; assumption | reflexivity].
      - left. eexists. split; [reflexivity |]. split; [exact I |].
        split; [intros; discriminate |]. split; [intros; discriminate |].
        split; [intros Hn; discriminate | intros [_ Hn]; congruence].
      - left. exists e. split; [reflexivity |].
        destruct (extractSamples_error _ _ _ _ _ _ _ _ _ _ _ He) as (si & k & _ & _ & [-> | ->]);
          (split; [exact I |]; split; [intros; discriminate |]; split; [intros; discriminate |];
           split; [intros Hn; discriminate | intros [_ Hn]; congruence]).
      - left. eexists. split; [reflexivity |]. split; [exact I |].
        split; [intros; discriminate |]. split; [intros; discriminate |].
        split; [intros Hn; discriminate | intros [_ Hn]; congruence].
      - left. eexists. split; [reflexivity |]. split; [exact I |].
        split; [intros; discriminate |]. split; [intros; discriminate |].
        split; [intros Hn; discriminate | intros [_ Hn]; congruence].
      - right. split; [eexists; reflexivity | exact Hcr]. }
    split.
    + intros e He. destruct Hx as [(e' & He' & Hk & _) | [(r & Hr) _]]; congruence.
    + intros Hopen Hprobe. rewrite Hopen in H1. injection H1 as <-.
      rewrite Hprobe in H2. injection H2 as <-.
      split; [| split; [| split]].
      * split.
        -- intros (lines & Hl). destruct Hx as [(e' & He' & _ & Hno & _) | [(r & Hr) _]];
             [exfalso; apply (Hno lines); congruence | congruence].
        -- intros Hall. rewrite (findAudioTrack_none _ Hall) in H3. discriminate.
      * intros lines Hl. destruct Hx as [(e' & He' & _ & Hno & _) | [(r & Hr) _]];
          [exfalso; apply (Hno lines); congruence | congruence].
      * intros name Hn. destruct Hx as [(e' & He' & _ & _ & Hun & _) | [(r & Hr) _]];
          [| congruence].
        destruct (Hun name ltac:(congruence)) as [Hfs Hc].
        split; [exact Hfs | exists t; split; [exact H3 | exact Hc]].
      * split.
        -- intros Hn. destruct Hx as [(e' & He' & _ & _ & _ & Hcr) | [(r & Hr) _]];
             [| congruence].
           exists t. split; [exact H3 |]. apply Hcr. congruence.
        -- intros (t' & Ht' & Hs' & Hc'). rewrite H3 in Ht'. injection Ht' as <-.
           destruct Hx as [(e' & He' & _ & _ & _ & Hcr) | [_ Hyes]]; [| congruence].
           rewrite He'. f_equal. apply Hcr. split; assumption.
Qed.

Lemma videoToAudio_failures_witness :
  (exists lines,
     snd (videoToAudio unix (Demo.probeTo [Demo.videoTrack]) Demo.allowed Demo.allowed Demo.allowed
            Demo.disk "clip.mp4")
     = inl (ErrNoAudioTrack lines))
  /\ snd (videoToAudio unix (Demo.probeTo [Demo.videoTrack; Demo.lcTrack]) Demo.denied
            Demo.allowed Demo.allowed Demo.disk "clip.mp4")
     = inl ErrCreate.
Proof.
  split.
  - destruct (videoToAudio_failures unix (Demo.probeTo [Demo.videoTrack]) Demo.allowed
                Demo.allowed Demo.allowed Demo.disk "clip.mp4"
                Demo.clip {| Tracks := [Demo.videoTrack] |}) as (_ & H).
    destruct H as ((_ & H) & _ & _); [reflexivity | reflexivity |].
    apply H. apply List.Forall_cons; [discriminate | apply List.Forall_nil].
  - destruct (videoToAudio_failures unix (Demo.probeTo [Demo.videoTrack; Demo.lcTrack])
                Demo.denied Demo.allowed Demo.allowed Demo.disk "clip.mp4"
                Demo.clip {| Tracks := [Demo.videoTrack; Demo.lcTrack] |}) as (_ & H).
    destruct H as (_ & _ & _ & H); [reflexivity | reflexivity |].
    apply H. exists Demo.lcTrack.
    split; [reflexivity |]. split; [discriminate | reflexivity].
Defined.

(** ** Track selection: what is selected at all *)

(** X11.  The go-mp4 loop returns a track of the list whose codec is mp4a,
    and returns none exactly when the list has no such track. *)
Theorem findAudioTrack_sound (tracks : list Track) :
  (forall t, findAudioTrack tracks = Some t -> In t tracks /\ TCodec t = CodecMP4A)
  /\ (findAudioTrack tracks = None <-> Forall (fun t => TCodec t <> CodecMP4A) tracks).
Proof.
  induction tracks as [| x tracks [IH1 IH2]]; cbn [findAudioTrack].
  - split; [intros t H; discriminate | split; [constructor | reflexivity]].
  - destruct (decide (TCodec x = CodecMP4A)) as [E | E].
    + split.
      * intros t [= <-]. split; [left; reflexivity | exact E].
      * split; [discriminate | intros H; inversion H; contradiction].
    + split.
      * intros t H. destruct (IH1 t H) as [Hin Ht]. split; [right; exact Hin | exact Ht].
      * rewrite IH2. split; [intros H; constructor; assumption | intros H; inversion H; assumption].
Qed.

Lemma Gomedia_selectLoop_sound tracks : forall cur t,
  Gomedia.selectLoop tracks cur = Some t ->
  (In t tracks /\ Gomedia.isAudio t = true) \/ cur = Some t.
Proof.
  induction tracks as [| x tracks IH]; intros cur t H; cbn [Gomedia.selectLoop] in H.
  - right. exact H.
  - destruct (Gomedia.isAudio x) eqn:Hx.
    + destruct (bool_decide (Gomedia.Cid x = Gomedia.MP4_CODEC_AAC)).
      * injection H as <-. left. split; [left; reflexivity | exact Hx].
      * destruct (IH _ _ H) as [[Hin Ha] | Hc].
        -- left. split; [right; exact Hin | exact Ha].
        -- injection Hc as <-. left. split; [left; reflexivity | exact Hx].
    + destruct (IH _ _ H) as [[Hin Ha] | Hc]; [left; split; [right; exact Hin | exact Ha] | right; exact Hc].
Qed.

Lemma Gomedia_selectLoop_some tracks : forall cur,
  Exists (fun t => Gomedia.isAudio t = true) tracks ->
  exists t, Gomedia.selectLoop tracks cur = Some t.
Proof.
  induction tracks as [| x tracks IH]; intros cur H; [inversion H |].
  cbn [Gomedia.selectLoop]. destruct (Gomedia.isAudio x) eqn:Hx.
  - destruct (bool_decide (Gomedia.Cid x = Gomedia.MP4_CODEC_AAC)); [eexists; reflexivity |].
    destruct (decide (Exists (fun t => Gomedia.isAudio t = true) tracks)) as [He | Hn].
    + apply IH. exact He.
    + exists x. apply Gomedia_selectLoop_no_audio.
      apply List.Forall_Exists_neg in Hn. eapply Forall_impl; [exact Hn |].
      intros a Ha. cbn in Ha. destruct (Gomedia.isAudio a); [contradiction | reflexivity].
  - apply IH. inversion H as [? ? Hh | ? ? Ht]; subst; [congruence | exact Ht].
Qed.

(** X12.  The gomedia loop returns an AAC, MP3 or Opus track of the list,
    and returns none exactly when the list has no such track. *)
Theorem Gomedia_selectAudioTrack_sound (tracks : list Gomedia.TrackInfo) :
  (forall t, Gomedia.selectAudioTrack tracks = Some t ->
     In t tracks /\ Gomedia.isAudio t = true)
  /\ (Gomedia.selectAudioTrack tracks = None
      <-> Forall (fun t => Gomedia.isAudio t = false) tracks).
Proof.
  unfold Gomedia.selectAudioTrack. split.
  - intros t H. destruct (Gomedia_selectLoop_sound tracks None t H) as [Hs | Hc];
      [exact Hs | discriminate].
  - split.
    + intros H.
      destruct (decide (Exists (fun t => Gomedia.isAudio t = true) tracks)) as [He | Hn].
      * destruct (Gomedia_selectLoop_some tracks None He) as (t & Ht). congruence.
      * apply List.Forall_Exists_neg in Hn. eapply Forall_impl; [exact Hn |].
        intros a Ha. cbn in Ha. destruct (Gomedia.isAudio a); [contradiction | reflexivity].
    + intros H. apply Gomedia_selectLoop_no_audio. exact H.
Qed.

(** ** The packet loop of the gomedia revision *)

Lemma writePackets_spec audioTrackId packets : forall out hasData,
  GomediaExtract.writePackets audioTrackId packets out hasData
  = (out ++ concat (map GomediaExtract.Data
                      (List.filter (fun pkg => GomediaExtract.PktTrackId pkg =? audioTrackId)
                                   packets)),
     hasData || existsb (fun pkg => GomediaExtract.PktTrackId pkg =? audioTrackId) packets).
Proof.
  induction packets as [| pkg packets IH]; intros out hasData;
    cbn [GomediaExtract.writePackets List.filter existsb].
  - cbn. rewrite app_nil_r, orb_false_r. reflexivity.
  - destruct (GomediaExtract.PktTrackId pkg =? audioTrackId); cbn [negb].
    + rewrite IH. cbn [map concat]. rewrite app_assoc, orb_true_r. reflexivity.
    + rewrite IH. reflexivity.
Qed.

(** X13.  In the gomedia revision, once a track is selected: when the
    machine refuses the output path, extraction fails with the creation error
    and writes nothing; otherwise the output is the data of the packets of that
    track, in packet order, the packets of other tracks being passed over, and
    the extraction succeeds exactly when the track has a packet, even one
    without data, and else fails with the empty-output error and removes the
    output, which stays empty when the machine does not let it be removed.
    The tag is "mp3" for an MP3 track and "aac" for any other, Opus
    included. *)
Theorem Gomedia_videoToAudio_packets
    (os : GOOS) (ReadHead : list Z -> option (list Gomedia.TrackInfo))
    (ReadPackets : list Z -> list GomediaExtract.AVPacket)
    (Create Remove : string -> bool)
    (fs : FileSystem) (inputPath : string) (inputFile : list Z)
    (tracks : list Gomedia.TrackInfo) (audioTrack : Gomedia.TrackInfo) :
  fs !! inputPath = Some inputFile ->
  ReadHead inputFile = Some tracks ->
  Gomedia.selectAudioTrack tracks = Some audioTrack ->
  let mine := fun pkg => GomediaExtract.PktTrackId pkg =? Gomedia.TrackId audioTrack in
  let fmt := if decide (Gomedia.Cid audioTrack = Gomedia.MP4_CODEC_MP3) then "mp3" else "aac" in
  let outputPath := TrimSuffix inputPath (Ext os inputPath) +:+ "_temp." +:+ fmt in
  GomediaExtract.videoToAudio os ReadHead ReadPackets Create Remove fs inputPath
  = if negb (Create outputPath) then (fs, inl ErrCreate)
    else if existsb mine (ReadPackets inputFile)
    then (<[outputPath := concat (map GomediaExtract.Data
                                    (List.filter mine (ReadPackets inputFile)))]> fs,
          inr (outputPath, fmt))
    else if Remove outputPath then (delete outputPath fs, inl ErrEmptyOutput)
    else (<[outputPath := []]> fs, inl ErrEmptyOutput).
Proof.
  intros Hopen Hhead Hsel. cbv zeta. unfold GomediaExtract.videoToAudio.
  rewrite Hopen, Hhead, Hsel, writePackets_spec. cbn [app orb].
  assert (Hname : GomediaExtract.outputNaming (Gomedia.Cid audioTrack)
                  = ("_temp." +:+ (if decide (Gomedia.Cid audioTrack = Gomedia.MP4_CODEC_MP3)
                                   then "mp3" else "aac"),
                     if decide (Gomedia.Cid audioTrack = Gomedia.MP4_CODEC_MP3)
                     then "mp3" else "aac")).
  { destruct (Gomedia.Cid audioTrack); reflexivity. }
  rewrite Hname.
  destruct (Create _); cbn [negb]; [| reflexivity].
  destruct (existsb _ (ReadPackets inputFile)) eqn:Hany; cbn [negb].
  - rewrite insert_insert_eq. reflexivity.
  - rewrite insert_insert_eq, removeFile_insert.
    assert (Hnone : List.filter
                      (fun pkg => GomediaExtract.PktTrackId pkg =? Gomedia.TrackId audioTrack)
                      (ReadPackets inputFile) = []).
    { clear -Hany. induction (ReadPackets inputFile) as [| pkg l IH]; [reflexivity |].
      cbn [existsb List.filter] in *. apply orb_false_iff in Hany. destruct Hany as [-> Hl].
      apply IH. exact Hl. }
    rewrite Hnone. cbn [map concat]. destruct (Remove _); reflexivity.
Qed.

Lemma Gomedia_videoToAudio_packets_witness :
  GomediaExtract.videoToAudio unix (fun _ => Some [Demo.gH264; Demo.gOPUS])
    (fun _ => [ {| GomediaExtract.PktTrackId := 4; GomediaExtract.Data := [7; 7] |};
                {| GomediaExtract.PktTrackId := 2; GomediaExtract.Data := [] |} ])
    Demo.allowed Demo.allowed Demo.disk "clip.mp4"
  = (<["clip_temp.aac" := []]> Demo.disk, inr ("clip_temp.aac", "aac"))
  /\ GomediaExtract.videoToAudio unix (fun _ => Some [Demo.gH264; Demo.gOPUS])
       (fun _ => [ {| GomediaExtract.PktTrackId := 2; GomediaExtract.Data := [7] |} ])
       Demo.denied Demo.allowed Demo.disk "clip.mp4"
     = (Demo.disk, inl ErrCreate)
  /\ GomediaExtract.videoToAudio unix (fun _ => Some [Demo.gH264; Demo.gOPUS])
       (fun _ => [ {| GomediaExtract.PktTrackId := 4; GomediaExtract.Data := [7] |} ])
       Demo.allowed Demo.denied Demo.disk "clip.mp4"
     = (<["clip_temp.aac" := []]> Demo.disk, inl ErrEmptyOutput).
Proof.
  split; [| split].
  - rewrite (Gomedia_videoToAudio_packets unix (fun _ => Some [Demo.gH264; Demo.gOPUS]) _
               Demo.allowed Demo.allowed Demo.disk "clip.mp4" Demo.clip
               [Demo.gH264; Demo.gOPUS] Demo.gOPUS);
      reflexivity.
  - rewrite (Gomedia_videoToAudio_packets unix (fun _ => Some [Demo.gH264; Demo.gOPUS]) _
               Demo.denied Demo.allowed Demo.disk "clip.mp4" Demo.clip
               [Demo.gH264; Demo.gOPUS] Demo.gOPUS);
      reflexivity.
  - rewrite (Gomedia_videoToAudio_packets unix (fun _ => Some [Demo.gH264; Demo.gOPUS]) _
               Demo.allowed Demo.denied Demo.disk "clip.mp4" Demo.clip
               [Demo.gH264; Demo.gOPUS] Demo.gOPUS);
      reflexivity.
Defined.

(** ** Upload: what goes out and what comes back *)

Lemma putsFrom_bodies data perSize urls : forall i,
  map putBody (putsFrom data perSize i urls)
  = map (chunkBytes data perSize) (seq i (length urls)).
Proof.
  induction urls as [| u urls IH]; intros i; cbn [putsFrom map length seq putBody];
    [reflexivity | rewrite IH; reflexivity].
Qed.

Lemma chunks_prefix data perSize k :
  0 <= perSize ->
  (forall j, (j < k)%nat -> Z.of_nat j * perSize <= Z.of_nat (length data)) ->
  concat (map (chunkBytes data perSize) (seq 0 k))
  = take (Z.to_nat (Z.of_nat k * perSize)) data.
Proof.
  intros H0. induction k as [| k IH]; intros Hin.
  - cbn. reflexivity.
  - rewrite seq_S, map_app, concat_app, IH by (intros j Hj; apply Hin; lia).
    cbn [Nat.add map concat]. rewrite app_nil_r. unfold chunkBytes, byteRange.
    pose proof (Hin k ltac:(lia)) as Hk.
    rewrite take_take_drop.
    destruct (Z.le_gt_cases ((Z.of_nat k + 1) * perSize) (Z.of_nat (length data))) as [Hle | Hgt].
    + rewrite Z.min_l by exact Hle. f_equal. lia.
    + rewrite Z.min_r by lia. rewrite !take_ge by lia. reflexivity.
Qed.

Lemma refused_status (r : PutResp) :
  put_StatusCode r <> 200 -> put_StatusCode r <> 201 ->
  negb (put_StatusCode r =? 200) && negb (put_StatusCode r =? 201) = true.
Proof.
  intros H1 H2.
  replace (put_StatusCode r =? 200) with false by (symmetry; apply Z.eqb_neq; exact H1).
  replace (put_StatusCode r =? 201) with false by (symmetry; apply Z.eqb_neq; exact H2).
  reflexivity.
Qed.

(** The loop up to the first refused PUT. *)
Lemma uploadChunks_refused w data perSize before url after bad : forall i s,
  0 <= perSize ->
  Z.of_nat (length data) + perSize < 2 ^ 63 ->
  (forall j, (j <= i + length before)%nat -> Z.of_nat j * perSize <= Z.of_nat (length data)) ->
  (forall evs u chunk, In u before ->
     exists r, putReply w evs u chunk = PutReplied r
               /\ (put_StatusCode r = 200 \/ put_StatusCode r = 201)) ->
  (forall evs chunk, putReply w evs url chunk = PutReplied bad) ->
  put_StatusCode bad <> 200 -> put_StatusCode bad <> 201 ->
  uploadChunks w data perSize i (before ++ url :: after) s =
    ({| asr := set_Etags (Etags (asr s) ++ etagsFrom w data perSize (events s) i before) (asr s);
        files := files s;
        events := events s ++ putsFrom data perSize i (before ++ [url]) |},
     Err (ErrPutStatus (Z.of_nat (i + length before) + 1) (put_StatusCode bad) (put_Body bad))).
Proof.
  induction before as [| u before IH]; intros i s H0 Hfit Hin Hacc Hbad H200 H201;
    cbn [app uploadChunks etagsFrom putsFrom length].
  - assert (Hi : Z.of_nat i * perSize <= Z.of_nat (length data)) by (apply Hin; cbn; lia).
    destruct (chunkOf_exact data perSize i H0 ltac:(lia)) as [_ Hc]. rewrite (Hc Hi).
    rewrite bind_getEvents, Hbad, bind_emit, (refused_status bad H200 H201).
    rewrite app_nil_r, Nat.add_0_r. destruct s as [a fs evs]. destruct a. reflexivity.
  - assert (Hi : Z.of_nat i * perSize <= Z.of_nat (length data)) by (apply Hin; lia).
    destruct (chunkOf_exact data perSize i H0 ltac:(lia)) as [_ Hc]. rewrite (Hc Hi).
    rewrite bind_getEvents.
    destruct (Hacc (events s) u (chunkBytes data perSize i) ltac:(left; reflexivity))
      as (r & Er & Hst).
    rewrite Er, bind_emit, (accepted_status r Hst), bind_setASR.
    rewrite IH; try assumption.
    + cbn [asr files events set_Etags Etags]. rewrite <- !app_assoc.
      replace (S i + length before)%nat with (i + S (length before))%nat by lia. reflexivity.
    + intros j Hj. apply Hin. cbn [length]. lia.
    + intros evs u' chunk Hu'. apply Hacc. right. exact Hu'.
Qed.

(** X15.  When the plan is accepted and the PUT to some URL is refused,
    the PUTs before it having been accepted, [upload] ends with the error of
    that PUT, numbered from 1: it has sent the PUTs up to that one, in order,
    none after it and no commit, and has kept the ETags of the accepted ones. *)
Theorem upload_stops_at_refused_put
    (w : World) (s : Session) (data : list Z) (plan : UploadResp) (body : string)
    (before after : list string) (url : string) (bad : PutResp) :
  files s !! AudioPath (asr s) = Some data ->
  (forall evs form, reqUploadReply w evs form = Decoded plan body) ->
  up_Code plan = 0 ->
  up_UploadURLs plan = before ++ url :: after ->
  0 <= up_PerUploadSize plan ->
  Z.of_nat (length data) + up_PerUploadSize plan < 2 ^ 63 ->
  (forall j, (j <= length before)%nat ->
             Z.of_nat j * up_PerUploadSize plan <= Z.of_nat (length data)) ->
  (forall evs u chunk, In u before ->
     exists r, putReply w evs u chunk = PutReplied r
               /\ (put_StatusCode r = 200 \/ put_StatusCode r = 201)) ->
  (forall evs chunk, putReply w evs url chunk = PutReplied bad) ->
  put_StatusCode bad <> 200 -> put_StatusCode bad <> 201 ->
  snd (upload w s)
    = Err (ErrPutStatus (Z.of_nat (length before) + 1) (put_StatusCode bad) (put_Body bad))
  /\ (exists formValues,
        events (fst (upload w s))
        = events s ++ [EvReadFile (AudioPath (asr s)); EvPostForm API_REQ_UPLOAD formValues]
            ++ putsFrom data (up_PerUploadSize plan) 0 (before ++ [url]))
  /\ length (Etags (asr (fst (upload w s)))) = length before.
Proof.
  intros Hfile Hplan Hcode Hurls H0 Hfit Hin Hacc Hbad H200 H201.
  unfold upload. rewrite bind_getASR, bind_getFiles, bind_emit, Hfile.
  unfold uploadData. rewrite bind_getEvents, bind_emit, Hplan, Hcode. cbn [Z.eqb negb].
  rewrite bind_setASR, bind_setASR, Hurls.
  erewrite bind_err by (apply uploadChunks_refused; eassumption).
  cbn [fst snd asr files events set_Etags set_plan Etags app Nat.add].
  split; [reflexivity |]. split.
  - eexists. rewrite <- !app_assoc. reflexivity.
  - apply etagsFrom_length.
Qed.

Lemma upload_stops_at_refused_put_witness :
  snd (upload (Demo.refusing ["u0"; "u1"] 5) (Demo.session "talk.m4a" Demo.tenBytes))
    = Err (ErrPutStatus 1 500 "no").
Proof.
  destruct (upload_stops_at_refused_put (Demo.refusing ["u0"; "u1"] 5)
              (Demo.session "talk.m4a" Demo.tenBytes) Demo.tenBytes
              {| up_Code := 0; up_ResourceID := "res"; up_UploadID := "upl";
                 up_UploadURLs := ["u0"; "u1"]; up_PerUploadSize := 5;
                 up_DownloadURL := "dl0"; up_InBossKey := "key" |} ""
              [] ["u1"] "u0"
              {| put_StatusCode := 500; put_Header := ∅; put_Body := "no" |}) as (H & _).
  - reflexivity.
  - intros evs form. reflexivity.
  - reflexivity.
  - reflexivity.
  - cbn. lia.
  - cbn. lia.
  - cbn. intros j Hj. lia.
  - intros evs u chunk [].
  - intros evs chunk. reflexivity.
  - cbn. lia.
  - cbn. lia.
  - exact H.
Defined.

(** X9.  The fallback of the ETag lookup reads the same header: both
    spellings have the canonical form [Etag], so the ETag kept for a chunk is
    the first value under [Etag], and it is empty when there is none, also
    when the map holds a value under another spelling. *)
Theorem etagOf_fallback_reads_same_key (h : Header) :
  Header_Get h "ETag" = Header_Get h "Etag"
  /\ etagOf h = Header_Get h "Etag"
  /\ etagOf h = match h !! "Etag" with Some (v :: _) => v | _ => "" end
  /\ forall v, etagOf (<["ETag" := [v]]> (delete "Etag" h)) = "".
Proof.
  assert (Hsame : Header_Get h "ETag" = Header_Get h "Etag") by reflexivity.
  assert (Hget : etagOf h = Header_Get h "Etag").
  { unfold etagOf. cbv zeta. rewrite Hsame.
    destruct (String.eqb (Header_Get h "Etag") "") eqn:E; [| reflexivity].
    apply String.eqb_eq in E. reflexivity. }
  split; [exact Hsame |]. split; [exact Hget |]. split; [rewrite Hget; reflexivity |].
  intros v. unfold etagOf, Header_Get. cbv zeta.
  change (CanonicalMIMEHeaderKey "Etag") with "Etag".
  change (CanonicalMIMEHeaderKey "ETag") with "Etag".
  rewrite lookup_insert_ne by discriminate. rewrite lookup_delete_eq. reflexivity.
Qed.

(** ** Upload: failures before the first PUT, and the outcome *)

(** X16.  [upload] reads the file first and asks for the plan with a form
    that names the format, [mp3] when the record has none, and the size in
    decimal.  When the file cannot be read, or the plan request gets no
    reply, an undecodable reply or a non-zero code, [upload] fails at that
    point: nothing else is sent and the record is as it was. *)
Theorem upload_fails_before_any_put (w : World) (s : Session) :
  let path := AudioPath (asr s) in
  (files s !! path = None ->
     upload w s
     = ({| asr := asr s; files := files s; events := events s ++ [EvReadFile path] |},
        Err ErrReadFile))
  /\ (forall data, files s !! path = Some data ->
      let form := planForm (AudioFormat (asr s)) (length data) in
      let reply := reqUploadReply w (events s ++ [EvReadFile path]) form in
      let asked :=
        {| asr := asr s; files := files s;
           events := events s ++ [EvReadFile path; EvPostForm API_REQ_UPLOAD form] |} in
      (forall what, reply = NoReply what -> upload w s = (asked, Err (ErrTransport what)))
      /\ (forall body, reply = BadBody body -> upload w s = (asked, Err (ErrDecode body)))
      /\ (forall plan body, reply = Decoded plan body -> up_Code plan <> 0 ->
            upload w s = (asked, Err (ErrReqUploadCode (up_Code plan))))).
Proof.
  cbv zeta. split.
  - intros Hfile. unfold upload. rewrite bind_getASR, bind_getFiles, bind_emit, Hfile.
    reflexivity.
  - intros data Hfile.
    assert (Hup : upload w s
                  = uploadData w (asr s) data
                      {| asr := asr s; files := files s;
                         events := events s ++ [EvReadFile (AudioPath (asr s))] |}).
    { unfold upload. rewrite bind_getASR, bind_getFiles, bind_emit, Hfile. reflexivity. }
    rewrite Hup. unfold uploadData. cbv zeta. rewrite bind_getEvents, bind_emit.
    cbn [asr files events]. rewrite <- app_assoc. cbn [app].
    fold (planForm (AudioFormat (asr s)) (length data)).
    split; [| split].
    + intros what E. rewrite E. reflexivity.
    + intros body E. rewrite E. reflexivity.
    + intros plan body E Hcode. rewrite E.
      replace (up_Code plan =? 0) with false by (symmetry; apply Z.eqb_neq; exact Hcode).
      reflexivity.
Qed.

(** X17.  When the plan is accepted, every chunk start lies inside the file
    and every PUT is accepted, the outcome of [upload] is that of the commit:
    success on code 0, the commit error otherwise.  The record then holds the
    identifiers of the plan and one ETag per URL, whatever ETags it held
    before; its download URL is the one of the commit when the commit
    succeeded with a non-empty URL, and the one of the plan otherwise.  Path,
    format, task id and cookie are as they were. *)
Theorem upload_outcome
    (w : World) (s : Session) (data : list Z) (plan : UploadResp) (body : string)
    (c : CommitResp) (cbody : string) :
  files s !! AudioPath (asr s) = Some data ->
  (forall evs form, reqUploadReply w evs form = Decoded plan body) ->
  up_Code plan = 0 ->
  0 <= up_PerUploadSize plan ->
  Z.of_nat (length data) + up_PerUploadSize plan < 2 ^ 63 ->
  (forall j, (j < length (up_UploadURLs plan))%nat ->
             Z.of_nat j * up_PerUploadSize plan <= Z.of_nat (length data)) ->
  putsAccepted w ->
  (forall evs form, commitReply w evs form = Decoded c cbody) ->
  exists etags,
    length etags = length (up_UploadURLs plan)
    /\ snd (upload w s)
       = (if cm_Code c =? 0 then Ok tt else Err (ErrCommitCode (cm_Code c) cbody))
    /\ asr (fst (upload w s))
       = {| AudioPath := AudioPath (asr s); AudioFormat := AudioFormat (asr s);
            ResourceID := up_ResourceID plan;
            DownloadURL :=
              if (cm_Code c =? 0) && negb (String.eqb (cm_DownloadURL c) "")
              then cm_DownloadURL c else up_DownloadURL plan;
            TaskID := TaskID (asr s); Cookie := Cookie (asr s);
            UploadID := up_UploadID plan; InBossKey := up_InBossKey plan;
            Etags := etags |}
    /\ files (fst (upload w s)) = files s.
Proof.
  intros Hfile Hplan Hcode H0 Hfit Hin Hacc Hcommit.
  unfold upload. rewrite bind_getASR, bind_getFiles, bind_emit, Hfile.
  unfold uploadData. rewrite bind_getEvents, bind_emit, Hplan, Hcode. cbn [Z.eqb negb].
  rewrite bind_setASR, bind_setASR.
  erewrite bind_ok by (apply uploadChunks_ok; assumption).
  rewrite bind_getASR, bind_getEvents, bind_emit, Hcommit.
  cbn [asr files events set_Etags set_plan Etags InBossKey ResourceID UploadID app].
  eexists. split; [apply etagsFrom_length |].
  destruct (cm_Code c =? 0); cbn [negb andb].
  - destruct (String.eqb (cm_DownloadURL c) ""); cbn [negb];
      (split; [reflexivity | split; reflexivity]).
  - split; [reflexivity | split; reflexivity].
Qed.

Lemma upload_outcome_witness :
  snd (upload (Demo.service ["u0"; "u1"; "u2"] 4 4 "") (Demo.session "talk.m4a" Demo.tenBytes))
    = Ok tt
  /\ DownloadURL (asr (fst (upload (Demo.service ["u0"; "u1"; "u2"] 4 4 "")
                              (Demo.session "talk.m4a" Demo.tenBytes)))) = "dl1".
Proof.
  destruct (upload_outcome (Demo.service ["u0"; "u1"; "u2"] 4 4 "")
              (Demo.session "talk.m4a" Demo.tenBytes) Demo.tenBytes
              {| up_Code := 0; up_ResourceID := "res"; up_UploadID := "upl";
                 up_UploadURLs := ["u0"; "u1"; "u2"]; up_PerUploadSize := 4;
                 up_DownloadURL := "dl0"; up_InBossKey := "key" |} ""
              {| cm_Code := 0; cm_DownloadURL := "dl1"; cm_ResourceID := "res" |} "")
    as (etags & _ & Hout & Hasr & _).
  - reflexivity.
  - intros evs form. reflexivity.
  - reflexivity.
  - cbn. lia.
  - cbn. lia.
  - cbn. intros j Hj. lia.
  - intros evs url chunk. eexists. split; [reflexivity | left; reflexivity].
  - intros evs form. reflexivity.
  - split; [exact Hout | rewrite Hasr; reflexivity].
Defined.

(** ** Polling: rounds that go on, then the reply that ends the poll *)

(** [k] replies that are neither final nor failed cost [k] attempts. *)
Lemma pollAttempts_pending surface w n : forall k s,
  (forall j, (j < k)%nat ->
     exists r body,
       queryReply w (events s ++ rounds (queryURL (TaskID (asr s))) j)
         (queryURL (TaskID (asr s))) = QueryReplied (Decoded r body)
       /\ q_Code r = 0 /\ q_State r <> 3 /\ q_State r <> 4) ->
  pollAttempts surface w (k + n) s
  = pollAttempts surface w n
      {| asr := asr s; files := files s;
         events := events s ++ rounds (queryURL (TaskID (asr s))) k |}.
Proof.
  induction k as [| k IH]; intros s Hpending.
  - cbn [Nat.add rounds]. rewrite app_nil_r. destruct s; reflexivity.
  - destruct (Hpending O ltac:(lia)) as (r & body & Hq & Hc & H3 & H4).
    cbn [rounds] in Hq. rewrite app_nil_r in Hq.
    cbn [Nat.add]. rewrite (pollAttempts_step surface w (k + n) s r body Hq Hc).
    replace (q_State r =? 4) with false by (symmetry; apply Z.eqb_neq; exact H4).
    replace (q_State r =? 3) with false by (symmetry; apply Z.eqb_neq; exact H3).
    rewrite IH.
    + cbn [asr files events rounds]. rewrite <- app_assoc. reflexivity.
    + intros j Hj. cbn [asr events]. rewrite <- app_assoc. cbn [app].
      apply (Hpending (S j)). lia.
Qed.

(** X18.  When the first [k] replies (k < 500) report a state other than 3
    and 4 with code 0, [pollResult] makes [k] rounds of query and pause, and
    the next attempt decides.  If its request cannot be built, the poll ends
    with that error and nothing more is sent.  Otherwise one more query is
    sent, and its reply decides: a transport failure, an undecodable body or a
    non-zero code ends the poll with that error at once, whatever state the
    reply reports; state 4 gives the parsed result; state 3 the failure.  The
    record and the files are as they were. *)
Theorem pollResult_after_pending_rounds (w : World) (s : Session) (k : nat) :
  (k < 500)%nat ->
  (forall j, (j < k)%nat ->
     exists r body,
       queryReply w (events s ++ rounds (queryURL (TaskID (asr s))) j)
         (queryURL (TaskID (asr s))) = QueryReplied (Decoded r body)
       /\ q_Code r = 0 /\ q_State r <> 3 /\ q_State r <> 4) ->
  let url := queryURL (TaskID (asr s)) in
  let reply := queryReply w (events s ++ rounds url k) url in
  let unsent :=
    {| asr := asr s; files := files s; events := events s ++ rounds url k |} in
  let final :=
    {| asr := asr s; files := files s;
       events := events s ++ rounds url k ++ [EvGet url] |} in
  (forall what, reply = QueryBadRequest what ->
     pollResult w s = (unsent, Err (ErrRequest what)))
  /\ (forall what, reply = QueryReplied (NoReply what) ->
        pollResult w s = (final, Err (ErrTransport what)))
  /\ (forall body, reply = QueryReplied (BadBody body) ->
        pollResult w s = (final, Err (ErrDecode body)))
  /\ (forall r body, reply = QueryReplied (Decoded r body) -> q_Code r <> 0 ->
        pollResult w s = (final, Err (ErrQueryCode (q_Code r) (q_Message r))))
  /\ (forall r body, reply = QueryReplied (Decoded r body) -> q_Code r = 0 -> q_State r = 4 ->
        pollResult w s
        = (final, match unmarshalASRResult w (q_Result r) with
                  | Some asrResult => Ok asrResult
                  | None => Err ErrResultJSON
                  end))
  /\ (forall r body, reply = QueryReplied (Decoded r body) -> q_Code r = 0 -> q_State r = 3 ->
        pollResult w s
        = (final, Err (ErrASRFailed (if String.eqb (q_Remark r) ""
                                     then "未知错误(可能是音频格式不支持或文件损坏)"
                                     else q_Remark r)))).
Proof.
  intros Hk Hpending. cbv zeta. unfold pollResult.
  replace 500%nat with (k + S (499 - k))%nat by lia.
  rewrite (pollAttempts_pending failureRemark w (S (499 - k)) k s Hpending).
  set (s1 := {| asr := asr s; files := files s;
                events := events s ++ rounds (queryURL (TaskID (asr s))) k |}).
  change (events s ++ rounds (queryURL (TaskID (asr s))) k) with (events s1).
  assert (Hfinal : {| asr := asr s; files := files s;
                      events := events s ++ rounds (queryURL (TaskID (asr s))) k
                                  ++ [EvGet (queryURL (TaskID (asr s)))] |}
                   = {| asr := asr s1; files := files s1;
                        events := events s1 ++ [EvGet (queryURL (TaskID (asr s1)))] |}).
  { subst s1. cbn [asr files events]. rewrite <- app_assoc. reflexivity. }
  rewrite Hfinal. change (TaskID (asr s)) with (TaskID (asr s1)).
  clearbody s1. clear Hfinal Hpending.
  split; [| split; [| split; [| split; [| split]]]].
  - intros what E. apply pollAttempts_unbuilt. exact E.
  - intros what E. rewrite (pollAttempts_sent failureRemark w (499 - k) s1 _ E). reflexivity.
  - intros body E. rewrite (pollAttempts_sent failureRemark w (499 - k) s1 _ E). reflexivity.
  - intros r body E Hc. rewrite (pollAttempts_sent failureRemark w (499 - k) s1 _ E).
    replace (q_Code r =? 0) with false by (symmetry; apply Z.eqb_neq; exact Hc).
    reflexivity.
  - intros r body E Hc H4.
    rewrite (pollAttempts_step failureRemark w (499 - k) s1 r body E Hc), H4. reflexivity.
  - intros r body E Hc H3.
    rewrite (pollAttempts_step failureRemark w (499 - k) s1 r body E Hc), H3. reflexivity.
Qed.

Lemma pollResult_after_pending_rounds_witness :
  pollResult
    (Demo.slow 2 (QueryReplied
                    (Decoded {| q_Code := 7; q_Message := "busy"; q_State := 4; q_Remark := "";
                                q_Result := "{}" |} "")))
    (Demo.session "talk.m4a" Demo.tenBytes)
  = ({| asr := NewBcutASR "talk.m4a"; files := {[ "talk.m4a" := Demo.tenBytes ]};
        events := [EvGet (queryURL ""); EvSleep 3; EvGet (queryURL ""); EvSleep 3;
                   EvGet (queryURL "")] |},
     Err (ErrQueryCode 7 "busy"))
  /\ pollResult (Demo.slow 2 (QueryBadRequest "invalid control character in URL"))
       (Demo.session "talk.m4a" Demo.tenBytes)
     = ({| asr := NewBcutASR "talk.m4a"; files := {[ "talk.m4a" := Demo.tenBytes ]};
           events := [EvGet (queryURL ""); EvSleep 3; EvGet (queryURL ""); EvSleep 3] |},
        Err (ErrRequest "invalid control character in URL")).
Proof.
  assert (Hpending : forall final j, (j < 2)%nat ->
            exists r body,
              queryReply (Demo.slow 2 final)
                (events (Demo.session "talk.m4a" Demo.tenBytes)
                   ++ rounds (queryURL (TaskID (asr (Demo.session "talk.m4a" Demo.tenBytes)))) j)
                (queryURL (TaskID (asr (Demo.session "talk.m4a" Demo.tenBytes))))
              = QueryReplied (Decoded r body)
              /\ q_Code r = 0 /\ q_State r <> 3 /\ q_State r <> 4).
  { intros final j Hj. destruct j as [| [| j]]; [| | lia].
    - eexists. eexists. split; [reflexivity |]. cbn. repeat split; discriminate.
    - eexists. eexists. split; [reflexivity |]. cbn. repeat split; discriminate. }
  split.
  - destruct (pollResult_after_pending_rounds
                (Demo.slow 2 (QueryReplied
                                (Decoded {| q_Code := 7; q_Message := "busy"; q_State := 4;
                                            q_Remark := ""; q_Result := "{}" |} "")))
                (Demo.session "talk.m4a" Demo.tenBytes) 2 ltac:(lia) (Hpending _))
      as (_ & _ & _ & H & _).
    rewrite (H {| q_Code := 7; q_Message := "busy"; q_State := 4; q_Remark := "";
                  q_Result := "{}" |} ""); [reflexivity | reflexivity | cbn; discriminate].
  - destruct (pollResult_after_pending_rounds
                (Demo.slow 2 (QueryBadRequest "invalid control character in URL"))
                (Demo.session "talk.m4a" Demo.tenBytes) 2 ltac:(lia) (Hpending _))
      as (H & _).
    rewrite (H "invalid control character in URL"); reflexivity.
Defined.

(** ** What the requests leave alone *)

Lemma preserves_ret {A X} (f : Session -> X) (a : A) : preserves f (ret a).
Proof. intros s. reflexivity. Qed.

Lemma preserves_fail {A X} (f : Session -> X) e : preserves f (@fail A e).
Proof. intros s. reflexivity. Qed.

Lemma preserves_panic {A X} (f : Session -> X) what : preserves f (@panic A what).
Proof. intros s. reflexivity. Qed.

Lemma preserves_getASR {X} (f : Session -> X) : preserves f getASR.
Proof. intros s. reflexivity. Qed.

Lemma preserves_getEvents {X} (f : Session -> X) : preserves f getEvents.
Proof. intros s. reflexivity. Qed.

Lemma preserves_getFiles {X} (f : Session -> X) : preserves f getFiles.
Proof. intros s. reflexivity. Qed.

Lemma preserves_bind {A B X} (f : Session -> X) (m : M A) (k : A -> M B) :
  preserves f m -> (forall a, preserves f (k a)) -> preserves f (bind m k).
Proof.
  intros Hm Hk s. unfold bind. pose proof (Hm s) as E.
  destruct (m s) as [s1 [a | e | what]]; cbn [fst] in *.
  - rewrite (Hk a s1). exact E.
  - exact E.
  - exact E.
Qed.

Lemma preserves_wrapErr {A X} (f : Session -> X) g (m : M A) :
  preserves f m -> preserves f (wrapErr g m).
Proof.
  intros Hm s. unfold wrapErr. pose proof (Hm s) as E.
  destruct (m s) as [s1 [a | e | what]]; exact E.
Qed.

Section Preserved.

Context {X : Type} (f : Session -> X).

(** [f] does not look at the events. *)
Hypothesis f_events :
  forall s evs, f {| asr := asr s; files := files s; events := evs |} = f s.

Lemma preserves_emit e : preserves f (emit e).
Proof. intros s. apply f_events. Qed.

Lemma preserves_pollAttempts surface w n : preserves f (pollAttempts surface w n).
Proof.
  induction n as [| n IH]; cbn [pollAttempts]; [apply preserves_fail |].
  apply preserves_bind; [apply preserves_getASR | intros a].
  apply preserves_bind; [apply preserves_getEvents | intros evs].
  destruct (queryReply w evs _) as [what | [what | body | r body]]; [apply preserves_fail | ..];
    (apply preserves_bind; [apply preserves_emit | intros _]); try apply preserves_fail.
  destruct (negb _); [apply preserves_fail |].
  rewrite state_dispatch.
  destruct (q_State r =? 4);
    [destruct (unmarshalASRResult w (q_Result r)); [apply preserves_ret | apply preserves_fail] |].
  destruct (q_State r =? 3); [apply preserves_fail |].
  apply preserves_bind; [apply preserves_emit | intros _; exact IH].
Qed.

(** [f] looks at nothing in the record but the path, the format and the
    cookie. *)
Hypothesis f_record :
  forall s a,
    AudioPath a = AudioPath (asr s) -> AudioFormat a = AudioFormat (asr s) ->
    Cookie a = Cookie (asr s) ->
    f {| asr := a; files := files s; events := events s |} = f s.

Lemma preserves_setASR g :
  (forall a, AudioPath (g a) = AudioPath a /\ AudioFormat (g a) = AudioFormat a
             /\ Cookie (g a) = Cookie a) ->
  preserves f (setASR g).
Proof. intros Hg s. destruct (Hg (asr s)) as (E1 & E2 & E3). apply f_record; assumption. Qed.

Lemma preserves_uploadChunks w fileData perSize urls : forall i,
  preserves f (uploadChunks w fileData perSize i urls).
Proof.
  induction urls as [| u urls IH]; intros i; cbn [uploadChunks].
  - apply preserves_ret.
  - destruct (chunkOf fileData perSize i) as [chunk |]; [| apply preserves_panic].
    apply preserves_bind; [apply preserves_getEvents | intros evs].
    destruct (putReply w evs u chunk) as [| | r].
    + apply preserves_fail.
    + apply preserves_bind; [apply preserves_emit | intros _; apply preserves_fail].
    + apply preserves_bind; [apply preserves_emit | intros _].
      destruct (negb (put_StatusCode r =? 200) && negb (put_StatusCode r =? 201)).
      * apply preserves_fail.
      * apply preserves_bind; [apply preserves_setASR; intros a; repeat split | intros _; apply IH].
Qed.

Lemma preserves_upload w : preserves f (upload w).
Proof.
  unfold upload.
  apply preserves_bind; [apply preserves_getASR | intros a].
  apply preserves_bind; [apply preserves_getFiles | intros fs].
  apply preserves_bind; [apply preserves_emit | intros _].
  destruct (fs !! AudioPath a) as [fileData |]; [| apply preserves_fail].
  unfold uploadData.
  apply preserves_bind; [apply preserves_getEvents | intros evs].
  apply preserves_bind; [apply preserves_emit | intros _].
  destruct (reqUploadReply w evs _) as [what | body | r body]; try apply preserves_fail.
  destruct (negb (up_Code r =? 0)); [apply preserves_fail |].
  apply preserves_bind; [apply preserves_setASR; intros ?; repeat split | intros _].
  apply preserves_bind; [apply preserves_setASR; intros ?; repeat split | intros _].
  apply preserves_bind; [apply preserves_uploadChunks | intros _].
  apply preserves_bind; [apply preserves_getASR | intros a2].
  apply preserves_bind; [apply preserves_getEvents | intros evs2].
  apply preserves_bind; [apply preserves_emit | intros _].
  destruct (commitReply w evs2 _) as [what2 | body1 | r2 body2]; try apply preserves_fail.
  destruct (negb (cm_Code r2 =? 0)); [apply preserves_fail |].
  destruct (negb _); [apply preserves_setASR; intros ?; repeat split | apply preserves_ret].
Qed.

Lemma preserves_createTask w : preserves f (createTask w).
Proof.
  unfold createTask.
  apply preserves_bind; [apply preserves_getASR | intros a].
  apply preserves_bind; [apply preserves_getEvents | intros evs].
  apply preserves_bind; [apply preserves_emit | intros _].
  destruct (createTaskReply w evs _) as [what | body | r body]; try apply preserves_fail.
  destruct (negb _); [apply preserves_fail | apply preserves_setASR; intros ?; repeat split].
Qed.

(** Steps 1 to 4 of [Run], after the assignment of the path. *)
Lemma preserves_steps w :
  preserves f
    (wrapErr ErrUploadStep (upload w) ;;;
     wrapErr ErrCreateTaskStep (createTask w) ;;;
     result <- wrapErr ErrPollStep (pollResult w) ;;
     ret (toText result)).
Proof.
  apply preserves_bind; [apply preserves_wrapErr, preserves_upload | intros _].
  apply preserves_bind; [apply preserves_wrapErr, preserves_createTask | intros _].
  apply preserves_bind; [| intros r; apply preserves_ret].
  apply preserves_wrapErr. unfold pollResult. apply preserves_pollAttempts.
Qed.

End Preserved.

Lemma untouched_record s a :
  AudioPath a = AudioPath (asr s) -> AudioFormat a = AudioFormat (asr s) ->
  Cookie a = Cookie (asr s) ->
  untouched {| asr := a; files := files s; events := events s |} = untouched s.
Proof. intros E1 E2 E3. unfold untouched. cbn [asr files]. rewrite E1, E2, E3. reflexivity. Qed.

Lemma runFrom_untouched w audioPath s :
  untouched (fst (runFrom w audioPath s))
  = (files s, audioPath, AudioFormat (asr s), Cookie (asr s)).
Proof.
  unfold runFrom. rewrite bind_setASR.
  rewrite (preserves_steps untouched); [reflexivity | reflexivity |].
  intros s1 a. apply untouched_record.
Qed.

(** X19.  No request of the session writes a file or changes the path, the
    format or the cookie of the record, whatever the service answers and
    however the step ends; polling changes nothing of the record at all.
    After steps 1 to 4 of [Run] the path of the record is the path that was
    uploaded, and the files are as they were: a stream extracted beforehand is
    still there. *)
Theorem requests_leave_files_and_path (w : World) :
  preserves untouched (upload w)
  /\ preserves untouched (createTask w)
  /\ preserves (fun s => (asr s, files s)) (pollResult w)
  /\ forall audioPath s,
       untouched (fst (runFrom w audioPath s))
       = (files s, audioPath, AudioFormat (asr s), Cookie (asr s)).
Proof.
  split; [| split; [| split]].
  - apply preserves_upload; [reflexivity | intros s a; apply untouched_record].
  - apply preserves_createTask; [reflexivity | intros s a; apply untouched_record].
  - unfold pollResult. apply preserves_pollAttempts. reflexivity.
  - intros audioPath s. apply runFrom_untouched.
Qed.

(** ** The whole flow: extraction, then the four steps *)

Lemma bind_wrapErr {A B} g (m : M A) (k : A -> M B) s :
  bind (wrapErr g m) k s
  = match m s with
    | (s', Ok a) => k a s'
    | (s', Err e) => (s', Err (g e))
    | (s', Panic what) => (s', Panic what)
    end.
Proof. unfold bind, wrapErr. destruct (m s) as [s' [a | e | what]]; reflexivity. Qed.

(** Where steps 1 to 4 can end. *)
Lemma runFrom_cases w audioPath s :
  let s0 := {| asr := set_AudioPath audioPath (asr s); files := files s; events := events s |} in
  (exists s1 e, upload w s0 = (s1, Err e)
                /\ runFrom w audioPath s = (s1, Err (ErrUploadStep e)))
  \/ (exists s1 s2 e, upload w s0 = (s1, Ok tt) /\ createTask w s1 = (s2, Err e)
                      /\ runFrom w audioPath s = (s2, Err (ErrCreateTaskStep e)))
  \/ (exists s1 s2 s3 e, upload w s0 = (s1, Ok tt) /\ createTask w s1 = (s2, Ok tt)
                         /\ pollResult w s2 = (s3, Err e)
                         /\ runFrom w audioPath s = (s3, Err (ErrPollStep e)))
  \/ (exists s1 s2 s3 result, upload w s0 = (s1, Ok tt) /\ createTask w s1 = (s2, Ok tt)
                              /\ pollResult w s2 = (s3, Ok result)
                              /\ runFrom w audioPath s = (s3, Ok (toText result)))
  \/ (exists s' what, runFrom w audioPath s = (s', Panic what)).
Proof.
  cbv zeta. unfold runFrom. rewrite bind_setASR, bind_wrapErr.
  destruct (upload w _) as [s1 [[] | e | what]] eqn:Hu.
  - rewrite bind_wrapErr.
    destruct (createTask w s1) as [s2 [[] | e | what]] eqn:Hc.
    + rewrite bind_wrapErr.
      destruct (pollResult w s2) as [s3 [result | e | what]] eqn:Hp.
      * do 3 right. left. exists s1, s2, s3, result. repeat split; first [assumption | reflexivity].
      * do 2 right. left. exists s1, s2, s3, e. repeat split; first [assumption | reflexivity].
      * do 4 right. exists s3, what. reflexivity.
    + right. left. exists s1, s2, e. repeat split; first [assumption | reflexivity].
    + do 4 right. exists s2, what. reflexivity.
  - left. exists s1, e. split; first [assumption | reflexivity].
  - do 4 right. exists s1, what. reflexivity.
Qed.

(** X20.  When the path has none of the audio extensions and the extraction
    fails, [Run] returns the extraction error under the name of step 0.  It
    has made no request and has not touched the record; the files are as the
    extraction left them: as they were, or without the output file, or with
    the output file as far as it was written, when the machine did not let it
    be removed or when it is the examination of the written output that
    failed. *)
Theorem Run_failed_extraction_sends_nothing (w : World) (s : Session) (e : error) :
  mapIndex audioExts (ToLower (Ext (goos w) (AudioPath (asr s)))) = false ->
  snd (videoToAudio (goos w) (Probe w) (Create w) (Stat w) (Remove w) (files s) (AudioPath (asr s))) = inl e ->
  Run w s
  = ({| asr := asr s;
        files := fst (videoToAudio (goos w) (Probe w) (Create w) (Stat w) (Remove w) (files s)
                        (AudioPath (asr s)));
        events := events s ++ [EvExtract (AudioPath (asr s))] |},
     Err (ErrExtract e))
  /\ extractionError e
  /\ (files (fst (Run w s)) = files s
      \/ exists codecType,
           Create w (outputPathOf (goos w) (AudioPath (asr s)) codecType) = true
           /\ ((e <> ErrStat
                /\ Remove w (outputPathOf (goos w) (AudioPath (asr s)) codecType) = true
                /\ files (fst (Run w s))
                   = delete (outputPathOf (goos w) (AudioPath (asr s)) codecType) (files s))
               \/ ((e = ErrStat
                    \/ Remove w (outputPathOf (goos w) (AudioPath (asr s)) codecType) = false)
                   /\ exists written,
                        files (fst (Run w s))
                        = <[outputPathOf (goos w) (AudioPath (asr s)) codecType := written]>
                            (files s)))).
Proof.
  intros Hext Hv. rewrite (Run_extraction_result w s Hext). cbv zeta. rewrite Hv.
  cbn [fst snd asr files events].
  split; [reflexivity |].
  assert (Hremoved : forall written codecType,
            Create w (outputPathOf (goos w) (AudioPath (asr s)) codecType) = true ->
            e <> ErrStat ->
            fst (videoToAudio (goos w) (Probe w) (Create w) (Stat w) (Remove w) (files s)
                   (AudioPath (asr s)))
            = removeFile (Remove w) (outputPathOf (goos w) (AudioPath (asr s)) codecType)
                (<[outputPathOf (goos w) (AudioPath (asr s)) codecType := written]> (files s)) ->
            fst (videoToAudio (goos w) (Probe w) (Create w) (Stat w) (Remove w) (files s)
                   (AudioPath (asr s))) = files s
            \/ exists codecType,
                 Create w (outputPathOf (goos w) (AudioPath (asr s)) codecType) = true
                 /\ ((e <> ErrStat
                      /\ Remove w (outputPathOf (goos w) (AudioPath (asr s)) codecType) = true
                      /\ fst (videoToAudio (goos w) (Probe w) (Create w) (Stat w) (Remove w)
                                (files s) (AudioPath (asr s)))
                         = delete (outputPathOf (goos w) (AudioPath (asr s)) codecType)
                             (files s))
                     \/ ((e = ErrStat
                          \/ Remove w (outputPathOf (goos w) (AudioPath (asr s)) codecType)
                             = false)
                         /\ exists written,
                              fst (videoToAudio (goos w) (Probe w) (Create w) (Stat w)
                                     (Remove w) (files s) (AudioPath (asr s)))
                              = <[outputPathOf (goos w) (AudioPath (asr s)) codecType
                                  := written]> (files s)))).
  { intros written codecType Hcr Hs E. right. exists codecType. split; [exact Hcr |].
    rewrite E, removeFile_insert.
    destruct (Remove w _); [left; repeat split; assumption | right].
    split; [right; reflexivity | exists written; reflexivity]. }
  destruct (videoToAudio_cases (goos w) (Probe w) (Create w) (Stat w) (Remove w) (files s) (AudioPath (asr s)))
    as [(_ & E) | [(f & _ & _ & E) | [(f & info & _ & _ & _ & E)
       | (f & info & t & _ & _ & _ & Hcases)]]].
  - rewrite E in Hv |- *. cbn [fst snd] in *. injection Hv as <-.
    split; [exact I | left; reflexivity].
  - rewrite E in Hv |- *. cbn [fst snd] in *. injection Hv as <-.
    split; [exact I | left; reflexivity].
  - rewrite E in Hv |- *. cbn [fst snd] in *. injection Hv as <-.
    split; [exact I | left; reflexivity].
  - cbv zeta in Hcases.
    destruct Hcases as [(_ & E) | (_ & [(_ & E) | [(Hcr & _ & E) | [(e' & wr & Hcr & _ & Hloop & E)
                          | [(out & Hcr & _ & _ & E) | [(out & Hcr & _ & _ & _ & E)
                          | (out & _ & _ & _ & _ & E)]]]]])];
      pose proof E as E'; rewrite E in Hv; cbn [fst snd] in Hv; try discriminate;
      injection Hv as <-.
    + rewrite E. split; [exact I | left; reflexivity].
    + rewrite E. split; [exact I | left; reflexivity].
    + split; [exact I |]. apply (Hremoved [] _ Hcr); [discriminate | rewrite E'; reflexivity].
    + destruct (extractSamples_error _ _ _ _ _ _ _ _ _ _ _ Hloop) as (si & i & _ & _ & Hk).
      split; [destruct Hk as [-> | ->]; exact I |].
      apply (Hremoved wr _ Hcr); [destruct Hk as [-> | ->]; discriminate | rewrite E'; reflexivity].
    + split; [exact I |]. apply (Hremoved out _ Hcr); [discriminate | rewrite E'; reflexivity].
    + split; [exact I |]. rewrite E. cbn [fst]. right. eexists. split; [exact Hcr |].
      right. split; [left; reflexivity | exists out; reflexivity].
Qed.

Lemma Run_failed_extraction_sends_nothing_witness :
  Run (Demo.studio [Demo.videoTrack] [] 0) (Demo.session "clip.mp4" Demo.clip)
  = ({| asr := NewBcutASR "clip.mp4"; files := {[ "clip.mp4" := Demo.clip ]};
        events := [EvExtract "clip.mp4"] |},
     Err (ErrExtract (ErrNoAudioTrack ["Track0: codec=1, encrypted=false"]))).
Proof.
  destruct (Run_failed_extraction_sends_nothing (Demo.studio [Demo.videoTrack] [] 0)
              (Demo.session "clip.mp4" Demo.clip)
              (ErrNoAudioTrack ["Track0: codec=1, encrypted=false"])) as (H & _).
  - vm_compute. reflexivity.
  - vm_compute. reflexivity.
  - rewrite H. reflexivity.
Defined.

(** A prefix of the events survives the continuation. *)
Lemma bind_prefix {A B} (m : M A) (k : A -> M B) s pre :
  (exists l, events (fst (m s)) = events s ++ pre ++ l) ->
  (forall a, emits (fun _ => True) (k a)) ->
  exists l, events (fst (bind m k s)) = events s ++ pre ++ l.
Proof.
  intros (l1 & E1) Hk. unfold bind.
  destruct (m s) as [s1 [a | err | what]]; cbn [fst] in *.
  - destruct (Hk a s1) as (l2 & E2 & _). exists (l1 ++ l2).
    rewrite E2, E1, <- !app_assoc. reflexivity.
  - exists l1. exact E1.
  - exists l1. exact E1.
Qed.

Lemma wrapErr_prefix {A} g (m : M A) s pre :
  (exists l, events (fst (m s)) = events s ++ pre ++ l) ->
  exists l, events (fst (wrapErr g m s)) = events s ++ pre ++ l.
Proof.
  intros (l1 & E1). unfold wrapErr.
  destruct (m s) as [s1 [a | err | what]]; exists l1; exact E1.
Qed.

(** The first two things [upload] does on a readable file. *)
Lemma upload_plan_prefix w s data :
  files s !! AudioPath (asr s) = Some data ->
  exists l,
    events (fst (upload w s))
    = events s ++ [EvReadFile (AudioPath (asr s));
                   EvPostForm API_REQ_UPLOAD (planForm (AudioFormat (asr s)) (length data))]
               ++ l.
Proof.
  intros Hfile. unfold upload. rewrite bind_getASR, bind_getFiles, bind_emit, Hfile.
  unfold uploadData. cbv zeta. rewrite bind_getEvents.
  fold (planForm (AudioFormat (asr s)) (length data)).
  match goal with |- context [bind (emit ?e) ?k ?s1] =>
    destruct (emit_first_event (fun _ => True) e k s1) as (l & E & _) end.
  { intros _.
    destruct (reqUploadReply w _ _) as [what | body | r body]; try apply emits_fail.
    destruct (negb (up_Code r =? 0)); [apply emits_fail |].
    apply emits_bind; [apply emits_setASR | intros _].
    apply emits_bind; [apply emits_setASR | intros _].
    apply emits_bind; [apply emits_uploadChunks; intros; exact I | intros _].
    apply emits_bind; [apply emits_getASR | intros a2].
    apply emits_bind; [apply emits_getEvents | intros evs2].
    apply emits_bind; [apply emits_emit; exact I | intros _].
    destruct (commitReply w evs2 _) as [what2 | body1 | r2 body2]; try apply emits_fail.
    destruct (negb (cm_Code r2 =? 0)); [apply emits_fail |].
    destruct (negb _); [apply emits_setASR | apply emits_ret]. }
  exists l. rewrite E. cbn [events]. rewrite <- app_assoc. reflexivity.
Qed.

Lemma runFrom_plan_prefix w audioPath s data :
  files s !! audioPath = Some data ->
  exists l,
    events (fst (runFrom w audioPath s))
    = events s ++ [EvReadFile audioPath;
                   EvPostForm API_REQ_UPLOAD (planForm (AudioFormat (asr s)) (length data))]
               ++ l.
Proof.
  intros Hfile. unfold runFrom. rewrite bind_setASR.
  set (s1 := {| asr := set_AudioPath audioPath (asr s); files := files s; events := events s |}).
  change (events s) with (events s1).
  change (EvReadFile audioPath) with (EvReadFile (AudioPath (asr s1))).
  change (AudioFormat (asr s)) with (AudioFormat (asr s1)).
  apply bind_prefix.
  - apply wrapErr_prefix. apply upload_plan_prefix. exact Hfile.
  - intros _. apply (emits_weaken notExtract); [trivial |].
    apply emits_bind; [apply emits_wrapErr, emits_createTask | intros _].
    apply emits_bind; [| intros r; apply emits_ret].
    apply emits_wrapErr, emits_pollAttempts; intros; intros p; discriminate.
Qed.

(** X21.  When the path has none of the audio extensions and the extraction
    succeeds, [Run] goes on with the extracted file: it reads that file and
    asks for a plan that names the format of the extraction and the size of
    the extracted stream.  However the run ends, the record then points at
    the extracted file with that format, and the extracted file is still on
    disk. *)
Theorem Run_uploads_extracted_stream (w : World) (s : Session) (p fmt : string) :
  mapIndex audioExts (ToLower (Ext (goos w) (AudioPath (asr s)))) = false ->
  snd (videoToAudio (goos w) (Probe w) (Create w) (Stat w) (Remove w) (files s) (AudioPath (asr s))) = inr (p, fmt) ->
  exists out rest,
    files (fst (Run w s)) = <[p := out]> (files s)
    /\ AudioPath (asr (fst (Run w s))) = p
    /\ AudioFormat (asr (fst (Run w s))) = fmt
    /\ events (fst (Run w s))
       = events s ++ [EvExtract (AudioPath (asr s)); EvReadFile p;
                      EvPostForm API_REQ_UPLOAD (planForm fmt (length out))] ++ rest.
Proof.
  intros Hext Hv. rewrite (Run_extraction_result w s Hext). cbv zeta. rewrite Hv.
  assert (Hfs : exists out,
             fst (videoToAudio (goos w) (Probe w) (Create w) (Stat w) (Remove w) (files s) (AudioPath (asr s)))
             = <[p := out]> (files s)).
  { destruct (videoToAudio_cases (goos w) (Probe w) (Create w) (Stat w) (Remove w) (files s) (AudioPath (asr s)))
      as [(_ & E) | [(f & _ & _ & E) | [(f & info & _ & _ & _ & E)
         | (f & info & t & _ & _ & _ & Hcases)]]];
      try (rewrite E in Hv; discriminate).
    cbv zeta in Hcases.
    destruct Hcases as [(_ & E) | (_ & [(_ & E) | [(_ & _ & E) | [(e' & wr & _ & _ & _ & E)
                          | [(out & _ & _ & _ & E) | [(out & _ & _ & _ & _ & E)
                          | (out & _ & _ & _ & _ & E)]]]]])];
      try (rewrite E in Hv; discriminate).
    rewrite E in Hv |- *. cbn [fst snd] in *. injection Hv as <- _. exists out. reflexivity. }
  destruct Hfs as (out & Hfs). rewrite Hfs.
  match goal with |- context [runFrom w p ?s1] =>
    pose proof (runFrom_untouched w p s1) as Hkeep;
    destruct (runFrom_plan_prefix w p s1 out) as (rest & Hev) end.
  { cbn [files]. apply lookup_insert_eq. }
  unfold untouched in Hkeep. cbn [asr files set_AudioFormat AudioFormat Cookie] in Hkeep.
  injection Hkeep as H1 H2 H3 _.
  exists out, rest. rewrite H1, H2, H3, Hev. cbn [events asr set_AudioFormat AudioFormat].
  rewrite <- app_assoc. repeat split; reflexivity.
Qed.

Lemma Run_uploads_extracted_stream_witness :
  exists out rest,
    files (fst (Run (Demo.studio [Demo.videoTrack; Demo.lcTrack] ["u0"] 64)
                  (Demo.session "clip.mp4" Demo.clip)))
    = <["clip_temp.aac" := out]> {[ "clip.mp4" := Demo.clip ]}
    /\ events (fst (Run (Demo.studio [Demo.videoTrack; Demo.lcTrack] ["u0"] 64)
                      (Demo.session "clip.mp4" Demo.clip)))
       = [EvExtract "clip.mp4"; EvReadFile "clip_temp.aac";
          EvPostForm API_REQ_UPLOAD (planForm "aac" (length out))] ++ rest.
Proof.
  destruct (Run_uploads_extracted_stream (Demo.studio [Demo.videoTrack; Demo.lcTrack] ["u0"] 64)
              (Demo.session "clip.mp4" Demo.clip) "clip_temp.aac" "aac")
    as (out & rest & Hf & _ & _ & He).
  - vm_compute. reflexivity.
  - vm_compute. reflexivity.
  - exists out, rest. split; [exact Hf | exact He].
Defined.

Lemma runFrom_error_names_step w audioPath s e :
  snd (runFrom w audioPath s) = Err e -> stepError e.
Proof.
  intros H.
  destruct (runFrom_cases w audioPath s)
    as [(s1 & e1 & _ & E) | [(s1 & s2 & e1 & _ & _ & E) | [(s1 & s2 & s3 & e1 & _ & _ & _ & E)
       | [(s1 & s2 & s3 & r & _ & _ & _ & E) | (s' & what & E)]]]];
    rewrite E in H; cbn [snd] in H; try discriminate; injection H as <-; exact I.
Qed.

(** A poll that returns a result: the result is the one parsed from the
    reply to its last query, a reply with code 0 and state 4; the record and
    the files are as they were. *)
Lemma pollAttempts_ok surface w n : forall s s' result,
  pollAttempts surface w n s = (s', Ok result) ->
  exists k q qbody,
    queryReply w (events s ++ rounds (queryURL (TaskID (asr s))) k)
      (queryURL (TaskID (asr s))) = QueryReplied (Decoded q qbody)
    /\ q_Code q = 0 /\ q_State q = 4
    /\ unmarshalASRResult w (q_Result q) = Some result
    /\ s' = {| asr := asr s; files := files s;
               events := events s ++ rounds (queryURL (TaskID (asr s))) k
                           ++ [EvGet (queryURL (TaskID (asr s)))] |}.
Proof.
  induction n as [| n IH]; intros s s' result H; [discriminate |].
  destruct (queryReply w (events s) (queryURL (TaskID (asr s)))) as [what | reply] eqn:Hq.
  - rewrite (pollAttempts_unbuilt surface w n s what Hq) in H. discriminate.
  - pose proof (pollAttempts_sent surface w n s reply Hq) as Hsent. cbv zeta in Hsent.
    rewrite Hsent in H. clear Hsent.
    destruct reply as [what | body | q qbody]; try discriminate.
    destruct (q_Code q =? 0) eqn:Hc; cbn [negb] in H; [| discriminate].
    apply Z.eqb_eq in Hc.
    destruct (q_State q =? 4) eqn:H4.
    + apply Z.eqb_eq in H4.
      destruct (unmarshalASRResult w (q_Result q)) as [r |] eqn:Hr; [| discriminate].
      injection H as <- <-. exists O, q, qbody. cbn [rounds app]. rewrite app_nil_r.
      repeat split; assumption.
    + destruct (q_State q =? 3); [discriminate |].
      destruct (IH _ _ _ H) as (k & q' & qbody' & Hq' & Hc' & H4' & Hr' & ->).
      cbn [asr files events] in *. rewrite <- app_assoc in Hq'. cbn [app] in Hq'.
      exists (S k), q', qbody'. cbn [rounds].
      split; [exact Hq' |]. repeat (split; [assumption |]).
      rewrite <- !app_assoc. reflexivity.
Qed.

Lemma pollResult_ok w s s' result :
  pollResult w s = (s', Ok result) ->
  exists k q qbody,
    queryReply w (events s ++ rounds (queryURL (TaskID (asr s))) k)
      (queryURL (TaskID (asr s))) = QueryReplied (Decoded q qbody)
    /\ q_Code q = 0 /\ q_State q = 4
    /\ unmarshalASRResult w (q_Result q) = Some result
    /\ s' = {| asr := asr s; files := files s;
               events := events s ++ rounds (queryURL (TaskID (asr s))) k
                           ++ [EvGet (queryURL (TaskID (asr s)))] |}.
Proof. unfold pollResult. apply pollAttempts_ok. Qed.

Lemma runFrom_text w audioPath s text :
  snd (runFrom w audioPath s) = Ok text ->
  exists result q qbody evs,
    text = toText result
    /\ queryReply w evs (queryURL (TaskID (asr (fst (runFrom w audioPath s)))))
       = QueryReplied (Decoded q qbody)
    /\ q_Code q = 0 /\ q_State q = 4
    /\ unmarshalASRResult w (q_Result q) = Some result
    /\ events (fst (runFrom w audioPath s))
       = evs ++ [EvGet (queryURL (TaskID (asr (fst (runFrom w audioPath s)))))].
Proof.
  intros H.
  destruct (runFrom_cases w audioPath s)
    as [(s1 & e1 & _ & E) | [(s1 & s2 & e1 & _ & _ & E) | [(s1 & s2 & s3 & e1 & _ & _ & _ & E)
       | [(s1 & s2 & s3 & r & _ & _ & Hp & E) | (s' & what & E)]]]];
    rewrite E in H |- *; cbn [fst snd] in *; try discriminate.
  injection H as <-.
  destruct (pollResult_ok w s2 s3 r Hp) as (k & q & qbody & Hq & Hc & H4 & Hr & ->).
  exists r, q, qbody, (events s2 ++ rounds (queryURL (TaskID (asr s2))) k).
  cbn [asr events].
  split; [reflexivity |]. split; [exact Hq |]. repeat (split; [assumption |]).
  rewrite <- app_assoc. reflexivity.
Qed.

(** X22.  Every error [Run] returns names the step it comes from: the
    extraction, the upload, the task creation or the poll.  When [Run]
    returns a text, the last thing it did is the query for the task of the
    record; the reply to that query had code 0 and state 4, and the text is
    the text of the result parsed from that reply. *)
Theorem Run_outcomes (w : World) (s : Session) :
  (forall e, snd (Run w s) = Err e -> stepError e)
  /\ (forall e, snd (Run w s) = Err (ErrExtract e) ->
        mapIndex audioExts (ToLower (Ext (goos w) (AudioPath (asr s)))) = false
        /\ snd (videoToAudio (goos w) (Probe w) (Create w) (Stat w) (Remove w) (files s) (AudioPath (asr s))) = inl e)
  /\ (forall text, snd (Run w s) = Ok text ->
        exists result q qbody evs,
          text = toText result
          /\ queryReply w evs (queryURL (TaskID (asr (fst (Run w s)))))
             = QueryReplied (Decoded q qbody)
          /\ q_Code q = 0 /\ q_State q = 4
          /\ unmarshalASRResult w (q_Result q) = Some result
          /\ events (fst (Run w s))
             = evs ++ [EvGet (queryURL (TaskID (asr (fst (Run w s)))))]).
Proof.
  destruct (mapIndex audioExts (ToLower (Ext (goos w) (AudioPath (asr s))))) eqn:Hext.
  - rewrite (Run_audio_branch w s Hext). split; [| split].
    + intros e. apply runFrom_error_names_step.
    + intros e H. apply runFrom_error_names_step in H as Hs.
      destruct (runFrom_cases w (AudioPath (asr s))
                  {| asr := set_AudioFormat
                              (TrimPrefix (ToLower (Ext (goos w) (AudioPath (asr s)))) ".") (asr s);
                     files := files s; events := events s |})
        as [(s1 & e1 & _ & E) | [(s1 & s2 & e1 & _ & _ & E)
           | [(s1 & s2 & s3 & e1 & _ & _ & _ & E)
           | [(s1 & s2 & s3 & r & _ & _ & _ & E) | (s' & what & E)]]]];
        rewrite E in H; cbn [snd] in H; discriminate.
    + intros text. apply runFrom_text.
  - rewrite (Run_extraction_result w s Hext). cbv zeta.
    destruct (snd (videoToAudio (goos w) (Probe w) (Create w) (Stat w) (Remove w) (files s) (AudioPath (asr s))))
      as [e0 | [p fmt]] eqn:Hv.
    + cbn [fst snd]. split; [| split].
      * intros e H. injection H as <-. exact I.
      * intros e H. injection H as <-. split; reflexivity.
      * intros text H. discriminate.
    + split; [| split].
      * intros e. apply runFrom_error_names_step.
      * intros e H.
        match type of H with context [runFrom w p ?s1] =>
          destruct (runFrom_cases w p s1)
            as [(s1' & e1 & _ & E) | [(s1' & s2 & e1 & _ & _ & E)
               | [(s1' & s2 & s3 & e1 & _ & _ & _ & E)
               | [(s1' & s2 & s3 & r & _ & _ & _ & E) | (s' & what & E)]]]] end;
          rewrite E in H; cbn [snd] in H; discriminate.
      * intros text. apply runFrom_text.
Qed.

(** ** Text of a result *)

Lemma Join_length elems sep :
  String.length (Join elems sep)
  = (list_sum (map String.length elems) + Nat.pred (length elems) * String.length sep)%nat.
Proof.
  induction elems as [| e elems IH]; [reflexivity |].
  destruct elems as [| e' elems].
  - cbn. lia.
  - change (Join (e :: e' :: elems) sep) with (e +:+ sep +:+ Join (e' :: elems) sep).
    rewrite !append_length, IH. unfold list_sum. cbn [map fold_right length Nat.pred]. lia.
Qed.

(** X23.  The gomedia revision joins the transcripts with nothing between
    them, where the other revision puts a line feed: the text of the first is
    as long as the transcripts together, the text of the second longer by one
    less than the number of utterances. *)
Theorem toText_revisions_differ_by_separators (result : ASRResult) :
  Gomedia.toText result = Join (map Transcript (Utterances result)) ""
  /\ String.length (Gomedia.toText result)
     = list_sum (map (fun u => String.length (Transcript u)) (Utterances result))
  /\ String.length (toText result)
     = (String.length (Gomedia.toText result) + Nat.pred (length (Utterances result)))%nat.
Proof.
  assert (Hg : Gomedia.toText result = Join (map Transcript (Utterances result)) "").
  { unfold Gomedia.toText. rewrite Gomedia_toTextLoop_spec. reflexivity. }
  assert (Ht : toText result = Join (map Transcript (Utterances result)) newline).
  { unfold toText. rewrite toTextLoop_spec by lia. reflexivity. }
  rewrite Hg, Ht, !Join_length, !length_map, map_map. cbn [String.length newline].
  split; [reflexivity |]. split; lia.
Qed.

(** ** A run that succeeds, end to end *)

(** The whole effect of [upload] when the plan is accepted, every chunk
    start lies inside the file and every PUT is accepted. *)
Lemma upload_result w s data plan body c cbody :
  files s !! AudioPath (asr s) = Some data ->
  (forall evs form, reqUploadReply w evs form = Decoded plan body) ->
  up_Code plan = 0 ->
  0 <= up_PerUploadSize plan ->
  Z.of_nat (length data) + up_PerUploadSize plan < 2 ^ 63 ->
  (forall j, (j < length (up_UploadURLs plan))%nat ->
             Z.of_nat j * up_PerUploadSize plan <= Z.of_nat (length data)) ->
  putsAccepted w ->
  (forall evs form, commitReply w evs form = Decoded c cbody) ->
  let evs0 :=
    events s ++ [EvReadFile (AudioPath (asr s));
                 EvPostForm API_REQ_UPLOAD (planForm (AudioFormat (asr s)) (length data))] in
  let etags := etagsFrom w data (up_PerUploadSize plan) evs0 0 (up_UploadURLs plan) in
  upload w s
  = ({| asr :=
          {| AudioPath := AudioPath (asr s); AudioFormat := AudioFormat (asr s);
             ResourceID := up_ResourceID plan;
             DownloadURL :=
               if (cm_Code c =? 0) && negb (String.eqb (cm_DownloadURL c) "")
               then cm_DownloadURL c else up_DownloadURL plan;
             TaskID := TaskID (asr s); Cookie := Cookie (asr s);
             UploadID := up_UploadID plan; InBossKey := up_InBossKey plan;
             Etags := etags |};
        files := files s;
        events :=
          evs0 ++ putsFrom data (up_PerUploadSize plan) 0 (up_UploadURLs plan)
               ++ [EvPostForm API_COMMIT_UPLOAD
                     [("in_boss_key", up_InBossKey plan); ("resource_id", up_ResourceID plan);
                      ("etags", Join etags ","); ("upload_id", up_UploadID plan);
                      ("model_id", "7")]] |},
     if cm_Code c =? 0 then Ok tt else Err (ErrCommitCode (cm_Code c) cbody)).
Proof.
  intros Hfile Hplan Hcode H0 Hfit Hin Hacc Hcommit. cbv zeta.
  unfold upload. rewrite bind_getASR, bind_getFiles, bind_emit, Hfile.
  unfold uploadData. rewrite bind_getEvents, bind_emit, Hplan, Hcode. cbn [Z.eqb negb].
  fold (planForm (AudioFormat (asr s)) (length data)).
  rewrite bind_setASR, bind_setASR.
  erewrite bind_ok by (apply uploadChunks_ok; assumption).
  rewrite bind_getASR, bind_getEvents, bind_emit, Hcommit.
  cbn [asr files events set_Etags set_plan Etags InBossKey ResourceID UploadID app].
  rewrite <- !app_assoc. cbn [app].
  destruct (cm_Code c =? 0); cbn [negb andb]; [| reflexivity].
  destruct (String.eqb (cm_DownloadURL c) ""); reflexivity.
Qed.

(** X14.  When the plan and the commit are accepted and every PUT is
    accepted, [upload] succeeds, and the bodies of the PUTs it has sent, put
    end to end, are the first k * perSize bytes of the file for k upload
    URLs: the whole file when the URLs suffice, and only its beginning, still
    with success, when the plan names too few URLs for the file. *)
Theorem upload_puts_cover_prefix
    (w : World) (s : Session) (data : list Z) (plan : UploadResp) (body : string)
    (c : CommitResp) (cbody : string) :
  files s !! AudioPath (asr s) = Some data ->
  (forall evs form, reqUploadReply w evs form = Decoded plan body) ->
  up_Code plan = 0 ->
  0 <= up_PerUploadSize plan ->
  Z.of_nat (length data) + up_PerUploadSize plan < 2 ^ 63 ->
  (forall j, (j < length (up_UploadURLs plan))%nat ->
             Z.of_nat j * up_PerUploadSize plan <= Z.of_nat (length data)) ->
  putsAccepted w ->
  (forall evs form, commitReply w evs form = Decoded c cbody) ->
  cm_Code c = 0 ->
  let sent := Z.of_nat (length (up_UploadURLs plan)) * up_PerUploadSize plan in
  snd (upload w s) = Ok tt
  /\ exists l,
       events (fst (upload w s)) = events s ++ l
       /\ List.filter (fun e => match e with EvPut _ _ => true | _ => false end) l
          = putsFrom data (up_PerUploadSize plan) 0 (up_UploadURLs plan)
       /\ concat (map putBody l) = take (Z.to_nat sent) data
       /\ (Z.of_nat (length data) <= sent -> concat (map putBody l) = data)
       /\ (sent < Z.of_nat (length data) ->
           Z.of_nat (length (concat (map putBody l))) = sent).
Proof.
  intros Hfile Hplan Hcode H0 Hfit Hin Hacc Hcommit Hcm. cbv zeta.
  pose proof (upload_result w s data plan body c cbody Hfile Hplan Hcode H0 Hfit Hin Hacc
                Hcommit) as Hu.
  cbv zeta in Hu. rewrite Hu, Hcm. cbn [fst snd events Z.eqb].
  split; [reflexivity |].
  eexists. split; [rewrite <- app_assoc; reflexivity |].
  assert (Hputs : forall urls i,
            List.filter (fun e => match e with EvPut _ _ => true | _ => false end)
              (putsFrom data (up_PerUploadSize plan) i urls)
            = putsFrom data (up_PerUploadSize plan) i urls).
  { induction urls as [| u urls IH]; intros i; cbn [putsFrom List.filter];
      [reflexivity | rewrite IH; reflexivity]. }
  assert (Hbodies : concat (map putBody
                      ([EvReadFile (AudioPath (asr s));
                        EvPostForm API_REQ_UPLOAD (planForm (AudioFormat (asr s)) (length data))]
                       ++ putsFrom data (up_PerUploadSize plan) 0 (up_UploadURLs plan)
                       ++ [EvPostForm API_COMMIT_UPLOAD
                             [("in_boss_key", up_InBossKey plan);
                              ("resource_id", up_ResourceID plan);
                              ("etags",
                               Join (etagsFrom w data (up_PerUploadSize plan)
                                       (events s ++
                                        [EvReadFile (AudioPath (asr s));
                                         EvPostForm API_REQ_UPLOAD
                                           (planForm (AudioFormat (asr s)) (length data))])
                                       0 (up_UploadURLs plan)) ",");
                              ("upload_id", up_UploadID plan); ("model_id", "7")]]))
                    = take (Z.to_nat (Z.of_nat (length (up_UploadURLs plan))
                                      * up_PerUploadSize plan)) data).
  { cbn [app map putBody concat]. rewrite map_app, concat_app. cbn [map putBody concat].
    rewrite !app_nil_r, putsFrom_bodies, chunks_prefix by assumption. reflexivity. }
  split.
  { cbn [app List.filter]. rewrite List.filter_app, Hputs. cbn [List.filter].
    rewrite app_nil_r. reflexivity. }
  rewrite Hbodies. split; [reflexivity |]. split.
  - intros Hall. apply take_ge. lia.
  - intros Hpart. rewrite length_take. nia.
Qed.

Lemma upload_puts_cover_prefix_witness :
  snd (upload (Demo.service ["u0"; "u1"] 4 4 "") (Demo.session "talk.m4a" Demo.tenBytes))
  = Ok tt
  /\ exists l,
       events (fst (upload (Demo.service ["u0"; "u1"] 4 4 "")
                      (Demo.session "talk.m4a" Demo.tenBytes))) = [] ++ l
       /\ concat (map putBody l) = [0; 1; 2; 3; 4; 5; 6; 7].
Proof.
  destruct (upload_puts_cover_prefix (Demo.service ["u0"; "u1"] 4 4 "")
              (Demo.session "talk.m4a" Demo.tenBytes) Demo.tenBytes
              {| up_Code := 0; up_ResourceID := "res"; up_UploadID := "upl";
                 up_UploadURLs := ["u0"; "u1"]; up_PerUploadSize := 4;
                 up_DownloadURL := "dl0"; up_InBossKey := "key" |} ""
              {| cm_Code := 0; cm_DownloadURL := "dl1"; cm_ResourceID := "res" |} "")
    as (Hok & l & Hev & _ & Hbodies & _).
  - reflexivity.
  - intros evs form. reflexivity.
  - reflexivity.
  - cbn. lia.
  - cbn. lia.
  - cbn. intros j Hj. lia.
  - intros evs url chunk. eexists. split; [reflexivity | left; reflexivity].
  - intros evs form. reflexivity.
  - reflexivity.
  - split; [exact Hok |]. exists l. split; [exact Hev | exact Hbodies].
Defined.

Lemma createTask_result w s t tbody :
  (forall evs taskData, createTaskReply w evs taskData = Decoded t tbody) ->
  createTask w s
  = ({| asr := if tk_Code t =? 0 then set_TaskID (tk_TaskID t) (asr s) else asr s;
        files := files s;
        events := events s ++ [EvPostJSON API_CREATE_TASK
                                 [("resource", DownloadURL (asr s)); ("model_id", "7")]] |},
     if tk_Code t =? 0 then Ok tt
     else Err (ErrCreateTaskCode (tk_Code t) (tk_Message t) tbody)).
Proof.
  intros Ht. unfold createTask. rewrite bind_getASR, bind_getEvents, bind_emit, Ht.
  destruct (tk_Code t =? 0); reflexivity.
Qed.

Lemma runFrom_ok w audioPath s s1 s2 s3 result :
  upload w {| asr := set_AudioPath audioPath (asr s); files := files s; events := events s |}
    = (s1, Ok tt) ->
  createTask w s1 = (s2, Ok tt) ->
  pollResult w s2 = (s3, Ok result) ->
  runFrom w audioPath s = (s3, Ok (toText result)).
Proof.
  intros Hu Hc Hp. unfold runFrom.
  rewrite bind_setASR, bind_wrapErr, Hu, bind_wrapErr, Hc, bind_wrapErr, Hp. reflexivity.
Qed.

Lemma pollResult_first_reply_final w s q qbody result :
  queryReply w (events s) (queryURL (TaskID (asr s))) = QueryReplied (Decoded q qbody) ->
  q_Code q = 0 -> q_State q = 4 -> unmarshalASRResult w (q_Result q) = Some result ->
  pollResult w s
  = ({| asr := asr s; files := files s;
        events := events s ++ [EvGet (queryURL (TaskID (asr s)))] |}, Ok result).
Proof.
  intros Hq Hc H4 Hr. unfold pollResult.
  rewrite (pollAttempts_step failureRemark w 499 s q qbody Hq Hc), H4, Hr. reflexivity.
Qed.

(** X24.  A run on an audio file that meets no refusal: the format of the
    plan request is the extension without its dot, the resource of the task
    is the download URL of the commit, or the one of the plan when the commit
    names none, the query asks for the task the service created, and the
    text returned is the text of the result of the first query when that one
    reports state 4.  Nothing is sent besides the plan request, one PUT per
    URL, the commit, the task creation and that query. *)
Theorem Run_audio_file_end_to_end
    (w : World) (s : Session) (data : list Z) (plan : UploadResp) (body : string)
    (c : CommitResp) (cbody : string) (t : TaskResp) (tbody : string)
    (q : QueryResp) (qbody : string) (result : ASRResult) :
  mapIndex audioExts (ToLower (Ext (goos w) (AudioPath (asr s)))) = true ->
  files s !! AudioPath (asr s) = Some data ->
  (forall evs form, reqUploadReply w evs form = Decoded plan body) ->
  up_Code plan = 0 ->
  0 <= up_PerUploadSize plan ->
  Z.of_nat (length data) + up_PerUploadSize plan < 2 ^ 63 ->
  (forall j, (j < length (up_UploadURLs plan))%nat ->
             Z.of_nat j * up_PerUploadSize plan <= Z.of_nat (length data)) ->
  putsAccepted w ->
  (forall evs form, commitReply w evs form = Decoded c cbody) ->
  cm_Code c = 0 ->
  (forall evs taskData, createTaskReply w evs taskData = Decoded t tbody) ->
  tk_Code t = 0 ->
  (forall evs url, queryReply w evs url = QueryReplied (Decoded q qbody)) ->
  q_Code q = 0 -> q_State q = 4 ->
  unmarshalASRResult w (q_Result q) = Some result ->
  let audioFmt := TrimPrefix (ToLower (Ext (goos w) (AudioPath (asr s)))) "." in
  snd (Run w s) = Ok (toText result)
  /\ exists etags,
       length etags = length (up_UploadURLs plan)
       /\ events (fst (Run w s))
          = events s
            ++ [EvReadFile (AudioPath (asr s));
                EvPostForm API_REQ_UPLOAD (planForm audioFmt (length data))]
            ++ putsFrom data (up_PerUploadSize plan) 0 (up_UploadURLs plan)
            ++ [EvPostForm API_COMMIT_UPLOAD
                  [("in_boss_key", up_InBossKey plan); ("resource_id", up_ResourceID plan);
                   ("etags", Join etags ","); ("upload_id", up_UploadID plan);
                   ("model_id", "7")];
                EvPostJSON API_CREATE_TASK
                  [("resource", if String.eqb (cm_DownloadURL c) ""
                                then up_DownloadURL plan else cm_DownloadURL c);
                   ("model_id", "7")];
                EvGet (queryURL (tk_TaskID t))].
Proof.
  intros Hext Hfile Hplan Hcode H0 Hfit Hin Hacc Hcommit Hcm Htask Htk Hquery Hqc Hq4 Hres.
  cbv zeta. rewrite (Run_audio_branch w s Hext).
  set (audioFmt := TrimPrefix (ToLower (Ext (goos w) (AudioPath (asr s)))) ".").
  set (sa := {| asr := set_AudioFormat audioFmt (asr s); files := files s;
                events := events s |}).
  set (s0 := {| asr := set_AudioPath (AudioPath (asr s)) (asr sa); files := files sa;
                events := events sa |}).
  pose proof (upload_result w s0 data plan body c cbody Hfile Hplan Hcode H0 Hfit Hin Hacc
                Hcommit) as Hu.
  cbv zeta in Hu. rewrite Hcm in Hu. cbn [Z.eqb andb] in Hu.
  match type of Hu with _ = (?x, _) => set (s1 := x) in Hu end.
  pose proof (createTask_result w s1 t tbody Htask) as Hc. rewrite Htk in Hc.
  cbn [Z.eqb] in Hc.
  match type of Hc with _ = (?x, _) => set (s2 := x) in Hc end.
  pose proof (pollResult_first_reply_final w s2 q qbody result (Hquery _ _) Hqc Hq4 Hres) as Hp.
  rewrite (runFrom_ok w (AudioPath (asr s)) sa s1 s2 _ result Hu Hc Hp).
  cbn [fst snd]. split; [reflexivity |].
  eexists. split; [apply etagsFrom_length |].
  subst s2 s1 s0 sa. cbn [asr files events set_TaskID set_AudioPath set_AudioFormat TaskID
                           DownloadURL AudioPath AudioFormat].
  rewrite <- !app_assoc. cbn [app].
  destruct (String.eqb (cm_DownloadURL c) ""); reflexivity.
Qed.

Lemma Run_audio_file_end_to_end_witness :
  snd (Run (Demo.service ["u0"; "u1"; "u2"] 4 4 "") (Demo.session "talk.m4a" Demo.tenBytes))
  = Ok "hello".
Proof.
  destruct (Run_audio_file_end_to_end (Demo.service ["u0"; "u1"; "u2"] 4 4 "")
              (Demo.session "talk.m4a" Demo.tenBytes) Demo.tenBytes
              {| up_Code := 0; up_ResourceID := "res"; up_UploadID := "upl";
                 up_UploadURLs := ["u0"; "u1"; "u2"]; up_PerUploadSize := 4;
                 up_DownloadURL := "dl0"; up_InBossKey := "key" |} ""
              {| cm_Code := 0; cm_DownloadURL := "dl1"; cm_ResourceID := "res" |} ""
              {| tk_Code := 0; tk_Message := ""; tk_TaskID := "task" |} ""
              {| q_Code := 0; q_Message := ""; q_State := 4; q_Remark := "";
                 q_Result := "{}" |} ""
              {| Utterances := [ {| Transcript := "hello"; StartTime := 0; EndTime := 9 |} ] |})
    as (H & _).
  - vm_compute. reflexivity.
  - reflexivity.
  - intros evs form. reflexivity.
  - reflexivity.
  - cbn. lia.
  - cbn. lia.
  - cbn. intros j Hj. lia.
  - intros evs url chunk. eexists. split; [reflexivity | left; reflexivity].
  - intros evs form. reflexivity.
  - reflexivity.
  - intros evs taskData. reflexivity.
  - reflexivity.
  - intros evs url. reflexivity.
  - reflexivity.
  - reflexivity.
  - reflexivity.
  - exact H.
Defined.
